(** * Metric derivation engine of the bank dashboard (src/app.py)

    A shallow embedding of [BankDataAnalyzer.safe_float] and
    [BankDataAnalyzer.calculate_metrics], and the properties of the engine
    stated in the specification; then the code around the engine: the
    acquisition layer that fills its input ([fetch_data]) and the uses
    that [main] and [create_dashboard] make of its table.

    Python values are embedded as follows.
    - A float is a binary64 number: Rocq's primitive [float], whose
      operations are the IEEE 754 ones Python uses.
    - A raw field value (a JSON scalar delivered by the acquisition layer)
      is a [pyval]: [None], an [int], a [float] or a [str].
    - A [dict] with string keys is a [gmap string _]; [d.get(k)] is a lookup
      that defaults to [None], [d[k]] a lookup that raises [KeyError].
    - A raised exception is the [Raise] case of [result]; statements run in
      the [result] monad in source order, so the first exception wins. *)

From Stdlib Require Import ZArith Floats Ascii String.
From stdpp Require Import gmap strings list fin_maps sorting.

Local Open Scope Z_scope.

(** ** Exceptions and results *)

Inductive exn : Set :=
  | KeyError
  | TypeError
  | ValueError
  | OverflowError
  | ZeroDivisionError
  | IndexError.

Inductive result (A : Type) : Type :=
  | Ok (a : A)
  | Raise (e : exn).

Arguments Ok {A} a.
Arguments Raise {A} e.

#[global] Instance exn_eq_dec : EqDecision exn.
Proof. solve_decision. Defined.

#[global] Instance result_eq_dec {A} `{EqDecision A} : EqDecision (result A).
Proof. solve_decision. Defined.

(** The value of a run that returned ([d] stands in for one that raised). *)
Definition get_Ok {A} (d : A) (r : result A) : A :=
  match r with
  | Ok a => a
  | Raise _ => d
  end.

(** Whether a run returned. *)
Definition is_Okb {A} (r : result A) : bool :=
  match r with
  | Ok _ => true
  | Raise _ => false
  end.

#[global] Instance result_ret : MRet result := @Ok.

#[global] Instance result_bind : MBind result :=
  fun A B (f : A -> result B) (r : result A) =>
    match r with
    | Ok a => f a
    | Raise e => Raise e
    end.

#[global] Instance result_fmap : FMap result :=
  fun A B (f : A -> B) (r : result A) =>
    match r with
    | Ok a => Ok (f a)
    | Raise e => Raise e
    end.

(** [try: r except e => h]: the handler replaces exception [e] only. *)
Definition try_except {A} (r : result A) (e : exn) (h : result A) : result A :=
  match r with
  | Ok a => Ok a
  | Raise e' => if decide (e' = e) then h else Raise e'
  end.

(** ** Python values *)

Inductive pyval : Set :=
  | PyNone
  | PyInt (z : Z)
  | PyFloat (f : float)
  | PyStr (s : string).

(** [d.get(k)]: the value stored under [k], [None] when the key is absent. *)
Definition dict_get (d : gmap string pyval) (k : string) : pyval :=
  default PyNone (d !! k).

(** [d[k]]: raises [KeyError] when the key is absent. *)
Definition dict_getitem {V} (d : gmap string V) (k : string) : result V :=
  match d !! k with
  | Some v => Ok v
  | None => Raise KeyError
  end.

(** ** Float arithmetic as Python performs it *)

(** [float(z)] for an [int]: the nearest binary64 number (ties to even),
    [OverflowError] when that would be beyond the largest finite float. *)
Definition float_of_int (z : Z) : result float :=
  match binary_normalize prec emax z 0 false with
  | S754_infinity _ => Raise OverflowError
  | sf => Ok (SF2Prim sf)
  end.

(** [x / y] on floats: [ZeroDivisionError] for a zero divisor (of either
    sign), the IEEE quotient otherwise.  [+], [-] and [*] never raise. *)
Definition float_truediv (x y : float) : result float :=
  if PrimFloat.eqb y 0%float then Raise ZeroDivisionError
  else Ok (x / y)%float.

(** [x > 0]. *)
Definition float_gt0 (x : float) : bool := PrimFloat.ltb 0%float x.

(** [x <= 0]. *)
Definition float_le0 (x : float) : bool := PrimFloat.leb x 0%float.

(** ** Reporting dates

    [pd.to_datetime(v, format='%Y%m%d')] is modelled on the date stamps the
    acquisition layer delivers: an eight-digit [str] "YYYYMMDD", or the
    same number as an [int].  Such a stamp becomes a [Timestamp] when it
    names a calendar day of the years 1678 to 2261 (the whole years inside
    pandas' nanosecond range).  A stamp of these forms with a month or a
    day that the calendar does not have, like "20191345", is a
    [ValueError].  For [None] pandas hands [None] back, on which the
    comparison of line 231 raises [TypeError].
    pandas converts further stamps (the empty string, which becomes NaT;
    a stamp with a month or day of one digit; a float; the days of 1677
    and 2262 inside its range): the model has no [Timestamp] for them and
    ends the run.  So a statement about a returned table is a statement
    about the runs on stamps that the model converts, and no statement
    below says of a stamp that pandas converts that the run on it
    raises. *)

Record Timestamp : Set := mkTimestamp { year : Z; month : Z; day : Z }.

#[global] Instance Timestamp_eq_dec : EqDecision Timestamp.
Proof. solve_decision. Defined.

(** The position of a day in time, as the number YYYYMMDD: on calendar days
    it grows with the date. *)
Definition Timestamp_ord (t : Timestamp) : Z :=
  year t * 10000 + month t * 100 + day t.

Definition Timestamp_le (a b : Timestamp) : Prop :=
  Timestamp_ord a <= Timestamp_ord b.

(** [a >= b] on timestamps. *)
Definition Timestamp_geb (a b : Timestamp) : bool :=
  Timestamp_ord b <=? Timestamp_ord a.

(** [a < b] on timestamps. *)
Definition Timestamp_ltb (a b : Timestamp) : bool :=
  Timestamp_ord a <? Timestamp_ord b.

#[global] Instance Timestamp_le_dec : RelDecision Timestamp_le.
Proof. intros a b. unfold Timestamp_le. apply _. Defined.

Definition is_leap (y : Z) : bool :=
  ((y mod 4 =? 0) && negb (y mod 100 =? 0)) || (y mod 400 =? 0).

Definition days_in_month (y m : Z) : Z :=
  if m =? 2 then (if is_leap y then 29 else 28)
  else if (m =? 4) || (m =? 6) || (m =? 9) || (m =? 11) then 30
  else 31.

Definition Timestamp_of_yyyymmdd (n : Z) : result Timestamp :=
  let y := n / 10000 in
  let m := (n / 100) mod 100 in
  let d := n mod 100 in
  if (1678 <=? y) && (y <=? 2261) && (1 <=? m) && (m <=? 12)
     && (1 <=? d) && (d <=? days_in_month y m)
  then Ok (mkTimestamp y m d)
  else Raise ValueError.

Definition digit_of_ascii (c : ascii) : option Z :=
  let n := Z.of_N (N_of_ascii c) in
  if (48 <=? n) && (n <=? 57) then Some (n - 48) else None.

(** The number written by a string of ASCII digits, read left to right. *)
Fixpoint digits_value (acc : Z) (s : string) : option Z :=
  match s with
  | EmptyString => Some acc
  | String c s' =>
      match digit_of_ascii c with
      | Some d => digits_value (acc * 10 + d) s'
      | None => None
      end
  end.

Definition to_datetime (v : pyval) : result Timestamp :=
  match v with
  | PyStr s =>
      if (String.length s =? 8)%nat then
        match digits_value 0 s with
        | Some n => Timestamp_of_yyyymmdd n
        | None => Raise ValueError
        end
      else Raise ValueError
  | PyInt z => Timestamp_of_yyyymmdd z
  | PyFloat _ => Raise ValueError
  | PyNone => Raise TypeError
  end.

(** [pd.to_datetime('2019-01-01')], the first day of the CECL regime. *)
Definition cecl_start : Timestamp := mkTimestamp 2019 1 1.

(** ** Sorting a bank's records: [sorted(financials, key=...)]

    Python's [x < y] on the values a sort key can be: strings compare by
    code point (byte order of the UTF-8 text), numbers by value with an
    [int] and a [float] compared exactly, anything else is a [TypeError]. *)

Definition int_lt_float (z : Z) (f : float) : bool :=
  match Prim2SF f with
  | S754_nan => false
  | S754_infinity s => negb s
  | S754_zero _ => z <? 0
  | S754_finite s m e =>
      let v := if s then Z.neg m else Z.pos m in
      if 0 <=? e then z <? v * 2 ^ e else z * 2 ^ (- e) <? v
  end.

Definition float_lt_int (f : float) (z : Z) : bool :=
  match Prim2SF f with
  | S754_nan => false
  | S754_infinity s => s
  | S754_zero _ => 0 <? z
  | S754_finite s m e =>
      let v := if s then Z.neg m else Z.pos m in
      if 0 <=? e then v * 2 ^ e <? z else v <? z * 2 ^ (- e)
  end.

Definition py_lt (x y : pyval) : result bool :=
  match x, y with
  | PyStr a, PyStr b => Ok (String.ltb a b)
  | PyInt a, PyInt b => Ok (a <? b)
  | PyFloat a, PyFloat b => Ok (PrimFloat.ltb a b)
  | PyInt a, PyFloat b => Ok (int_lt_float a b)
  | PyFloat a, PyInt b => Ok (float_lt_int a b)
  | _, _ => Raise TypeError
  end.

(** A stable sort that, like Python's, only ever asks [<] of two keys: an
    element moves past the ones whose key is strictly smaller.  On keys
    that [<] orders totally the result is the one stable ordering, whatever
    the algorithm; an exception of a comparison ends the sort. *)
Fixpoint sort_insert {A} (x : pyval * A) (l : list (pyval * A))
  : result (list (pyval * A)) :=
  match l with
  | [] => Ok [x]
  | y :: l' =>
      b ← py_lt y.1 x.1;
      if b : bool then r ← sort_insert x l'; Ok (y :: r)
      else Ok (x :: y :: l')
  end.

Fixpoint sort_keyed {A} (l : list (pyval * A)) : result (list (pyval * A)) :=
  match l with
  | [] => Ok []
  | x :: l' => s ← sort_keyed l'; sort_insert x s
  end.

(** [sorted(l, key=key)]: every key is computed first, then the elements
    are ordered by their keys. *)
Definition py_sorted {A} (key : A -> result pyval) (l : list A)
  : result (list A) :=
  keys ← mapM key l;
  s ← sort_keyed (zip keys l);
  Ok (s.*2).

(** ** A string conversion for closed examples

    Python's [float(s)] on a string of ASCII decimal digits: the nearest
    float to the number written, infinity beyond the float range.  Every
    other string is rejected here, where Python accepts more forms (signs,
    fractions, exponents, "inf", "nan", blanks around the text); the
    theorems hold for every conversion, and no example below depends on a
    string of the other forms. *)
Definition float_of_digits (s : string) : option float :=
  match s with
  | EmptyString => None
  | _ =>
      match digits_value 0 s with
      | Some n => Some (SF2Prim (binary_normalize prec emax n 0 false))
      | None => None
      end
  end.

(** ** Example inputs *)

(** The capital figures of the specification's boundary example: CT1BADJ
    100, EQ 90, EQPP 5, Tier 1 capital 80, allowance 10. *)
Definition capital_record (repdte : string) : gmap string pyval :=
  list_to_map
    [ ("REPDTE", PyStr repdte); ("CT1BADJ", PyInt 100); ("EQ", PyInt 90);
      ("EQPP", PyInt 5); ("RBCT1J", PyInt 80); ("LNATRES", PyInt 10);
      ("LNRE", PyInt 150); ("NTLNLSQ", PyInt 5) ].

(** A record with few fields: an allowance of 50, quarterly net
    charge-offs of 5 written as a string, a string that is no number, and a
    null. *)
Definition sparse_record : gmap string pyval :=
  list_to_map
    [ ("REPDTE", PyStr "20190331"); ("LNATRES", PyFloat 50);
      ("NTLNLSQ", PyStr "5"); ("ASSET", PyStr "n/a"); ("DEP", PyNone) ].

(** Three banks: one whose records arrive latest first, one with a single
    sparse record, one without records. *)
Definition example_data : list (string * list (gmap string pyval)) :=
  [ ("Bank A", [capital_record "20190101"; capital_record "20181231"]);
    ("Bank B", [sparse_record]);
    ("Bank C", []) ].

(** [capital_record] with other values in the three CECL fields. *)
Definition capital_record_variant (repdte : string) : gmap string pyval :=
  <["CT1BADJ" := PyInt 7]>
    (<["EQ" := PyFloat 1]> (<["EQPP" := PyNone]> (capital_record repdte))).

(** Thirteen consecutive quarters. *)
Definition quarters : list string :=
  [ "20160331"; "20160630"; "20160930"; "20161231";
    "20170331"; "20170630"; "20170930"; "20171231";
    "20180331"; "20180630"; "20180930"; "20181231"; "20190331" ].

(** A record whose only loan value is construction and land development:
    [first] in the first quarter, [last] in the last, 120 in between. *)
Definition cre_record (first last : pyval) (repdte : string)
  : gmap string pyval :=
  list_to_map
    [ ("REPDTE", PyStr repdte);
      ("LNRECONS", if String.eqb repdte "20160331" then first
                   else if String.eqb repdte "20190331" then last
                   else PyInt 120) ].

(** One bank with the thirteen quarters, delivered latest first. *)
Definition growth_data (first last : pyval)
  : list (string * list (gmap string pyval)) :=
  [ ("Bank A", cre_record first last <$> reverse quarters) ].

(** A record whose date stamp names month 13. *)
Definition malformed_date_data : list (string * list (gmap string pyval)) :=
  [ ("Bank A", [ {[ "REPDTE" := PyStr "20191345" ]} ]) ].

(** A record without a date stamp. *)
Definition missing_date_data : list (string * list (gmap string pyval)) :=
  [ ("Bank A", [ ∅ ]) ].

(** [example_data] with the records of the first bank delivered earliest
    first. *)
Definition example_data_reordered
  : list (string * list (gmap string pyval)) :=
  [ ("Bank A", [capital_record "20181231"; capital_record "20190101"]);
    ("Bank B", [sparse_record]);
    ("Bank C", []) ].

(** Two banks under the names the regulator lists them by. *)
Definition dashboard_data : list (string * list (gmap string pyval)) :=
  [ ("Flagstar Bank, National Association",
     [capital_record "20190101"; capital_record "20181231"]);
    ("Truist Bank", [sparse_record]) ].

Section Engine.

(** [float(s)] for a [str] is the builtin's business: it is taken as given,
    [None] standing for the [ValueError] of an unparseable string. *)
Variable float_of_str : string -> option float.

(** The builtin [float(value)]. *)
Definition py_float (value : pyval) : result float :=
  match value with
  | PyNone => Raise TypeError
  | PyInt z => float_of_int z
  | PyFloat f => Ok f
  | PyStr s =>
      match float_of_str s with
      | Some f => Ok f
      | None => Raise ValueError
      end
  end.

(** [BankDataAnalyzer.safe_float] (src/app.py, lines 157-161). *)
Definition safe_float (value : pyval) : result float :=
  try_except
    (match value with
     | PyNone => Ok 0%float
     | _ => py_float value
     end)
    ValueError (Ok 0%float).

(** ** The per-record transform (body of the loop, lines 169-289) *)

(** The field table of the [metrics] literal (lines 173-221), in source
    order: metric name and regulatory field code. *)
Definition base_fields : list (string * string) :=
  [ ("Total Assets", "ASSET");
    ("Total Deposits", "DEP");
    ("Total Loans and Leases", "LNLSGR");
    ("Net Loans and Leases", "LNLSNET");
    ("Total Securities", "SC");
    ("Real Estate Loans", "LNRE");
    ("Loans to Residential Properties", "LNRERES");
    ("Multifamily", "LNREMULT");
    ("Farmland Real Estate Loans", "LNREAG");
    ("Loans to Nonresidential Properties", "LNRENRES");
    ("Owner-Occupied Nonresidential Properties Loans", "LNRENROW");
    ("Non-OOC Nonresidential Properties Loans", "LNRENROT");
    ("RE Construction and Land Development", "LNRECONS");
    ("1-4 Family Residential Construction and Land Development Loans", "LNRECNFM");
    ("Other Construction, All Land Development and Other Land Loans", "LNRECNOT");
    ("Commercial Real Estate Loans not Secured by Real Estate", "LNCOMRE");
    ("Commercial and Industrial Loans", "LNCI");
    ("Agriculture Loans", "LNAG");
    ("Credit Cards", "LNCRCD");
    ("Consumer Loans", "LNCONOTH");
    ("Allowance for Credit Loss", "LNATRES");
    ("Past Due 30-89 Days", "P3ASSET");
    ("Past Due 90+ Days", "P9ASSET");
    ("Tier 1 (Core) Capital", "RBCT1J");
    ("Total Charge-Offs", "DRLNLS");
    ("Total Recoveries", "CRLNLS");
    ("Total Loans and Leases Net Charge-Offs Quarterly", "NTLNLSQ");
    ("Net Income", "NETINC");
    ("Common Equity Tier 1 Before Adjustments", "CT1BADJ");
    ("Bank Equity Capital", "EQ");
    ("Perpetual Preferred Stock", "EQPP");
    ("Net Interest Margin", "NIMY");
    ("Earning Assets / Total Assets", "ERNASTR");
    ("Nonperforming Assets / Total Assets", "NPERFV");
    ("Assets Past Due 30-89 Days / Total Assets", "P3ASSETR");
    ("Assets Past Due 90+ Days / Total Assets", "P9ASSETR");
    ("Net Charge-Offs / Total Loans & Leases", "NTLNLSR");
    ("Earnings Coverage of Net Loan Charge-Offs", "IDERNCVR");
    ("Loan and Lease Loss Provision to Net Charge-Offs", "ELNANTR");
    ("Loss Allowance / Total Loans & Leases", "LNATRESR");
    ("Loss Allowance to Noncurrent Loans and Leases", "LNRESNCR");
    ("Noncurrent Loans / Total Loans", "NCLNLSR");
    ("Net Loans and Leases to Deposits", "LNLSDEPR");
    ("Net Loans and Leases to Assets", "LNLSNTV");
    ("Return on Assets", "ROA");
    ("Return on Equity", "ROE");
    ("Leverage (Core Capital) Ratio", "RBC1AAJ");
    ("Total Risk-Based Capital Ratio", "RBCRWAJ");
    ("Efficiency Ratio", "EEFFR") ].

(** The entries of the literal are evaluated top to bottom. *)
Fixpoint fill_metrics (fields : list (string * string))
    (financial metrics : gmap string pyval) : result (gmap string pyval) :=
  match fields with
  | [] => Ok metrics
  | (name, code) :: fields' =>
      v ← safe_float (dict_get financial code);
      fill_metrics fields' financial (<[name := PyFloat v]> metrics)
  end.

(** Lines 170-222: the [metrics] literal. *)
Definition base_metrics (bank_name : string) (financial : gmap string pyval)
  : result (gmap string pyval) :=
  fill_metrics base_fields financial
    (<["Date" := dict_get financial "REPDTE"]>
       (<["Bank" := PyStr bank_name]> ∅)).

(** [metrics[k]] read back as the operand of float arithmetic. *)
Definition getitem_float (metrics : gmap string pyval) (k : string)
  : result float :=
  v ← dict_getitem metrics k;
  match v with
  | PyFloat f => Ok f
  | _ => Raise TypeError
  end.

(** Lines 224-237: the CECL transition amount and the capital base. *)
Definition capital_stage (financial metrics : gmap string pyval)
  : result (gmap string pyval * float) :=
  ct1badj ← getitem_float metrics "Common Equity Tier 1 Before Adjustments";
  eq ← getitem_float metrics "Bank Equity Capital";
  eqpp ← getitem_float metrics "Perpetual Preferred Stock";
  tier1_capital ← getitem_float metrics "Tier 1 (Core) Capital";
  allowance_for_credit_loss ← getitem_float metrics "Allowance for Credit Loss";
  date ← to_datetime (dict_get financial "REPDTE");
  if Timestamp_geb date cecl_start then
    let cecl_transition_amount := (ct1badj - eq + eqpp)%float in
    Ok (<["CECL Transition Amount" := PyFloat cecl_transition_amount]> metrics,
        (tier1_capital + allowance_for_credit_loss - cecl_transition_amount)%float)
  else
    Ok (<["CECL Transition Amount" := PyInt 0]> metrics,
        (tier1_capital + allowance_for_credit_loss)%float).

(** [(metrics[name] / capital_base) * 100]. *)
Definition ratio_to (metrics : gmap string pyval) (name : string)
    (capital_base : float) : result pyval :=
  x ← getitem_float metrics name;
  q ← float_truediv x capital_base;
  Ok (PyFloat (q * 100)%float).

(** Lines 239-259: the six concentration ratios. *)
Definition concentration_stage (metrics : gmap string pyval)
    (capital_base : float) : result (gmap string pyval) :=
  if float_gt0 capital_base then
    v ← ratio_to metrics "Real Estate Loans" capital_base;
    let metrics := <["Real Estate Loans to Tier 1 + ACL" := v]> metrics in
    v ← ratio_to metrics "RE Construction and Land Development" capital_base;
    let metrics :=
      <["RE Construction and Land Development to Tier 1 + ACL" := v]> metrics in
    v ← ratio_to metrics "Commercial and Industrial Loans" capital_base;
    let metrics := <["C&I Loans to Tier 1 + ACL" := v]> metrics in
    v ← ratio_to metrics "Agriculture Loans" capital_base;
    let metrics := <["Agriculture Loans to Tier 1 + ACL" := v]> metrics in
    v ← ratio_to metrics "Credit Cards" capital_base;
    let metrics := <["Credit Cards to Tier 1 + ACL" := v]> metrics in
    a ← getitem_float metrics "RE Construction and Land Development";
    b ← getitem_float metrics "Multifamily";
    c ← getitem_float metrics "Loans to Nonresidential Properties";
    d ← getitem_float metrics
          "Commercial Real Estate Loans not Secured by Real Estate";
    let commercial_re := (a + b + c + d)%float in
    q ← float_truediv commercial_re capital_base;
    Ok (<["Commercial RE to Tier 1 + ACL" := PyFloat (q * 100)%float]> metrics)
  else
    Ok (<["Credit Cards to Tier 1 + ACL" := PyInt 0]>
       (<["Commercial RE to Tier 1 + ACL" := PyInt 0]>
       (<["Agriculture Loans to Tier 1 + ACL" := PyInt 0]>
       (<["C&I Loans to Tier 1 + ACL" := PyInt 0]>
       (<["RE Construction and Land Development to Tier 1 + ACL" := PyInt 0]>
       (<["Real Estate Loans to Tier 1 + ACL" := PyInt 0]> metrics)))))).

(** Lines 261-266 and 270-275: the non-owner-occupied CRE total of a
    record, read from the raw fields. *)
Definition non_owner_occupied_cre (financial : gmap string pyval)
  : result float :=
  a ← safe_float (dict_get financial "LNRECONS");
  b ← safe_float (dict_get financial "LNREMULT");
  c ← safe_float (dict_get financial "LNRENROT");
  d ← safe_float (dict_get financial "LNCOMRE");
  Ok (a + b + c + d)%float.

(** [l[i]] for an index that is not negative. *)
Definition list_getitem {A} (l : list A) (i : nat) : result A :=
  match l !! i with
  | Some x => Ok x
  | None => Raise IndexError
  end.

(** Lines 261-282: the three-year growth rate. *)
Definition growth_stage (sorted_financials : list (gmap string pyval))
    (i : nat) (financial metrics : gmap string pyval)
  : result (gmap string pyval) :=
  cre ← non_owner_occupied_cre financial;
  if (12 <=? i)%nat then
    three_years_ago ← list_getitem sorted_financials (i - 12);
    old_non_owner_occupied_cre ← non_owner_occupied_cre three_years_ago;
    if float_gt0 old_non_owner_occupied_cre then
      q ← float_truediv cre old_non_owner_occupied_cre;
      let growth_rate := (q - 1)%float in
      Ok (<["Non-Owner Occupied CRE 3-Year Growth Rate" :=
              PyFloat (growth_rate * 100)%float]> metrics)
    else
      Ok (<["Non-Owner Occupied CRE 3-Year Growth Rate" := PyNone]> metrics)
  else
    Ok (<["Non-Owner Occupied CRE 3-Year Growth Rate" := PyNone]> metrics).

(** Lines 284-287: net charge-offs over the allowance. *)
Definition charge_off_stage (metrics : gmap string pyval)
  : result (gmap string pyval) :=
  acl ← getitem_float metrics "Allowance for Credit Loss";
  if float_gt0 acl then
    nco ← getitem_float metrics
            "Total Loans and Leases Net Charge-Offs Quarterly";
    acl ← getitem_float metrics "Allowance for Credit Loss";
    q ← float_truediv nco acl;
    Ok (<["Net Charge-Offs / Allowance for Credit Loss" :=
            PyFloat (q * 100)%float]> metrics)
  else
    Ok (<["Net Charge-Offs / Allowance for Credit Loss" := PyInt 0]> metrics).

(** The capital base of a record: the local [capital_base] of the loop
    body, which no column stores. *)
Definition capital_base (bank_name : string) (financial : gmap string pyval)
  : result float :=
  metrics ← base_metrics bank_name financial;
  mc ← capital_stage financial metrics;
  Ok mc.2.

(** The loop body: the [metrics] dict appended for record [i] of a bank. *)
Definition derive_row (bank_name : string)
    (sorted_financials : list (gmap string pyval)) (i : nat)
    (financial : gmap string pyval) : result (gmap string pyval) :=
  metrics ← base_metrics bank_name financial;
  mc ← capital_stage financial metrics;
  metrics ← concentration_stage mc.1 mc.2;
  metrics ← growth_stage sorted_financials i financial metrics;
  charge_off_stage metrics.

(** ** The engine: [BankDataAnalyzer.calculate_metrics] (lines 163-293) *)

(** [enumerate(l)]. *)
Definition enumerate {A} (l : list A) : list (nat * A) :=
  zip (seq 0 (length l)) l.

(** Lines 167-289 for one bank: its records sorted by the raw [REPDTE]
    value, then one [metrics] dict per record, in that order. *)
Definition bank_rows (bank_name : string)
    (financials : list (gmap string pyval))
  : result (list (gmap string pyval)) :=
  sorted_financials ← py_sorted (fun x => dict_getitem x "REPDTE") financials;
  mapM (fun p => derive_row bank_name sorted_financials p.1 p.2)
       (enumerate sorted_financials).

(** A row of the returned frame: the [Date] column after line 292 and the
    other columns as the loop stored them.  [pd.DataFrame] (line 291)
    gives each column one type, which changes how a value is held (the
    [int] 0 as 0.0, a null as NaN, in a column that has a float) and not
    the value; [float64_view] below is a row as a float column holds
    it. *)
Record Row : Type := mkRow {
  row_Date : Timestamp;
  row_cells : gmap string pyval
}.

(** The order of rows by their [Date]. *)
Definition Row_le (r1 r2 : Row) : Prop :=
  Timestamp_le (row_Date r1) (row_Date r2).

#[global] Instance Row_le_dec : RelDecision Row_le.
Proof. intros r1 r2. unfold Row_le. apply _. Defined.

#[global] Instance Row_inhabited : Inhabited Row :=
  populate (mkRow cecl_start ∅).

(** [df[c]] on the frame built from a list of dicts: the column exists when
    some dict has the key (a dict without it shows a missing cell), and
    [KeyError] is raised otherwise; a frame without rows has no column. *)
Definition frame_column (df : list (gmap string pyval)) (c : string)
  : result (list pyval) :=
  if existsb (fun r => bool_decide (is_Some (r !! c))) df
  then Ok ((fun r => dict_get r c) <$> df)
  else Raise KeyError.

(** [df.sort_values('Date')]: ascending by date.  pandas' default algorithm
    does not promise an order among equal dates; the order this sort gives
    them is not used by any statement below. *)
Definition sort_values (df : list Row) : list Row :=
  merge_sort Row_le df.

(** [self.financials_data] is a dict from bank name to the bank's list of
    raw records; [.items()] walks it in insertion order, which the list of
    pairs keeps. *)
Definition calculate_metrics
    (financials_data : list (string * list (gmap string pyval)))
  : result (list Row) :=
  per_bank ← mapM (fun bf => bank_rows bf.1 bf.2) financials_data;
  let all_metrics := concat per_bank in
  col ← frame_column all_metrics "Date";
  dates ← mapM to_datetime col;
  Ok (sort_values
        (zip_with (fun d m => mkRow d (delete "Date" m)) dates all_metrics)).

(** ** The callers of the engine: [__init__], [main] and [create_dashboard] *)

(** [self.dollar_format_metrics] (lines 22-35). *)
Definition dollar_format_metrics : list string :=
  [ "Total Assets"; "Total Deposits"; "Total Loans and Leases";
    "Net Loans and Leases"; "Total Securities"; "Real Estate Loans";
    "Loans to Residential Properties"; "Multifamily";
    "Farmland Real Estate Loans"; "Loans to Nonresidential Properties";
    "Owner-Occupied Nonresidential Properties Loans";
    "Non-OOC Nonresidential Properties Loans";
    "RE Construction and Land Development";
    "1-4 Family Residential Construction and Land Development Loans";
    "Other Construction, All Land Development and Other Land Loans";
    "Commercial Real Estate Loans not Secured by Real Estate";
    "Commercial and Industrial Loans"; "Agriculture Loans"; "Credit Cards";
    "Consumer Loans"; "Allowance for Credit Loss"; "Past Due 30-89 Days";
    "Past Due 90+ Days"; "Tier 1 (Core) Capital"; "Total Charge-Offs";
    "Total Recoveries"; "Net Income";
    "Total Loans and Leases Net Charge-Offs Quarterly";
    "Common Equity Tier 1 Before Adjustments"; "Bank Equity Capital";
    "CECL Transition Amount"; "Perpetual Preferred Stock" ].

(** The items of [self.metric_definitions] (lines 36-95). *)
Definition metric_definitions_items : list (string * string) :=
  [
    ("Total Assets",
     "(YTD, $) The sum of all assets owned by the entity.");
    ("Total Deposits",
     "(YTD, $) The sum of all deposits including demand, savings, and time deposits.");
    ("Total Loans and Leases",
     "(YTD, $) Total loans and lease financing receivables.");
    ("Net Loans and Leases",
     "(YTD, $) Net Loans and Leases");
    ("Total Securities",
     "(YTD, $) Sum of held-to-maturity, available-for-sale, and equity securities.");
    ("Real Estate Loans",
     "(YTD, $) Loans primarily secured by real estate.");
    ("Loans to Residential Properties",
     "(YTD, $) Total loans for residential properties.");
    ("Multifamily",
     "(YTD, $) Loans for multifamily residential properties.");
    ("Farmland Real Estate Loans",
     "(YTD, $) Loans secured by farmland.");
    ("1-4 Family Residential Construction and Land Development Loans",
     "(YTD, $) Construction and land development loans for 1-4 family residential properties.");
    ("Other Construction, All Land Development and Other Land Loans",
     "(YTD, $) Other construction loans, all land development and other land loans.");
    ("Loans to Nonresidential Properties",
     "(YTD, $) Total loans for nonresidential properties.");
    ("Owner-Occupied Nonresidential Properties Loans",
     "(YTD, $) Loans for owner-occupied nonresidential properties.");
    ("Non-OOC Nonresidential Properties Loans",
     "(YTD, $) Loans for non-owner-occupied nonresidential properties.");
    ("Commercial Real Estate Loans not Secured by Real Estate",
     "(YTD, $) Commercial real estate loans that are not secured by real estate.");
    ("Commercial and Industrial Loans",
     "(YTD, $) Loans for commercial and industrial purposes, excluding real estate-secured loans.");
    ("Agriculture Loans",
     "(YTD, $) Loans to finance agricultural production and other loans to farmers.");
    ("Credit Cards",
     "(YTD, $) Consumer loans extended through credit card plans.");
    ("Consumer Loans",
     "(YTD, $) Other loans to individuals for personal expenditures, including student loans.");
    ("Allowance for Credit Loss",
     "(YTD, $) Reserve for estimated credit losses associated with the loan and lease portfolio.");
    ("Past Due 30-89 Days",
     "(Qtly, $) Loans and leases past due 30-89 days, in dollars.");
    ("Past Due 90+ Days",
     "(Qtly, $) Loans and leases past due 90 days or more, in dollars.");
    ("Tier 1 (Core) Capital",
     "(Qtly, $) Tier 1 core capital, which includes common equity tier 1 capital and additional tier 1 capital.");
    ("Total Charge-Offs",
     "(YTD, $) Total charge-offs of loans and leases.");
    ("Total Recoveries",
     "(YTD, $) Total recoveries of loans and leases previously charged off.");
    ("Total Loans and Leases Net Charge-Offs Quarterly",
     "(Qtly, $) Total loans and leases net charge-offs for the quarter.");
    ("Net Income",
     "(YTD, $) Net income earned by the entity.");
    ("RE Construction and Land Development",
     "(YTD, $) Real estate construction and land development loans.");
    ("RE Construction and Land Development to Tier 1 + ACL",
     "(Qtly, %) Real estate construction and land development loans as a percentage of Tier 1 (Core) Capital plus Allowance for Credit Loss.");
    ("Common Equity Tier 1 Before Adjustments",
     "(YTD, $) Common Equity Tier 1 capital before adjustments.");
    ("Bank Equity Capital",
     "(YTD, $) Total bank equity capital.");
    ("Perpetual Preferred Stock",
     "(YTD, $) The amount of perpetual preferred stock issued by the bank.");
    ("CECL Transition Amount",
     "(YTD, $) Current Expected Credit Loss (CECL) Transition Amount, not including Deferred Tax Assets, adjusted for Perpetual Preferred Stock.");
    ("Net Interest Margin",
     "(YTD, %) The net interest margin of the entity.");
    ("Earning Assets / Total Assets",
     "(Qtly, %) Ratio of earning assets to total assets.");
    ("Nonperforming Assets / Total Assets",
     "(Qtly, %) Ratio of nonperforming assets to total assets.");
    ("Assets Past Due 30-89 Days / Total Assets",
     "(Qtly, %) Ratio of assets past due 30-89 days to total assets.");
    ("Assets Past Due 90+ Days / Total Assets",
     "(Qtly, %) Ratio of assets past due 90+ days to total assets.");
    ("Net Charge-Offs / Total Loans & Leases",
     "(YTD, %) Ratio of net charge-offs to total loans and leases.");
    ("Earnings Coverage of Net Loan Charge-Offs",
     "(X) The number of times that earnings can cover net loan charge-offs.");
    ("Loan and Lease Loss Provision to Net Charge-Offs",
     "(YTD, %) Ratio of loan loss provision to net charge-offs.");
    ("Loss Allowance / Total Loans & Leases",
     "(YTD, %) Ratio of loss allowance to total loans and leases.");
    ("Loss Allowance to Noncurrent Loans and Leases",
     "(Qtly, %) Ratio of loss allowance to noncurrent loans and leases.");
    ("Noncurrent Loans / Total Loans",
     "(Qtly, %) Ratio of noncurrent loans to total loans.");
    ("Net Loans and Leases to Deposits",
     "(YTD, %) Loans and lease financing receivables net of unearned income, allowances and reserves as a percent of total deposits.");
    ("Net Loans and Leases to Assets",
     "(Qtly, %) Ratio of net loans and leases to assets.");
    ("Return on Assets",
     "(YTD, %) Return on assets.");
    ("Return on Equity",
     "(YTD, %) Return on equity.");
    ("Leverage (Core Capital) Ratio",
     "(Qtly, %) Leverage ratio (core capital ratio).");
    ("Total Risk-Based Capital Ratio",
     "(Qtly, %) Total risk-based capital ratio.");
    ("Efficiency Ratio",
     "(YTD, %) The efficiency ratio of the entity.");
    ("Real Estate Loans to Tier 1 + ACL",
     "(Qtly, %) Real Estate Loans as a percentage of Tier 1 (Core) Capital plus Allowance for Credit Loss.");
    ("Commercial RE to Tier 1 + ACL",
     "(Qtly, %) Sum of RE Construction and Land Development, Multifamily, Loans to Nonresidential Properties, and Commercial Real Estate Loans not Secured by Real Estate as a percentage of Tier 1 (Core) Capital plus Allowance for Credit Loss.");
    ("Non-Owner Occupied CRE 3-Year Growth Rate",
     "(%) 3-year annualized growth rate of Non-Owner Occupied Commercial Real Estate...");
    ("C&I Loans to Tier 1 + ACL",
     "(Qtly, %) Commercial and Industrial Loans as a percentage of Tier 1 (Core) Capital plus Allowance for Credit Loss.");
    ("Agriculture Loans to Tier 1 + ACL",
     "(Qtly, %) Agriculture Loans as a percentage of Tier 1 (Core) Capital plus Allowance for Credit Loss.");
    ("Credit Cards to Tier 1 + ACL",
     "(Qtly, %) Credit Card loans as a percentage of Tier 1 (Core) Capital plus Allowance for Credit Loss.");
    ("Net Charge-Offs / Allowance for Credit Loss",
     "(Qtly, %) Ratio of Quarterly Net Charge-Offs to Allowance for Credit Loss.") ].

Definition metric_definitions : gmap string string :=
  list_to_map metric_definitions_items.

(** [metric_order] of [create_dashboard] (lines 306-333). *)
Definition metric_order : list string :=
  [ "Real Estate Loans to Tier 1 + ACL";
    "RE Construction and Land Development to Tier 1 + ACL";
    "Commercial RE to Tier 1 + ACL";
    "Non-Owner Occupied CRE 3-Year Growth Rate"; "C&I Loans to Tier 1 + ACL";
    "Agriculture Loans to Tier 1 + ACL"; "Credit Cards to Tier 1 + ACL";
    "Net Charge-Offs / Allowance for Credit Loss";
    "Net Charge-Offs / Total Loans & Leases";
    "Earnings Coverage of Net Loan Charge-Offs";
    "Loan and Lease Loss Provision to Net Charge-Offs";
    "Loss Allowance / Total Loans & Leases";
    "Loss Allowance to Noncurrent Loans and Leases";
    "Nonperforming Assets / Total Assets";
    "Assets Past Due 30-89 Days / Total Assets";
    "Assets Past Due 90+ Days / Total Assets";
    "Noncurrent Loans / Total Loans"; "Net Loans and Leases to Deposits";
    "Net Loans and Leases to Assets"; "Return on Assets"; "Return on Equity";
    "Leverage (Core Capital) Ratio"; "Total Risk-Based Capital Ratio";
    "Efficiency Ratio"; "Earning Assets / Total Assets";
    "Net Interest Margin" ]
  ++ dollar_format_metrics.

(** The items of [bank_name_mapping] (lines 337-360): the name under which
    the regulator lists a bank, and the name the dashboard shows. *)
Definition bank_name_mapping_items : list (string * string) :=
  [ ("Flagstar Bank, National Association", "Flagstar Bank");
    ("The Huntington National Bank", "The Huntington National Bank");
    ("Regions Bank", "Regions Bank");
    ("Wells Fargo Bank, National Association", "Wells Fargo");
    ("Bank of America, National Association", "Bank of America");
    ("Citibank, National Association", "Citibank");
    ("JPMorgan Chase Bank, National Association", "JPMorgan Chase");
    ("U.S. Bank National Association", "U.S. Bank");
    ("PNC Bank, National Association", "PNC Bank");
    ("Truist Bank", "Truist Bank");
    ("Goldman Sachs Bank USA", "Goldman Sachs");
    ("Morgan Stanley Bank, National Association", "Morgan Stanley");
    ("TD Bank, National Association", "TD Bank");
    ("Capital One, National Association", "Capital One");
    ("The Bank of New York Mellon", "BNY Mellon");
    ("Fifth Third Bank, National Association", "Fifth Third Bank");
    ("Citizens Bank, National Association", "Citizens Bank");
    ("Ally Bank", "Ally Bank"); ("KeyBank National Association", "KeyBank");
    ("Discover Bank", "Discover Bank"); ("Synchrony Bank", "Synchrony Bank");
    ("Santander Bank, N.A.", "Santander Bank") ].

Definition bank_name_mapping : gmap string string :=
  list_to_map bank_name_mapping_items.
(** [bank_peers] (lines 364-379). *)
Definition bank_peers : list string :=
  [ "Bank of America"; "Citibank"; "JPMorgan Chase"; "U.S. Bank";
    "PNC Bank"; "Truist Bank"; "Goldman Sachs"; "Morgan Stanley";
    "TD Bank"; "BNY Mellon"; "Fifth Third Bank"; "Citizens Bank";
    "KeyBank"; "Santander Bank" ].

(** [df.columns] of the frame built from the table.  pandas lists every
    key of the dicts once; the order in which it lists them is left open,
    so that what is proved of [columns] holds for the order pandas takes. *)
Definition is_columns (df : list Row) (columns : list string) : Prop :=
  NoDup columns
  /\ forall c, c ∈ columns
               <-> c = "Date"
                   \/ exists row, row ∈ df /\ is_Some (row_cells row !! c).

(** [df[selection]]: the frame with the selected columns in the selected
    order, [KeyError] when a selected name is no column. *)
Definition frame_select (columns selection : list string)
  : result (list string) :=
  if bool_decide (Forall (fun c => c ∈ columns) selection) then Ok selection
  else Raise KeyError.

(** [sorted_columns] of [main] (lines 1003-1007). *)
Definition main_sorted_columns (columns : list string) : list string :=
  ["Bank"; "Date"] ++ dollar_format_metrics
  ++ filter (fun col => (col ∉ dollar_format_metrics)
                        /\ (col ∉ ["Bank"; "Date"]))
            columns.

(** [metrics_df[sorted_columns]] (line 1008). *)
Definition main_select (columns : list string) : result (list string) :=
  frame_select columns (main_sorted_columns columns).

(** [available_metrics] (line 335). *)
Definition available_metrics (columns : list string) : list string :=
  filter (fun metric => metric ∈ columns) metric_order.

(** [sorted_columns] of [display_click_data] (line 942); [index] is
    [bank_data.index], the columns of the frame. *)
Definition click_sorted_columns (index : list string) : list string :=
  filter (fun col => col ∈ index) metric_order
  ++ filter (fun col => (col ∉ metric_order) /\ (col ∉ ["Bank"; "Date"]))
            index.

(** [metric_definitions.get(col, '')] (line 950). *)
Definition metric_definition (col : string) : string :=
  default EmptyString (metric_definitions !! col).

(** [df['Bank'].map(bank_name_mapping)] (line 362) on one row: the cell
    becomes the mapped name, and NaN when the mapping has no such key. *)
Definition map_bank (row : Row) : Row :=
  mkRow (row_Date row)
        (<["Bank" := match row_cells row !! "Bank" with
                     | Some (PyStr b) =>
                         match bank_name_mapping !! b with
                         | Some n => PyStr n
                         | None => PyFloat PrimFloat.nan
                         end
                     | _ => PyFloat PrimFloat.nan
                     end]> (row_cells row)).

(** The bank a row shows, when its cell is a string. *)
Definition bank_of (row : Row) : option string :=
  match row_cells row !! "Bank" with
  | Some (PyStr b) => Some b
  | _ => None
  end.

(** [update_peer_selector] (lines 639-649): the peers that the dropdown
    it returns offers, which are also its selected value. *)
Definition update_peer_selector (selected_groups : list string)
  : list string :=
  if bool_decide ("bank_peers" ∈ selected_groups) then bank_peers else [].

(** [selected_banks] (line 663). *)
Definition selected_banks (selected_peers : list string) : list string :=
  "Flagstar Bank" :: selected_peers.

(** [df['Bank'].isin(banks)] on one row: NaN is in no list of names. *)
Definition bank_isin (banks : list string) (row : Row) : bool :=
  match bank_of row with
  | Some b => bool_decide (b ∈ banks)
  | None => false
  end.

(** [df[df['Bank'].isin(selected_banks)]] (line 698) on the frame after
    line 362. *)
Definition trend_rows (selected_peers : list string) (df : list Row)
  : list Row :=
  filter (fun row => bank_isin (selected_banks selected_peers) row = true)
         (map_bank <$> df).

(** The index and the column that [pivot] files a row under. *)
Definition pivot_key (row : Row) : Timestamp * option string :=
  (row_Date row, bank_of row).

(** [.pivot(index='Date', columns='Bank', values=metric)] (line 698): one
    cell for each (date, bank) pair; pandas raises [ValueError] when two
    rows share their pair.  The reshaped frame is given by its filled
    cells. *)
Definition pivot (rows : list Row) (metric : string)
  : result (list ((Timestamp * option string) * pyval)) :=
  if bool_decide (NoDup (pivot_key <$> rows))
  then Ok ((fun row => (pivot_key row, dict_get (row_cells row) metric))
           <$> rows)
  else Raise ValueError.

(** ** The acquisition layer: [get_data], [get_institutions],
    [get_financials] and [fetch_data] (lines 97-155)

    A decoded JSON document is a [json]: [None], a [bool], an [int], a
    [float], a [str], a [list], or a [dict] given by its items in order.
    The keys of such a [dict] are strings; a lookup finds the first item
    of its key. *)

#[warnings="-register-all"]
Inductive json : Type :=
  | JNone
  | JBool (b : bool)
  | JInt (z : Z)
  | JFloat (f : float)
  | JStr (s : string)
  | JList (l : list json)
  | JDict (d : list (string * json)).

(** [d.get(k)] on the items of a [dict]. *)
Fixpoint assoc (k : string) (d : list (string * json)) : option json :=
  match d with
  | [] => None
  | (k', v) :: d' => if String.eqb k k' then Some v else assoc k d'
  end.

(** [bool(v)], the test of [if v:]. *)
Definition py_bool (v : json) : bool :=
  match v with
  | JNone => false
  | JBool b => b
  | JInt z => negb (z =? 0)
  | JFloat f => negb (PrimFloat.eqb f 0%float)
  | JStr s => negb (String.eqb s EmptyString)
  | JList l => negb (bool_decide (l = []))
  | JDict d => negb (bool_decide (d = []))
  end.

(** A byte that continues a character of UTF-8 text. *)
Definition is_continuation (c : ascii) : bool :=
  (N.land (N_of_ascii c) 192 =? 128)%N.

(** The characters of a [str], each with the bytes of its encoding. *)
Fixpoint code_points (s : string) : list string :=
  match s with
  | EmptyString => []
  | String c s' =>
      match s' with
      | String c' _ =>
          if is_continuation c' then
            match code_points s' with
            | p :: r => String c p :: r
            | [] => [String c EmptyString]
            end
          else String c EmptyString :: code_points s'
      | EmptyString => [String c EmptyString]
      end
  end.

(** [v[0]]: the first element of a [list], the first character of a
    [str]; a [dict] of these has no key 0, and nothing else can be
    subscripted. *)
Definition first_item (v : json) : result json :=
  match v with
  | JList l => list_getitem l 0
  | JStr s => JStr <$> list_getitem (code_points s) 0
  | JDict _ => Raise KeyError
  | _ => Raise TypeError
  end.

(** [k in v] for a string [k]: a key of a [dict], a part of a [str], an
    element of a [list]. *)
Definition contains (k : string) (v : json) : result bool :=
  match v with
  | JDict d => Ok (bool_decide (is_Some (assoc k d)))
  | JStr s => Ok (bool_decide (is_Some (String.index 0 k s)))
  | JList l =>
      Ok (existsb (fun x => match x with
                            | JStr s => String.eqb s k
                            | _ => false
                            end) l)
  | _ => Raise TypeError
  end.

(** [v[k]] for a string [k]: only a [dict] takes a string as subscript. *)
Definition getitem_str (k : string) (v : json) : result json :=
  match v with
  | JDict d =>
      match assoc k d with
      | Some x => Ok x
      | None => Raise KeyError
      end
  | _ => Raise TypeError
  end.

(** [a == b] for an [int] and a [float], compared exactly. *)
Definition int_eq_float (z : Z) (f : float) : bool :=
  negb (PrimFloat.is_nan f) && negb (int_lt_float z f)
  && negb (float_lt_int f z).

(** Whether an existing key [a] of a [dict] is the key [b] of a later
    subscript: numbers are one key when they are equal ([True] is 1), and
    a NaN of a later answer is a new object, equal to no key. *)
Definition key_eq (a b : json) : bool :=
  match a, b with
  | JNone, JNone => true
  | JStr s, JStr t => String.eqb s t
  | JBool x, JBool y => Bool.eqb x y
  | JBool x, JInt z | JInt z, JBool x => (if x then 1 else 0) =? z
  | JBool x, JFloat f | JFloat f, JBool x =>
      int_eq_float (if x then 1 else 0) f
  | JInt x, JInt y => x =? y
  | JInt z, JFloat f | JFloat f, JInt z => int_eq_float z f
  | JFloat x, JFloat y => PrimFloat.eqb x y
  | _, _ => false
  end.

(** The items of a [dict] after [d[k] = v]: the value of an existing key
    is replaced in place, a new key goes to the end. *)
Fixpoint store {V} (k : json) (v : V) (d : list (json * V))
  : list (json * V) :=
  match d with
  | [] => [(k, v)]
  | (k', v') :: d' =>
      if key_eq k' k then (k', v) :: d' else (k', v') :: store k v d'
  end.

(** [d[k] = v]: a [list] or a [dict] cannot be a key. *)
Definition dict_setitem {V} (d : list (json * V)) (k : json) (v : V)
  : result (list (json * V)) :=
  match k with
  | JList _ | JDict _ => Raise TypeError
  | _ => Ok (store k v d)
  end.

(** What [for f in v] runs through: the elements of a [list], the
    characters of a [str], the keys of a [dict]. *)
Definition py_iter (v : json) : result (list json) :=
  match v with
  | JList l => Ok l
  | JStr s => Ok (JStr <$> code_points s)
  | JDict d => Ok (JStr <$> d.*1)
  | _ => Raise TypeError
  end.

(** The comprehension of lines 145-147 over the elements [fs]:
    [[f['data'] for f in fs if isinstance(f, dict) and 'data' in f]]. *)
Definition data_members (fs : list json) : list json :=
  omap (fun f => match f with
                 | JDict d => assoc "data" d
                 | _ => None
                 end) fs.

(** The two dicts of the analyzer, as their items in insertion order, and
    the number of requests made so far. *)
Record analyzer : Type := mkAnalyzer {
  self_institutions_data : list (json * json);
  self_financials_data : list (json * list json);
  requests : nat
}.

(** [BankDataAnalyzer.__init__] (lines 20-21). *)
Definition init : analyzer := mkAnalyzer [] [] 0.

(** What [get_data] returns when the request fails (line 105). *)
Definition failed_request : list (string * json) := [("data", JList [])].

(** [get_data] (lines 97-105).  The network is given by what each call
    returns, in the order of the calls: the decoded body of the answer,
    taken to be a JSON object as the annotation says, or [failed_request].
    The query only reaches the network, so it is left out. *)
Definition get_data (net : nat -> list (string * json)) (st : analyzer)
  : list (string * json) * analyzer :=
  (net (requests st),
   mkAnalyzer (self_institutions_data st) (self_financials_data st)
              (S (requests st))).

(** [get_institutions] (lines 107-110). *)
Definition get_institutions (net : nat -> list (string * json))
    (st : analyzer) : json * analyzer :=
  let (data, st) := get_data net st in
  (default (JList []) (assoc "data" data), st).

(** [get_financials] (lines 112-115). *)
Definition get_financials (net : nat -> list (string * json))
    (st : analyzer) : json * analyzer :=
  let (data, st) := get_data net st in
  (default (JList []) (assoc "data" data), st).

(** Lines 136-147: the bank of an answer is recorded, and its records
    are fetched. *)
Definition record_bank (net : nat -> list (string * json)) (st : analyzer)
    (bank_data : json) : result analyzer :=
  name ← getitem_str "NAME" bank_data;
  institutions_data ← dict_setitem (self_institutions_data st) name bank_data;
  _ ← getitem_str "CERT" bank_data;
  let (financials, st) := get_financials net st in
  fs ← py_iter financials;
  name ← getitem_str "NAME" bank_data;
  financials_data ←
    dict_setitem (self_financials_data st) name (data_members fs);
  Ok (mkAnalyzer institutions_data financials_data (requests st)).

(** Lines 132-153: what the loop does with the answer to the institution
    query. *)
Definition handle_institutions (net : nat -> list (string * json))
    (st : analyzer) (institutions : json) : result analyzer :=
  if py_bool institutions then
    bank ← first_item institutions;
    match bank with
    | JDict d =>
        match assoc "data" d with
        | Some bank_data =>
            has_name ← contains "NAME" bank_data;
            has_cert ← (if has_name : bool then contains "CERT" bank_data
                        else Ok false);
            if has_cert : bool then record_bank net st bank_data else Ok st
        | None => Ok st
        end
    | _ => Ok st
    end
  else Ok st.

(** The body of the loop of [fetch_data] (lines 124-153). *)
Definition fetch_item (net : nat -> list (string * json)) (st : analyzer)
    (bank_item : json) : result analyzer :=
  match bank_item with
  | JStr _ =>
      let (institutions, st) := get_institutions net st in
      handle_institutions net st institutions
  | JDict _ =>
      _ ← getitem_str "cert" bank_item;
      let (institutions, st) := get_institutions net st in
      handle_institutions net st institutions
  | _ => Ok st
  end.

(** [BankDataAnalyzer.fetch_data] (lines 117-153). *)
Fixpoint fetch_data (net : nat -> list (string * json)) (st : analyzer)
    (bank_info : list json) : result analyzer :=
  match bank_info with
  | [] => Ok st
  | bank_item :: bank_info' =>
      st ← fetch_item net st bank_item;
      fetch_data net st bank_info'
  end.

(** A network that answers the first request with one institution, the
    second with one record of it, and fails every later request. *)
Definition example_net (n : nat) : list (string * json) :=
  match n with
  | 0%nat =>
      [("data",
        JList [JDict [("data", JDict [("NAME", JStr "Truist Bank");
                                      ("CERT", JInt 9846)])]])]
  | 1%nat =>
      [("data",
        JList [JDict [("data", JDict [("REPDTE", JStr "20190331")])]])]
  | _ => failed_request
  end.

(** A network on which every request fails. *)
Definition dead_net (n : nat) : list (string * json) := failed_request.

(** ** The vocabulary of the statements *)

(** The columns of the six concentration ratios. *)
Definition ratio_names : list string :=
  [ "Real Estate Loans to Tier 1 + ACL";
    "RE Construction and Land Development to Tier 1 + ACL";
    "C&I Loans to Tier 1 + ACL";
    "Agriculture Loans to Tier 1 + ACL";
    "Credit Cards to Tier 1 + ACL";
    "Commercial RE to Tier 1 + ACL" ].

(** All the columns that the stages after the literal add. *)
Definition derived_names : list string :=
  "CECL Transition Amount" :: ratio_names
  ++ [ "Non-Owner Occupied CRE 3-Year Growth Rate";
       "Net Charge-Offs / Allowance for Credit Loss" ].

(** The raw fields of the CECL transition amount. *)
Definition cecl_codes : list string := ["CT1BADJ"; "EQ"; "EQPP"].

(** The stored values that the capital computation reads. *)
Definition capital_inputs (row : gmap string pyval)
    (ct1badj eq eqpp tier1 acl : float) : Prop :=
  row !! "Common Equity Tier 1 Before Adjustments" = Some (PyFloat ct1badj)
  /\ row !! "Bank Equity Capital" = Some (PyFloat eq)
  /\ row !! "Perpetual Preferred Stock" = Some (PyFloat eqpp)
  /\ row !! "Tier 1 (Core) Capital" = Some (PyFloat tier1)
  /\ row !! "Allowance for Credit Loss" = Some (PyFloat acl).

(** The stored loan values that the concentration ratios read. *)
Definition ratio_inputs (row : gmap string pyval)
    (re cons ci ag cc multi nonres comre : float) : Prop :=
  row !! "Real Estate Loans" = Some (PyFloat re)
  /\ row !! "RE Construction and Land Development" = Some (PyFloat cons)
  /\ row !! "Commercial and Industrial Loans" = Some (PyFloat ci)
  /\ row !! "Agriculture Loans" = Some (PyFloat ag)
  /\ row !! "Credit Cards" = Some (PyFloat cc)
  /\ row !! "Multifamily" = Some (PyFloat multi)
  /\ row !! "Loans to Nonresidential Properties" = Some (PyFloat nonres)
  /\ row !! "Commercial Real Estate Loans not Secured by Real Estate"
       = Some (PyFloat comre).

(** The six ratios over a capital base that is [> 0]. *)
Definition ratios_over (row : gmap string pyval)
    (re cons ci ag cc multi nonres comre cb : float) : Prop :=
  row !! "Real Estate Loans to Tier 1 + ACL"
    = Some (PyFloat (re / cb * 100)%float)
  /\ row !! "RE Construction and Land Development to Tier 1 + ACL"
       = Some (PyFloat (cons / cb * 100)%float)
  /\ row !! "C&I Loans to Tier 1 + ACL" = Some (PyFloat (ci / cb * 100)%float)
  /\ row !! "Agriculture Loans to Tier 1 + ACL"
       = Some (PyFloat (ag / cb * 100)%float)
  /\ row !! "Credit Cards to Tier 1 + ACL"
       = Some (PyFloat (cc / cb * 100)%float)
  /\ row !! "Commercial RE to Tier 1 + ACL"
       = Some (PyFloat ((cons + multi + nonres + comre) / cb * 100)%float).

(** The six ratios at the zero of the zero-denominator policy. *)
Definition ratios_zero (row : gmap string pyval) : Prop :=
  Forall (fun name => row !! name = Some (PyInt 0)) ratio_names.

(** The stored loan values that make up non-owner-occupied CRE. *)
Definition cre_inputs (row : gmap string pyval)
    (cons multi nonooc comre : float) : Prop :=
  row !! "RE Construction and Land Development" = Some (PyFloat cons)
  /\ row !! "Multifamily" = Some (PyFloat multi)
  /\ row !! "Non-OOC Nonresidential Properties Loans" = Some (PyFloat nonooc)
  /\ row !! "Commercial Real Estate Loans not Secured by Real Estate"
       = Some (PyFloat comre).

(** Row [row] of the table is derived from record [i] (the dict
    [financial]) of the sorted sequence of bank [bank_name]. *)
Definition derived_at
    (financials_data : list (string * list (gmap string pyval)))
    (row : Row) (bank_name : string)
    (sorted_financials : list (gmap string pyval)) (i : nat)
    (financial : gmap string pyval) : Prop :=
  exists financials m,
    (bank_name, financials) ∈ financials_data
    /\ py_sorted (fun x => dict_getitem x "REPDTE") financials
         = Ok sorted_financials
    /\ sorted_financials !! i = Some financial
    /\ derive_row bank_name sorted_financials i financial = Ok m
    /\ to_datetime (dict_get financial "REPDTE") = Ok (row_Date row)
    /\ row_cells row = delete "Date" m.

(** The bank and the parsed date of a dict of the loop. *)
Definition dict_key (m : gmap string pyval) : option pyval * result Timestamp :=
  (m !! "Bank", to_datetime (dict_get m "Date")).

(** The bank and the date of a row of the table. *)
Definition row_key (row : Row) : option pyval * Timestamp :=
  (row_cells row !! "Bank", row_Date row).

(** Two keyed records in the order of their dates. *)
Definition key_date_le {A} (x y : pyval * A) : Prop :=
  exists tx ty, to_datetime x.1 = Ok tx /\ to_datetime y.1 = Ok ty
                /\ Timestamp_le tx ty.

(** The records of a bank, in the order of the loop, carry dates that
    never go back. *)
Definition dates_ascending (sorted_financials : list (gmap string pyval))
  : Prop :=
  forall i j fi fj ti tj,
    (i <= j)%nat ->
    sorted_financials !! i = Some fi -> sorted_financials !! j = Some fj ->
    to_datetime (dict_get fi "REPDTE") = Ok ti ->
    to_datetime (dict_get fj "REPDTE") = Ok tj ->
    Timestamp_le ti tj.

(** A record whose date stamp is a string of eight digits, the form
    YYYYMMDD in which the regulator writes it. *)
Definition eight_digit_stamp (financial : gmap string pyval) : Prop :=
  exists s n,
    financial !! "REPDTE" = Some (PyStr s)
    /\ String.length s = 8%nat /\ digits_value 0 s = Some n.

(** A raw value that [float] converts or rejects with [ValueError]: every
    value but an [int] beyond the float range. *)
Definition coercible (v : pyval) : Prop :=
  match v with
  | PyInt z => exists f, float_of_int z = Ok f
  | _ => True
  end.

(** A record the loop body accepts: its [REPDTE] is a string of eight
    digits YYYYMMDD that names a calendar day of the years 1678 to 2261,
    and its fields are coercible. *)
Definition well_formed_record (financial : gmap string pyval) : Prop :=
  (exists s t, financial !! "REPDTE" = Some (PyStr s)
               /\ to_datetime (PyStr s) = Ok t)
  /\ forall code, coercible (dict_get financial code).

(** Every column of the literal is present and holds a float. *)
Definition has_base (m : gmap string pyval) : Prop :=
  forall name, name ∈ base_fields.*1 -> exists v, m !! name = Some (PyFloat v).

(** The metric columns of the frame: the names of the literal, then the
    columns that the later stages add. *)
Definition metric_columns : list string := base_fields.*1 ++ derived_names.

(** The columns that hold a computed float on one branch of the code and
    the [int] 0 on the other. *)
Definition zero_default_names : list string :=
  "CECL Transition Amount" :: ratio_names
  ++ [ "Net Charge-Offs / Allowance for Credit Loss" ].

(** The bank and the parsed date of every input record, bank by bank. *)
Definition record_keys
    (financials_data : list (string * list (gmap string pyval)))
  : list (option pyval * result Timestamp) :=
  concat ((fun bf : string * list (gmap string pyval) =>
             (fun fin => (Some (PyStr bf.1),
                          to_datetime (dict_get fin "REPDTE"))) <$> bf.2)
          <$> financials_data).

(** What a run of the loop body shows of its record: a [REPDTE] that the
    date conversion takes, and no [int] beyond the float range in the
    fields the literal reads. *)
Definition accepted_record (financial : gmap string pyval) : Prop :=
  (exists v t, financial !! "REPDTE" = Some v /\ to_datetime v = Ok t)
  /\ Forall (fun code => coercible (dict_get financial code)) base_fields.*2.


(** The date stamps of one bank are all strings or all numbers: the
    keys that [sorted] can order. *)
Definition sortable_dates (financials : list (gmap string pyval)) : Prop :=
  Forall (fun f => exists s, f !! "REPDTE" = Some (PyStr s)) financials
  \/ Forall (fun f => (exists z, f !! "REPDTE" = Some (PyInt z))
                      \/ (exists x, f !! "REPDTE" = Some (PyFloat x)))
            financials.

(** A cell as a float64 column of the frame holds it.  [pd.DataFrame]
    (line 291) gives a column of numbers one type: where a row of the
    column has a float, a null is held as NaN and the [int] 0 as 0.0. *)
Definition as_float64 (v : pyval) : pyval :=
  match v with
  | PyNone => PyFloat PrimFloat.nan
  | PyInt z =>
      match float_of_int z with
      | Ok f => PyFloat f
      | Raise _ => PyInt z
      end
  | _ => v
  end.

(** A row with its cells in that view. *)
Definition float64_view (row : Row) : Row :=
  mkRow (row_Date row) (as_float64 <$> row_cells row).

(** The exceptions that a defect of the input data raises. *)
Definition input_error (e : exn) : Prop :=
  e = KeyError \/ e = TypeError \/ e = ValueError \/ e = OverflowError.

(** The row of the frame that a dict of the loop becomes at line 292. *)
Definition frame_row (m : gmap string pyval) : Row :=
  mkRow (get_Ok cecl_start (to_datetime (dict_get m "Date")))
        (delete "Date" m).


(** * Properties *)

(** ** Results *)

Lemma bind_Ok {A B} (f : A -> result B) (r : result A) (b : B) :
  r ≫= f = Ok b -> exists a, r = Ok a /\ f a = Ok b.
Proof. destruct r as [a|e]; simpl; [eauto | discriminate]. Qed.

Lemma bind_Ok_eq {A B} (f : A -> result B) (r : result A) (a : A) :
  r = Ok a -> r ≫= f = f a.
Proof. by intros ->. Qed.

Lemma fmap_Ok {A B} (f : A -> B) (r : result A) (b : B) :
  f <$> r = Ok b -> exists a, r = Ok a /\ b = f a.
Proof. destruct r as [a|e]; simpl; [|discriminate]. intros [= <-]. eauto. Qed.

Lemma Ok_inj {A} (a b : A) : Ok a = Ok b -> a = b.
Proof. congruence. Qed.

(** Splits a successful run into the successful runs of its steps. *)
Ltac inv_ok :=
  repeat match goal with
  | H : Ok _ = Ok _ |- _ => apply Ok_inj in H; try subst
  | H : Raise _ = Ok _ |- _ => discriminate H
  | H : mret ?x = Ok _ |- _ => change (mret x) with (Ok x) in H
  | H : _ ≫= _ = Ok _ |- _ =>
      let a := fresh "a" in
      let E := fresh "E" in
      apply bind_Ok in H as (a & E & H)
  | H : (_, _) = (_, _) |- _ => apply pair_equal_spec in H as [? ?]; try subst
  end.

Lemma mapM_Ok_Forall2 {A B} (f : A -> result B) (l : list A) (k : list B) :
  mapM f l = Ok k <-> Forall2 (fun x y => f x = Ok y) l k.
Proof.
  split.
  - revert k. induction l as [|x l IH]; intros k H; simpl in H.
    + injection H as <-. constructor.
    + inv_ok. constructor; auto.
  - induction 1 as [|x y l k Hxy _ IH]; simpl; [done|].
    by rewrite Hxy; simpl; rewrite IH.
Qed.

Lemma mapM_Ok_length {A B} (f : A -> result B) (l : list A) (k : list B) :
  mapM f l = Ok k -> length k = length l.
Proof. intros H%mapM_Ok_Forall2. symmetry. by eapply Forall2_length. Qed.

Lemma mapM_Ok_lookup {A B} (f : A -> result B) (l : list A) (k : list B)
    (i : nat) (y : B) :
  mapM f l = Ok k -> k !! i = Some y -> exists x, l !! i = Some x /\ f x = Ok y.
Proof.
  intros H%mapM_Ok_Forall2 Hy.
  destruct (Forall2_lookup_r _ _ _ _ _ H Hy) as (x & ? & ?). eauto.
Qed.

Lemma mapM_total {A B} (f : A -> result B) (l : list A) :
  Forall (fun x => exists y, f x = Ok y) l -> exists k, mapM f l = Ok k.
Proof.
  induction 1 as [|x l [y Hy] _ [k Hk]]; simpl; [by eexists|].
  rewrite Hy; simpl. rewrite Hk; simpl. by eexists.
Qed.

(** ** The [metrics] literal *)

(** Settles a closed decidable statement, such as the membership of a
    name in a table, by evaluation. *)
Ltac field_in := apply (bool_decide_unpack _); by vm_compute.

Lemma fill_metrics_other fields financial metrics m k :
  fill_metrics fields financial metrics = Ok m ->
  k ∉ fields.*1 -> m !! k = metrics !! k.
Proof.
  revert metrics. induction fields as [|[name code] fields IH];
    intros metrics H Hk; simpl in H.
  - by injection H as <-.
  - inv_ok. simpl in Hk. apply not_elem_of_cons in Hk as [Hne Hk].
    rewrite (IH _ H Hk). by apply lookup_insert_ne.
Qed.

Lemma fill_metrics_field fields financial metrics m name code :
  fill_metrics fields financial metrics = Ok m ->
  NoDup fields.*1 -> (name, code) ∈ fields ->
  exists v, safe_float (dict_get financial code) = Ok v
            /\ m !! name = Some (PyFloat v).
Proof.
  revert metrics. induction fields as [|[name' code'] fields IH];
    intros metrics H Hnd Hin; simpl in H.
  - by apply elem_of_nil in Hin.
  - inv_ok. simpl in Hnd. apply NoDup_cons in Hnd as [Hfresh Hnd].
    apply elem_of_cons in Hin as [Heq|Hin].
    + injection Heq as -> ->. exists a. split; [done|].
      rewrite (fill_metrics_other _ _ _ _ _ H Hfresh).
      apply lookup_insert_eq.
    + eauto.
Qed.

Lemma fill_metrics_total fields financial metrics :
  Forall (fun nc => exists v, safe_float (dict_get financial nc.2) = Ok v)
         fields ->
  exists m, fill_metrics fields financial metrics = Ok m.
Proof.
  intros H. revert metrics.
  induction H as [|[name code] fields [v Hv] _ IH]; intros metrics; simpl.
  - by eexists.
  - simpl in Hv. rewrite Hv; simpl. apply IH.
Qed.

Lemma base_fields_NoDup : NoDup base_fields.*1.
Proof. field_in. Qed.

Lemma base_metrics_field bank_name financial m name code :
  base_metrics bank_name financial = Ok m ->
  (name, code) ∈ base_fields ->
  exists v, safe_float (dict_get financial code) = Ok v
            /\ m !! name = Some (PyFloat v).
Proof.
  intros H Hin.
  exact (fill_metrics_field _ _ _ _ _ _ H base_fields_NoDup Hin).
Qed.

Lemma base_metrics_Bank bank_name financial m :
  base_metrics bank_name financial = Ok m ->
  m !! "Bank" = Some (PyStr bank_name).
Proof.
  intros H. rewrite (fill_metrics_other _ _ _ _ "Bank" H).
  - by rewrite lookup_insert_ne, lookup_insert_eq.
  - field_in.
Qed.

Lemma base_metrics_Date bank_name financial m :
  base_metrics bank_name financial = Ok m ->
  m !! "Date" = Some (dict_get financial "REPDTE").
Proof.
  intros H. rewrite (fill_metrics_other _ _ _ _ "Date" H).
  - by rewrite lookup_insert_eq.
  - field_in.
Qed.

Lemma getitem_float_Ok (metrics : gmap string pyval) k f :
  getitem_float metrics k = Ok f <-> metrics !! k = Some (PyFloat f).
Proof.
  unfold getitem_float, dict_getitem.
  destruct (metrics !! k) as [[ | | |]|]; simpl; split; congruence.
Qed.

(** ** What each stage writes, and what it leaves alone *)

Ltac split_notin :=
  repeat match goal with
  | H : _ ∉ _ :: _ |- _ => apply not_elem_of_cons in H as [? H]
  end.

Ltac lookup_through :=
  repeat first
    [ rewrite lookup_insert_eq
    | rewrite lookup_insert_ne by (done || discriminate) ].

Lemma capital_stage_frame financial metrics mc k :
  capital_stage financial metrics = Ok mc ->
  k ≠ "CECL Transition Amount" -> mc.1 !! k = metrics !! k.
Proof.
  unfold capital_stage. intros H Hk. inv_ok.
  destruct (Timestamp_geb _ _); inv_ok; simpl; by rewrite lookup_insert_ne.
Qed.

Lemma concentration_stage_frame metrics cb m k :
  concentration_stage metrics cb = Ok m ->
  k ∉ ratio_names -> m !! k = metrics !! k.
Proof.
  unfold concentration_stage, ratio_names. intros H Hk. split_notin.
  destruct (float_gt0 cb); inv_ok; by lookup_through.
Qed.

Lemma growth_stage_frame sorted_financials i financial metrics m k :
  growth_stage sorted_financials i financial metrics = Ok m ->
  k ≠ "Non-Owner Occupied CRE 3-Year Growth Rate" -> m !! k = metrics !! k.
Proof.
  unfold growth_stage. intros H Hk. inv_ok.
  destruct (12 <=? i)%nat; inv_ok; [|by lookup_through].
  destruct (float_gt0 _); inv_ok; by lookup_through.
Qed.

Lemma charge_off_stage_frame metrics m k :
  charge_off_stage metrics = Ok m ->
  k ≠ "Net Charge-Offs / Allowance for Credit Loss" -> m !! k = metrics !! k.
Proof.
  unfold charge_off_stage. intros H Hk. inv_ok.
  destruct (float_gt0 _); inv_ok; by lookup_through.
Qed.

(** A successful run of the loop body is a successful run of its stages. *)
Lemma derive_row_stages bank_name sorted_financials i financial row :
  derive_row bank_name sorted_financials i financial = Ok row ->
  exists m0 m1 cb m2 m3,
    base_metrics bank_name financial = Ok m0
    /\ capital_stage financial m0 = Ok (m1, cb)
    /\ concentration_stage m1 cb = Ok m2
    /\ growth_stage sorted_financials i financial m2 = Ok m3
    /\ charge_off_stage m3 = Ok row.
Proof.
  unfold derive_row. intros H. inv_ok.
  destruct a0 as [m1 cb]. by exists a, m1, cb, a1, a2.
Qed.

(** The columns of the literal reach the row as the literal stored them. *)
Lemma derive_row_base bank_name sorted_financials i financial row k :
  derive_row bank_name sorted_financials i financial = Ok row ->
  k ∉ derived_names ->
  exists m0, base_metrics bank_name financial = Ok m0 /\ row !! k = m0 !! k.
Proof.
  intros (m0 & m1 & cb & m2 & m3 & H0 & H1 & H2 & H3 & H4)%derive_row_stages Hk.
  exists m0. split; [done|].
  unfold derived_names, ratio_names in Hk. simpl in Hk. split_notin.
  rewrite (charge_off_stage_frame _ _ k H4) by done.
  rewrite (growth_stage_frame _ _ _ _ _ k H3) by done.
  rewrite (concentration_stage_frame _ _ _ k H2).
  - by apply (capital_stage_frame _ _ _ k H1).
  - unfold ratio_names.
    repeat (apply not_elem_of_cons; split; [done|]). apply not_elem_of_nil.
Qed.

Lemma base_names_not_derived :
  Forall (fun name => name ∉ derived_names) base_fields.*1.
Proof. field_in. Qed.

(** Every column of the literal holds, in the finished row, the coerced
    raw field of its code. *)
Lemma derive_row_field bank_name sorted_financials i financial row name code :
  derive_row bank_name sorted_financials i financial = Ok row ->
  (name, code) ∈ base_fields ->
  exists v, safe_float (dict_get financial code) = Ok v
            /\ row !! name = Some (PyFloat v).
Proof.
  intros H Hin.
  assert (name ∉ derived_names) as Hnd.
  { eapply (proj1 (Forall_forall _ _) base_names_not_derived).
    apply list_elem_of_fmap. by exists (name, code). }
  destruct (derive_row_base _ _ _ _ _ _ H Hnd) as (m0 & H0 & Hrow).
  rewrite Hrow. by eapply base_metrics_field.
Qed.

(** ** Comparisons with zero *)

Lemma float_gt0_nonzero x : float_gt0 x = true -> PrimFloat.eqb x 0 = false.
Proof.
  unfold float_gt0. rewrite FloatAxioms.ltb_spec, FloatAxioms.eqb_spec. unfold SFltb, SFeqb.
  change (Prim2SF 0) with (S754_zero false).
  by destruct (Prim2SF x) as [s|[]| |[] m e].
Qed.

Lemma float_le0_not_gt0 x : float_le0 x = true -> float_gt0 x = false.
Proof.
  unfold float_gt0, float_le0. rewrite FloatAxioms.ltb_spec, FloatAxioms.leb_spec. unfold SFltb, SFleb.
  change (Prim2SF 0) with (S754_zero false).
  by destruct (Prim2SF x) as [s|[]| |[] m e].
Qed.

(** Behind the guard [y > 0] the division does not raise. *)
Lemma float_truediv_gt0 x y :
  float_gt0 y = true -> float_truediv x y = Ok (x / y)%float.
Proof. intros H. unfold float_truediv. by rewrite (float_gt0_nonzero _ H). Qed.

Lemma float_truediv_Ok x y q :
  float_truediv x y = Ok q -> q = (x / y)%float.
Proof. unfold float_truediv. destruct (PrimFloat.eqb y 0); congruence. Qed.

(** ** The capital base and the CECL transition amount *)

Lemma derive_row_capital bank_name sorted_financials i financial row :
  derive_row bank_name sorted_financials i financial = Ok row ->
  exists date ct1badj eq eqpp tier1 acl cb,
    to_datetime (dict_get financial "REPDTE") = Ok date
    /\ capital_inputs row ct1badj eq eqpp tier1 acl
    /\ capital_base bank_name financial = Ok cb
    /\ (row !! "CECL Transition Amount", cb) =
         if Timestamp_geb date cecl_start
         then (Some (PyFloat (ct1badj - eq + eqpp)%float),
               (tier1 + acl - (ct1badj - eq + eqpp))%float)
         else (Some (PyInt 0), (tier1 + acl)%float).
Proof.
  intros H.
  pose proof H as
    (m0 & m1 & cb & m2 & m3 & H0 & H1 & H2 & H3 & H4)%derive_row_stages.
  assert (row !! "CECL Transition Amount" = m1 !! "CECL Transition Amount")
    as Hcecl.
  { rewrite (charge_off_stage_frame _ _ _ H4) by done.
    rewrite (growth_stage_frame _ _ _ _ _ _ H3) by done.
    apply (concentration_stage_frame _ _ _ _ H2).
    unfold ratio_names.
    repeat (apply not_elem_of_cons; split; [done|]). apply not_elem_of_nil. }
  assert (forall k f, k ∉ derived_names -> getitem_float m0 k = Ok f ->
                      row !! k = Some (PyFloat f)) as Hbase.
  { intros k f Hk Hf%getitem_float_Ok.
    destruct (derive_row_base _ _ _ _ _ _ H Hk) as (m0' & H0' & Hrow).
    rewrite Hrow. congruence. }
  assert (capital_base bank_name financial = Ok cb) as Hcb.
  { unfold capital_base. rewrite H0; simpl. by rewrite H1. }
  unfold capital_stage in H1. inv_ok.
  exists a4, a, a0, a1, a2, a3, cb. rewrite Hcecl.
  split; [done|]. split.
  { repeat split; apply Hbase; try done;
      field_in. }
  split; [done|].
  destruct (Timestamp_geb a4 cecl_start); inv_ok; by rewrite lookup_insert_eq.
Qed.

(** The date decides between the two capital formulas, with the boundary
    between 2018-12-31 and 2019-01-01. *)
Lemma derive_row_capital_by_date bank_name sorted_financials i financial row :
  derive_row bank_name sorted_financials i financial = Ok row ->
  exists date ct1badj eq eqpp tier1 acl cb,
    to_datetime (dict_get financial "REPDTE") = Ok date
    /\ capital_inputs row ct1badj eq eqpp tier1 acl
    /\ capital_base bank_name financial = Ok cb
    /\ (Timestamp_geb date cecl_start = true ->
         row !! "CECL Transition Amount"
           = Some (PyFloat (ct1badj - eq + eqpp)%float)
         /\ cb = (tier1 + acl - (ct1badj - eq + eqpp))%float)
    /\ (Timestamp_ltb date cecl_start = true ->
         row !! "CECL Transition Amount" = Some (PyInt 0)
         /\ cb = (tier1 + acl)%float)
    /\ (date = mkTimestamp 2019 1 1 ->
         row !! "CECL Transition Amount"
           = Some (PyFloat (ct1badj - eq + eqpp)%float)
         /\ cb = (tier1 + acl - (ct1badj - eq + eqpp))%float)
    /\ (date = mkTimestamp 2018 12 31 ->
         row !! "CECL Transition Amount" = Some (PyInt 0)
         /\ cb = (tier1 + acl)%float).
Proof.
  intros (date & ct1badj & eq & eqpp & tier1 & acl & cb & Hd & Hin & Hcb & Hif)
    %derive_row_capital.
  exists date, ct1badj, eq, eqpp, tier1, acl, cb.
  do 3 (split; [done|]).
  assert (Timestamp_ltb date cecl_start = negb (Timestamp_geb date cecl_start))
    as Hlt.
  { unfold Timestamp_ltb, Timestamp_geb. apply Z.ltb_antisym. }
  split; [|split; [|split]]; intros Hc.
  - rewrite Hc in Hif. by injection Hif as -> ->.
  - rewrite Hlt in Hc. apply negb_true_iff in Hc. rewrite Hc in Hif.
    by injection Hif as -> ->.
  - subst date. change (Timestamp_geb _ _) with true in Hif.
    by injection Hif as -> ->.
  - subst date. change (Timestamp_geb _ _) with false in Hif.
    by injection Hif as -> ->.
Qed.

(** ** The concentration ratios *)

Lemma derive_row_ratios bank_name sorted_financials i financial row :
  derive_row bank_name sorted_financials i financial = Ok row ->
  exists cb re cons ci ag cc multi nonres comre,
    capital_base bank_name financial = Ok cb
    /\ ratio_inputs row re cons ci ag cc multi nonres comre
    /\ (float_gt0 cb = true ->
         ratios_over row re cons ci ag cc multi nonres comre cb)
    /\ (float_gt0 cb = false -> ratios_zero row).
Proof.
  intros H.
  pose proof H as
    (m0 & m1 & cb & m2 & m3 & H0 & H1 & H2 & H3 & H4)%derive_row_stages.
  assert (forall k, k ∈ ratio_names -> row !! k = m2 !! k) as Hrow.
  { intros k Hk.
    assert (Forall (fun k =>
              k ≠ "Non-Owner Occupied CRE 3-Year Growth Rate"
              /\ k ≠ "Net Charge-Offs / Allowance for Credit Loss")
            ratio_names) as Hall
      by (field_in).
    destruct (proj1 (Forall_forall _ _) Hall k Hk) as [Hk1 Hk2].
    rewrite (charge_off_stage_frame _ _ _ H4) by done.
    by rewrite (growth_stage_frame _ _ _ _ _ _ H3). }
  assert (forall k f, k ∉ derived_names -> m1 !! k = Some (PyFloat f) ->
                      row !! k = Some (PyFloat f)) as Hbase.
  { intros k f Hk Hf.
    destruct (derive_row_base _ _ _ _ _ _ H Hk) as (m0' & H0' & Hr).
    rewrite Hr. replace m0' with m0 by congruence.
    rewrite <- Hf. symmetry. apply (capital_stage_frame _ _ _ _ H1).
    intros ->. apply Hk. field_in. }
  assert (capital_base bank_name financial = Ok cb) as Hcb.
  { unfold capital_base. rewrite H0; simpl. by rewrite H1. }
  destruct (base_metrics_field _ _ _ "Real Estate Loans" "LNRE" H0)
    as (re & _ & Hre); [field_in|].
  destruct (base_metrics_field _ _ _
              "RE Construction and Land Development" "LNRECONS" H0)
    as (cons & _ & Hcons); [field_in|].
  destruct (base_metrics_field _ _ _
              "Commercial and Industrial Loans" "LNCI" H0)
    as (ci & _ & Hci); [field_in|].
  destruct (base_metrics_field _ _ _ "Agriculture Loans" "LNAG" H0)
    as (ag & _ & Hag); [field_in|].
  destruct (base_metrics_field _ _ _ "Credit Cards" "LNCRCD" H0)
    as (cc & _ & Hcc); [field_in|].
  destruct (base_metrics_field _ _ _ "Multifamily" "LNREMULT" H0)
    as (multi & _ & Hmulti); [field_in|].
  destruct (base_metrics_field _ _ _
              "Loans to Nonresidential Properties" "LNRENRES" H0)
    as (nonres & _ & Hnonres); [field_in|].
  destruct (base_metrics_field _ _ _
              "Commercial Real Estate Loans not Secured by Real Estate"
              "LNCOMRE" H0)
    as (comre & _ & Hcomre); [field_in|].
  assert (forall k f, k ≠ "CECL Transition Amount" ->
                      m0 !! k = Some (PyFloat f) -> m1 !! k = Some (PyFloat f))
    as Hm1.
  { intros k f Hk Hf. rewrite <- Hf.
    by apply (capital_stage_frame _ _ _ _ H1). }
  apply Hm1 in Hre, Hcons, Hci, Hag, Hcc, Hmulti, Hnonres, Hcomre; try done.
  exists cb, re, cons, ci, ag, cc, multi, nonres, comre.
  split; [done|]. split.
  { repeat split; apply Hbase; try done;
      field_in. }
  unfold concentration_stage in H2.
  split; intros Hgt; rewrite Hgt in H2.
  - unfold ratio_to in H2. inv_ok.
    repeat match goal with
    | E : getitem_float _ _ = Ok _ |- _ =>
        apply getitem_float_Ok in E;
        rewrite ?lookup_insert_ne in E by done
    | E : float_truediv _ _ = Ok _ |- _ => apply float_truediv_Ok in E
    end.
    simplify_eq.
    unfold ratios_over.
    repeat split; (rewrite Hrow; [|field_in]); by lookup_through.
  - inv_ok. unfold ratios_zero, ratio_names.
    repeat (apply Forall_cons; split;
            [rewrite Hrow; [by lookup_through|field_in]|]).
    apply Forall_nil_2.
Qed.

(** ** The charge-off ratio *)

Lemma derive_row_charge_off bank_name sorted_financials i financial row :
  derive_row bank_name sorted_financials i financial = Ok row ->
  exists nco acl,
    row !! "Total Loans and Leases Net Charge-Offs Quarterly"
      = Some (PyFloat nco)
    /\ row !! "Allowance for Credit Loss" = Some (PyFloat acl)
    /\ (float_gt0 acl = true ->
         row !! "Net Charge-Offs / Allowance for Credit Loss"
           = Some (PyFloat (nco / acl * 100)%float))
    /\ (float_gt0 acl = false ->
         row !! "Net Charge-Offs / Allowance for Credit Loss"
           = Some (PyInt 0)).
Proof.
  intros H.
  pose proof H as
    (m0 & m1 & cb & m2 & m3 & H0 & H1 & H2 & H3 & H4)%derive_row_stages.
  destruct (derive_row_field _ _ _ _ _
              "Total Loans and Leases Net Charge-Offs Quarterly" "NTLNLSQ" H)
    as (nco & _ & Hnco); [field_in|].
  destruct (derive_row_field _ _ _ _ _
              "Allowance for Credit Loss" "LNATRES" H)
    as (acl & _ & Hacl); [field_in|].
  exists nco, acl. do 2 (split; [done|]).
  rewrite (charge_off_stage_frame _ _ _ H4) in Hnco by done.
  rewrite (charge_off_stage_frame _ _ _ H4) in Hacl by done.
  unfold charge_off_stage in H4. inv_ok.
  apply getitem_float_Ok in E. replace a with acl in * by congruence.
  split; intros Hgt; rewrite Hgt in H4; inv_ok.
  - apply getitem_float_Ok in E0, E1. apply float_truediv_Ok in E2.
    rewrite lookup_insert_eq. congruence.
  - by rewrite lookup_insert_eq.
Qed.

(** ** The three-year growth rate *)

Lemma derive_row_growth bank_name sorted_financials i financial row :
  derive_row bank_name sorted_financials i financial = Ok row ->
  exists cur,
    non_owner_occupied_cre financial = Ok cur
    /\ ((i < 12)%nat ->
         row !! "Non-Owner Occupied CRE 3-Year Growth Rate" = Some PyNone)
    /\ ((12 <= i)%nat ->
         exists prior old,
           sorted_financials !! (i - 12)%nat = Some prior
           /\ non_owner_occupied_cre prior = Ok old
           /\ (float_gt0 old = true ->
                row !! "Non-Owner Occupied CRE 3-Year Growth Rate"
                  = Some (PyFloat ((cur / old - 1) * 100)%float))
           /\ (float_gt0 old = false ->
                row !! "Non-Owner Occupied CRE 3-Year Growth Rate"
                  = Some PyNone)).
Proof.
  intros (m0 & m1 & cb & m2 & m3 & H0 & H1 & H2 & H3 & H4)%derive_row_stages.
  rewrite (charge_off_stage_frame _ _ _ H4) by done.
  unfold growth_stage in H3.
  apply bind_Ok in H3 as (cur & Hcur & H3).
  exists cur. split; [done|]. split; intros Hi.
  - apply Nat.leb_gt in Hi. rewrite Hi in H3. inv_ok.
    by rewrite lookup_insert_eq.
  - apply Nat.leb_le in Hi. rewrite Hi in H3.
    apply bind_Ok in H3 as (prior & Hprior & H3).
    apply bind_Ok in H3 as (old & Hold & H3).
    exists prior, old.
    unfold list_getitem in Hprior.
    destruct (sorted_financials !! (i - 12)%nat) as [p|] eqn:Hp; [|done].
    inv_ok. do 2 (split; [done|]).
    split; intros Hgt; rewrite Hgt in H3; inv_ok.
    + apply float_truediv_Ok in E. subst. by rewrite lookup_insert_eq.
    + by rewrite lookup_insert_eq.
Qed.

(** ** Sorting a bank's records *)

Lemma sort_insert_Permutation {A} (x : pyval * A) l r :
  sort_insert x l = Ok r -> r ≡ₚ x :: l.
Proof.
  revert r. induction l as [|y l IH]; intros r H; simpl in H.
  - by inv_ok.
  - apply bind_Ok in H as (b & _ & H). destruct b; inv_ok.
    + rewrite (IH _ E). apply Permutation_swap.
    + done.
Qed.

Lemma sort_keyed_Permutation {A} (l r : list (pyval * A)) :
  sort_keyed l = Ok r -> r ≡ₚ l.
Proof.
  revert r. induction l as [|x l IH]; intros r H; simpl in H.
  - by inv_ok.
  - apply bind_Ok in H as (s & Hs & H).
    rewrite (sort_insert_Permutation _ _ _ H). by rewrite (IH _ Hs).
Qed.

(** [sorted] returns the records it was given, in some order, and every
    one of them has the key. *)
Lemma py_sorted_Ok {A} (key : A -> result pyval) l r :
  py_sorted key l = Ok r ->
  r ≡ₚ l /\ Forall (fun x => exists k, key x = Ok k) l.
Proof.
  unfold py_sorted. intros H.
  apply bind_Ok in H as (keys & Hkeys & H).
  apply bind_Ok in H as (s & Hs & H). inv_ok.
  pose proof (mapM_Ok_length _ _ _ Hkeys) as Hlen.
  split.
  - rewrite (sort_keyed_Permutation _ _ Hs). by rewrite snd_zip by lia.
  - apply mapM_Ok_Forall2 in Hkeys.
    clear -Hkeys. induction Hkeys; constructor; eauto.
Qed.

(** ** Where the rows of the table come from *)

Lemma enumerate_lookup {A} (l : list A) i p :
  enumerate l !! i = Some p <-> p.1 = i /\ l !! i = Some p.2.
Proof.
  unfold enumerate. destruct p as [j x]. simpl.
  rewrite lookup_zip_with_Some. split.
  - intros (j' & x' & [= -> ->] & Hj & Hx).
    by apply lookup_seq in Hj as [-> _].
  - intros [-> Hx]. exists i, x. split; [done|]. split; [|done].
    apply lookup_seq. split; [done|]. by eapply lookup_lt_Some.
Qed.

(** The rows of one bank: row [i] is derived from record [i] of the
    bank's sorted sequence. *)
Lemma bank_rows_Ok bank_name financials rows :
  bank_rows bank_name financials = Ok rows ->
  exists sorted_financials,
    py_sorted (fun x => dict_getitem x "REPDTE") financials
      = Ok sorted_financials
    /\ length rows = length sorted_financials
    /\ forall i m, rows !! i = Some m ->
         exists financial,
           sorted_financials !! i = Some financial
           /\ derive_row bank_name sorted_financials i financial = Ok m.
Proof.
  unfold bank_rows. intros H.
  apply bind_Ok in H as (sf & Hsf & H). exists sf. split; [done|]. split.
  - rewrite (mapM_Ok_length _ _ _ H). unfold enumerate.
    rewrite length_zip_with, length_seq. lia.
  - intros i m Hm.
    destruct (mapM_Ok_lookup _ _ _ _ _ H Hm) as ([j fin] & Hp & Hrow).
    apply enumerate_lookup in Hp as [Hj Hfin]. simpl in *. subst j. eauto.
Qed.

Lemma derive_row_Date bank_name sorted_financials i financial m :
  derive_row bank_name sorted_financials i financial = Ok m ->
  m !! "Date" = Some (dict_get financial "REPDTE").
Proof.
  intros H.
  destruct (derive_row_base _ _ _ _ _ "Date" H) as (m0 & H0 & Hm); [field_in|].
  rewrite Hm. by eapply base_metrics_Date.
Qed.

Lemma derive_row_Bank bank_name sorted_financials i financial m :
  derive_row bank_name sorted_financials i financial = Ok m ->
  m !! "Bank" = Some (PyStr bank_name).
Proof.
  intros H.
  destruct (derive_row_base _ _ _ _ _ "Bank" H) as (m0 & H0 & Hm); [field_in|].
  rewrite Hm. by eapply base_metrics_Bank.
Qed.

(** The table before the final sort: the dicts of all banks in loop order,
    each with its parsed date. *)
Lemma calculate_metrics_Ok financials_data df :
  calculate_metrics financials_data = Ok df ->
  exists per_bank dates,
    Forall2 (fun bf rows => bank_rows bf.1 bf.2 = Ok rows)
            financials_data per_bank
    /\ Forall2 (fun m d => to_datetime (dict_get m "Date") = Ok d)
               (concat per_bank) dates
    /\ df ≡ₚ zip_with (fun d m => mkRow d (delete "Date" m))
                      dates (concat per_bank).
Proof.
  unfold calculate_metrics. intros H.
  apply bind_Ok in H as (per_bank & Hpb & H).
  apply bind_Ok in H as (col & Hcol & H).
  apply bind_Ok in H as (dates & Hdates & H). inv_ok.
  exists per_bank, dates. split; [by apply mapM_Ok_Forall2|]. split.
  - unfold frame_column in Hcol. destruct (existsb _ _); inv_ok.
    apply mapM_Ok_Forall2 in Hdates. by apply Forall2_fmap_l in Hdates.
  - unfold sort_values. apply merge_sort_Permutation.
Qed.

Lemma calculate_metrics_rows financials_data df row :
  calculate_metrics financials_data = Ok df -> row ∈ df ->
  exists bank_name sorted_financials i financial,
    derived_at financials_data row bank_name sorted_financials i financial.
Proof.
  intros (per_bank & dates & Hpb & Hdates & Hperm)%calculate_metrics_Ok Hrow.
  rewrite Hperm in Hrow.
  apply elem_of_lookup_zip_with in Hrow as (j & date & m & -> & Hdate & Hm).
  destruct (Forall2_lookup_l _ _ _ _ _ Hdates Hm) as (date' & Hd' & Hparse).
  replace date' with date in * by congruence.
  apply list_elem_of_lookup_2, list_elem_of_In, in_concat in Hm
    as (rows & Hrows%list_elem_of_In & Hin%list_elem_of_In).
  apply list_elem_of_lookup in Hrows as (b & Hrows).
  destruct (Forall2_lookup_r _ _ _ _ _ Hpb Hrows) as ([bank fs] & Hbf & Hbank).
  simpl in Hbank.
  apply bank_rows_Ok in Hbank as (sf & Hsf & _ & Hderive).
  apply list_elem_of_lookup in Hin as (i & Hi).
  destruct (Hderive _ _ Hi) as (fin & Hfin & Hm').
  exists bank, sf, i, fin, fs, m. simpl.
  split; [by eapply list_elem_of_lookup_2|].
  do 3 (split; [done|]). split; [|done].
  unfold dict_get in Hparse at 1.
  by rewrite (derive_row_Date _ _ _ _ _ Hm') in Hparse.
Qed.

(** A cell of the table other than [Date] is the value the loop stored. *)
Lemma derived_at_cells financials_data row bank_name sorted_financials i
    financial :
  derived_at financials_data row bank_name sorted_financials i financial ->
  exists m,
    derive_row bank_name sorted_financials i financial = Ok m
    /\ forall k, k ≠ "Date" -> row_cells row !! k = m !! k.
Proof.
  intros (fs & m & _ & _ & _ & Hm & _ & Hcells). exists m. split; [done|].
  intros k Hk. rewrite Hcells. by apply lookup_delete_ne.
Qed.

(** ** The claims about a row of the table *)

(** C1. For every derived row: when the reporting date is on or after
    2019-01-01 the stored CECL Transition Amount is [ct1badj - eq + eqpp]
    and the capital base used for the concentration ratios is
    [tier1 + acl - cecl_transition]; when the date is strictly before
    2019-01-01 the stored amount is 0 and the capital base is
    [tier1 + acl].  The boundary is exact: a row dated 2019-01-01 takes the
    adjusted formula, a row dated 2018-12-31 does not. *)
Theorem C1_capital_base_by_date financials_data df row :
  calculate_metrics financials_data = Ok df -> row ∈ df ->
  exists bank_name sorted_financials i financial ct1badj eq eqpp tier1 acl cb,
    derived_at financials_data row bank_name sorted_financials i financial
    /\ capital_inputs (row_cells row) ct1badj eq eqpp tier1 acl
    /\ capital_base bank_name financial = Ok cb
    /\ (Timestamp_geb (row_Date row) cecl_start = true ->
         row_cells row !! "CECL Transition Amount"
           = Some (PyFloat (ct1badj - eq + eqpp)%float)
         /\ cb = (tier1 + acl - (ct1badj - eq + eqpp))%float)
    /\ (Timestamp_ltb (row_Date row) cecl_start = true ->
         row_cells row !! "CECL Transition Amount" = Some (PyInt 0)
         /\ cb = (tier1 + acl)%float)
    /\ (row_Date row = mkTimestamp 2019 1 1 ->
         row_cells row !! "CECL Transition Amount"
           = Some (PyFloat (ct1badj - eq + eqpp)%float)
         /\ cb = (tier1 + acl - (ct1badj - eq + eqpp))%float)
    /\ (row_Date row = mkTimestamp 2018 12 31 ->
         row_cells row !! "CECL Transition Amount" = Some (PyInt 0)
         /\ cb = (tier1 + acl)%float).
Proof.
  intros Hdf Hrow.
  destruct (calculate_metrics_rows _ _ _ Hdf Hrow)
    as (bank & sf & i & fin & Hat).
  pose proof Hat as (m & Hm & Hcells)%derived_at_cells.
  pose proof Hat as (fs & m' & _ & _ & _ & _ & Hdate & _).
  destruct (derive_row_capital_by_date _ _ _ _ _ Hm)
    as (date & ct1badj & eq & eqpp & tier1 & acl & cb & Hd & Hin & Hcb & Hrule).
  replace date with (row_Date row) in * by congruence.
  exists bank, sf, i, fin, ct1badj, eq, eqpp, tier1, acl, cb.
  split; [done|]. split.
  { unfold capital_inputs in *. by rewrite !Hcells. }
  split; [done|]. by rewrite !Hcells.
Qed.

(** C3. For every derived row: over a capital base that is [> 0] each of
    the five single-category concentration ratios is
    [(numerator / capital_base) * 100] and Commercial RE to Tier 1 + ACL is
    [((construction + multifamily + nonresidential + commercial RE not
    secured) / capital_base) * 100]; over a capital base that is [<= 0]
    all six ratios are 0, a number and not a null. *)
Theorem C3_concentration_ratios financials_data df row :
  calculate_metrics financials_data = Ok df -> row ∈ df ->
  exists bank_name sorted_financials i financial
         cb re cons ci ag cc multi nonres comre,
    derived_at financials_data row bank_name sorted_financials i financial
    /\ capital_base bank_name financial = Ok cb
    /\ ratio_inputs (row_cells row) re cons ci ag cc multi nonres comre
    /\ (float_gt0 cb = true ->
         ratios_over (row_cells row) re cons ci ag cc multi nonres comre cb)
    /\ (float_le0 cb = true -> ratios_zero (row_cells row)).
Proof.
  intros Hdf Hrow.
  destruct (calculate_metrics_rows _ _ _ Hdf Hrow)
    as (bank & sf & i & fin & Hat).
  pose proof Hat as (m & Hm & Hcells)%derived_at_cells.
  destruct (derive_row_ratios _ _ _ _ _ Hm)
    as (cb & re & cons & ci & ag & cc & multi & nonres & comre
        & Hcb & Hin & Hgt & Hle).
  exists bank, sf, i, fin, cb, re, cons, ci, ag, cc, multi, nonres, comre.
  do 2 (split; [done|]). split.
  { unfold ratio_inputs in *. by rewrite !Hcells. }
  split.
  - intros Hc. unfold ratios_over in *. rewrite !Hcells by done. auto.
  - intros Hc%float_le0_not_gt0. unfold ratios_zero in *.
    apply Forall_forall. intros k Hk. rewrite Hcells.
    + by apply (proj1 (Forall_forall _ _) (Hle Hc)).
    + intros ->. revert Hk. field_in.
Qed.

(** C7. For every derived row: Net Charge-Offs / Allowance for Credit Loss
    is [(quarterly net charge-offs / allowance) * 100] when the allowance
    is [> 0] and 0 when the allowance is [<= 0]; an allowance of 0 gives 0,
    and an allowance of 50 with quarterly net charge-offs of 5 gives
    10.0. *)
Theorem C7_charge_off_ratio financials_data df row :
  calculate_metrics financials_data = Ok df -> row ∈ df ->
  exists nco acl,
    row_cells row !! "Total Loans and Leases Net Charge-Offs Quarterly"
      = Some (PyFloat nco)
    /\ row_cells row !! "Allowance for Credit Loss" = Some (PyFloat acl)
    /\ (float_gt0 acl = true ->
         row_cells row !! "Net Charge-Offs / Allowance for Credit Loss"
           = Some (PyFloat (nco / acl * 100)%float))
    /\ (float_le0 acl = true ->
         row_cells row !! "Net Charge-Offs / Allowance for Credit Loss"
           = Some (PyInt 0))
    /\ (acl = 0%float ->
         row_cells row !! "Net Charge-Offs / Allowance for Credit Loss"
           = Some (PyInt 0))
    /\ (acl = 50%float -> nco = 5%float ->
         row_cells row !! "Net Charge-Offs / Allowance for Credit Loss"
           = Some (PyFloat 10)).
Proof.
  intros Hdf Hrow.
  destruct (calculate_metrics_rows _ _ _ Hdf Hrow)
    as (bank & sf & i & fin & Hat).
  pose proof Hat as (m & Hm & Hcells)%derived_at_cells.
  destruct (derive_row_charge_off _ _ _ _ _ Hm)
    as (nco & acl & Hnco & Hacl & Hgt & Hle).
  exists nco, acl. rewrite !Hcells by done.
  do 2 (split; [done|]).
  split; [done|]. split; [|split].
  - intros Hc%float_le0_not_gt0. auto.
  - intros ->. by apply Hle.
  - intros -> ->. by rewrite Hgt.
Qed.

(** ** Pre-2019 capital figures do not read the CECL fields *)

Lemma derive_row_field_agree bank1 bank2 sf1 sf2 i1 i2
    (fin1 fin2 : gmap string pyval) row1 row2 name code :
  (name, code) ∈ base_fields ->
  dict_get fin1 code = dict_get fin2 code ->
  derive_row bank1 sf1 i1 fin1 = Ok row1 ->
  derive_row bank2 sf2 i2 fin2 = Ok row2 ->
  row1 !! name = row2 !! name.
Proof.
  intros Hin Heq H1 H2.
  destruct (derive_row_field _ _ _ _ _ _ _ H1 Hin) as (v1 & Hv1 & ->).
  destruct (derive_row_field _ _ _ _ _ _ _ H2 Hin) as (v2 & Hv2 & ->).
  congruence.
Qed.

Lemma ratios_over_agree (row1 row2 : gmap string pyval)
    re cons ci ag cc multi nonres comre cb :
  ratios_over row1 re cons ci ag cc multi nonres comre cb ->
  ratios_over row2 re cons ci ag cc multi nonres comre cb ->
  Forall (fun name => row1 !! name = row2 !! name) ratio_names.
Proof.
  intros (A1 & A2 & A3 & A4 & A5 & A6) (B1 & B2 & B3 & B4 & B5 & B6).
  unfold ratio_names. repeat (apply Forall_cons; split; [congruence|]).
  apply Forall_nil_2.
Qed.

(** C10. Two raw records dated strictly before 2019-01-01 that differ only
    in the CT1BADJ, EQ and EQPP fields give rows that agree on the CECL
    Transition Amount (0 in both), on the capital base and on all six
    concentration ratios. *)
Theorem C10_pre_2019_capital_ignores_cecl_fields
    bank1 bank2 sf1 sf2 i1 i2 (fin1 fin2 : gmap string pyval)
    row1 row2 date :
  (forall k, k ∉ cecl_codes -> fin1 !! k = fin2 !! k) ->
  to_datetime (dict_get fin1 "REPDTE") = Ok date ->
  Timestamp_ltb date cecl_start = true ->
  derive_row bank1 sf1 i1 fin1 = Ok row1 ->
  derive_row bank2 sf2 i2 fin2 = Ok row2 ->
  row1 !! "CECL Transition Amount" = Some (PyInt 0)
  /\ row2 !! "CECL Transition Amount" = Some (PyInt 0)
  /\ (exists cb, capital_base bank1 fin1 = Ok cb
                 /\ capital_base bank2 fin2 = Ok cb)
  /\ Forall (fun name => row1 !! name = row2 !! name) ratio_names.
Proof.
  intros Hsame Hdate Hlt H1 H2.
  assert (forall k, k ∉ cecl_codes -> dict_get fin1 k = dict_get fin2 k)
    as Hget by (intros k Hk; unfold dict_get; by rewrite (Hsame k Hk)).
  assert (forall name code, (name, code) ∈ base_fields -> code ∉ cecl_codes ->
                            row1 !! name = row2 !! name) as Hagree.
  { intros name code Hin Hcode.
    exact (derive_row_field_agree _ _ _ _ _ _ _ _ _ _ _ _
             Hin (Hget _ Hcode) H1 H2). }
  destruct (derive_row_capital_by_date _ _ _ _ _ H1)
    as (d1 & ct1 & eq1 & eqpp1 & tier1 & acl1 & cb1
        & Hd1 & Hin1 & Hcb1 & _ & Hpre1 & _).
  destruct (derive_row_capital_by_date _ _ _ _ _ H2)
    as (d2 & ct2 & eq2 & eqpp2 & tier2 & acl2 & cb2
        & Hd2 & Hin2 & Hcb2 & _ & Hpre2 & _).
  rewrite <- (Hget "REPDTE") in Hd2 by field_in.
  replace d1 with date in * by congruence.
  replace d2 with date in * by congruence.
  destruct (Hpre1 Hlt) as [Hz1 ->]. destruct (Hpre2 Hlt) as [Hz2 ->].
  destruct Hin1 as (_ & _ & _ & Ht1 & Ha1).
  destruct Hin2 as (_ & _ & _ & Ht2 & Ha2).
  rewrite (Hagree _ "RBCT1J") in Ht1 by field_in.
  rewrite (Hagree _ "LNATRES") in Ha1 by field_in.
  replace tier2 with tier1 in * by congruence.
  replace acl2 with acl1 in * by congruence.
  do 2 (split; [done|]). split; [by eexists|].
  destruct (derive_row_ratios _ _ _ _ _ H1)
    as (cb & re & cons & ci & ag & cc & multi & nonres & comre
        & Hcb & Hr1 & Hgt1 & Hle1).
  destruct (derive_row_ratios _ _ _ _ _ H2)
    as (cb' & re' & cons' & ci' & ag' & cc' & multi' & nonres' & comre'
        & Hcb' & Hr2 & Hgt2 & Hle2).
  replace cb with (tier1 + acl1)%float in * by congruence.
  replace cb' with (tier1 + acl1)%float in * by congruence.
  destruct Hr1 as (R1 & R2 & R3 & R4 & R5 & R6 & R7 & R8).
  destruct Hr2 as (S1 & S2 & S3 & S4 & S5 & S6 & S7 & S8).
  rewrite (Hagree _ "LNRE") in R1 by field_in.
  rewrite (Hagree _ "LNRECONS") in R2 by field_in.
  rewrite (Hagree _ "LNCI") in R3 by field_in.
  rewrite (Hagree _ "LNAG") in R4 by field_in.
  rewrite (Hagree _ "LNCRCD") in R5 by field_in.
  rewrite (Hagree _ "LNREMULT") in R6 by field_in.
  rewrite (Hagree _ "LNRENRES") in R7 by field_in.
  rewrite (Hagree _ "LNCOMRE") in R8 by field_in.
  replace re' with re in * by congruence.
  replace cons' with cons in * by congruence.
  replace ci' with ci in * by congruence.
  replace ag' with ag in * by congruence.
  replace cc' with cc in * by congruence.
  replace multi' with multi in * by congruence.
  replace nonres' with nonres in * by congruence.
  replace comre' with comre in * by congruence.
  destruct (float_gt0 (tier1 + acl1)) eqn:Hgt.
  - eapply ratios_over_agree; eauto.
  - specialize (Hle1 eq_refl). specialize (Hle2 eq_refl).
    unfold ratios_zero in *.
    apply Forall_forall. intros k Hk.
    rewrite (proj1 (Forall_forall _ _) Hle1 k Hk).
    by rewrite (proj1 (Forall_forall _ _) Hle2 k Hk).
Qed.

(** ** The order of the table *)

#[local] Instance Row_le_total : Total Row_le.
Proof. intros r1 r2. unfold Row_le, Timestamp_le. lia. Qed.

#[local] Instance Row_le_trans : Transitive Row_le.
Proof. intros r1 r2 r3. unfold Row_le, Timestamp_le. lia. Qed.

#[local] Instance Row_le_refl : Reflexive Row_le.
Proof. intros r. unfold Row_le, Timestamp_le. lia. Qed.

Lemma StronglySorted_lookup_le {A} (R : relation A) `{!Reflexive R} l i j x y :
  StronglySorted R l -> (i <= j)%nat ->
  l !! i = Some x -> l !! j = Some y -> R x y.
Proof.
  intros Hs. revert i j. induction Hs as [|a l Hs IH Hall]; intros i j Hij Hx Hy.
  - by rewrite lookup_nil in Hx.
  - destruct i as [|i], j as [|j]; simpl in *.
    + by simplify_eq.
    + simplify_eq. apply (proj1 (Forall_forall _ _) Hall).
      by eapply list_elem_of_lookup_2.
    + lia.
    + apply (IH i j); [lia|done..].
Qed.

(** A date stamp that parses names a calendar day. *)
Lemma Timestamp_of_yyyymmdd_Ok n t :
  Timestamp_of_yyyymmdd n = Ok t ->
  Timestamp_ord t = n
  /\ 1 <= month t <= 12 /\ 1 <= day t <= 31.
Proof.
  unfold Timestamp_of_yyyymmdd.
  destruct (_ && _) eqn:Hc; [|discriminate]. intros [= <-].
  rewrite !andb_true_iff, !Z.leb_le in Hc.
  unfold Timestamp_ord; simpl.
  assert (days_in_month (n / 10000) (n / 100 mod 100) <= 31) as Hdays
    by (unfold days_in_month;
        repeat match goal with |- context [if ?b then _ else _] =>
                 destruct b end; lia).
  split; [|lia]. clear Hdays Hc.
  pose proof (Z.div_mod n 100 ltac:(lia)).
  pose proof (Z.div_mod (n / 100) 100 ltac:(lia)).
  assert (n / 10000 = n / 100 / 100) as ->
    by (change 10000 with (100 * 100); symmetry; apply Z.div_div; lia).
  lia.
Qed.

Lemma to_datetime_Ok v t :
  to_datetime v = Ok t -> 1 <= month t <= 12 /\ 1 <= day t <= 31.
Proof.
  destruct v as [|z|f|s]; simpl; try discriminate.
  - by intros (_ & ?)%Timestamp_of_yyyymmdd_Ok.
  - destruct (_ =? _)%nat; [|discriminate].
    destruct (digits_value 0 s); [|discriminate].
    by intros (_ & ?)%Timestamp_of_yyyymmdd_Ok.
Qed.

(** On calendar days the order of the stamps is the order of time: first
    by year, then by month, then by day. *)
Lemma Timestamp_le_chronological a b :
  1 <= month a <= 12 -> 1 <= day a <= 31 ->
  1 <= month b <= 12 -> 1 <= day b <= 31 ->
  Timestamp_le a b <->
  year a < year b
  \/ (year a = year b
      /\ (month a < month b \/ (month a = month b /\ day a <= day b))).
Proof. unfold Timestamp_le, Timestamp_ord. lia. Qed.

(** C6. Whatever the input mapping and the order of each bank's input
    sequence, the returned table is in ascending order of reporting date:
    a row never comes before a row of an earlier date. *)
Theorem C6_table_sorted_by_date financials_data df i j ri rj :
  calculate_metrics financials_data = Ok df ->
  (i <= j)%nat -> df !! i = Some ri -> df !! j = Some rj ->
  Timestamp_le (row_Date ri) (row_Date rj).
Proof.
  unfold calculate_metrics. intros H Hij Hi Hj.
  apply bind_Ok in H as (per_bank & _ & H).
  apply bind_Ok in H as (col & _ & H).
  apply bind_Ok in H as (dates & _ & H). inv_ok.
  unfold sort_values in Hi, Hj.
  exact (StronglySorted_lookup_le Row_le _ i j ri rj
           (StronglySorted_merge_sort Row_le _) Hij Hi Hj).
Qed.

(** ** Banks without records *)

Lemma bank_rows_nil bank_name : bank_rows bank_name [] = Ok [].
Proof. reflexivity. Qed.

Lemma mapM_bank_rows_skip_empty {B}
    (K : list (gmap string pyval) -> result B) d1 bank_name d2 :
  mapM (fun bf => bank_rows bf.1 bf.2) (d1 ++ (bank_name, []) :: d2)
    ≫= (fun per_bank => K (concat per_bank))
  = mapM (fun bf => bank_rows bf.1 bf.2) (d1 ++ d2)
      ≫= (fun per_bank => K (concat per_bank)).
Proof.
  revert K. induction d1 as [|[b fs] d1 IH]; intros K; simpl.
  - by destruct (mapM _ d2).
  - destruct (bank_rows b fs) as [rows|e]; simpl; [|done].
    specialize (IH (fun l => K (rows ++ l))).
    destruct (mapM _ (d1 ++ _ :: d2)), (mapM _ (d1 ++ d2)); simpl in *; done.
Qed.

Lemma mapM_bank_rows_all_empty (names : list string) :
  mapM (fun bf => bank_rows bf.1 bf.2) ((fun b => (b, [])) <$> names)
  = Ok (replicate (length names) []).
Proof.
  apply mapM_Ok_Forall2.
  induction names as [|b names IH]; simpl; by constructor.
Qed.

Lemma concat_replicate_nil {A} n : concat (replicate n (@nil A)) = [].
Proof. induction n; simpl; done. Qed.

(** C8. A bank whose sequence of raw records is empty adds no row and no
    error of its own: the engine does with it what it does without it.
    When every bank's sequence is empty, however, the engine does not
    return an empty table: line 292 asks the frame for a [Date] column
    that a frame without rows does not have, and [KeyError] is raised. *)
Theorem C8_empty_bank_sequences :
  (forall d1 bank_name d2,
     calculate_metrics (d1 ++ (bank_name, []) :: d2)
     = calculate_metrics (d1 ++ d2))
  /\ (forall names : list string,
       calculate_metrics ((fun b => (b, [])) <$> names) = Raise KeyError).
Proof.
  split.
  - intros d1 b d2. unfold calculate_metrics.
    apply (mapM_bank_rows_skip_empty
             (fun all_metrics =>
                col ← frame_column all_metrics "Date";
                dates ← mapM to_datetime col;
                Ok (sort_values
                      (zip_with (fun d m => mkRow d (delete "Date" m))
                                dates all_metrics)))).
  - intros names. unfold calculate_metrics.
    rewrite mapM_bank_rows_all_empty. simpl.
    by rewrite concat_replicate_nil.
Qed.

(** ** One row per bank and date *)

Lemma bank_rows_keys bank_name financials rows :
  bank_rows bank_name financials = Ok rows ->
  exists sorted_financials,
    sorted_financials ≡ₚ financials
    /\ dict_key <$> rows
       = (fun fin => (Some (PyStr bank_name),
                      to_datetime (dict_get fin "REPDTE")))
         <$> sorted_financials.
Proof.
  intros (sf & Hsf & Hlen & Hrows)%bank_rows_Ok.
  exists sf. split; [by apply py_sorted_Ok in Hsf as [? _]|].
  apply list_eq. intros i. rewrite !list_lookup_fmap.
  destruct (rows !! i) as [m|] eqn:Hm; simpl.
  - destruct (Hrows _ _ Hm) as (fin & -> & Hd). simpl. f_equal.
    unfold dict_key, dict_get at 1.
    by rewrite (derive_row_Bank _ _ _ _ _ Hd), (derive_row_Date _ _ _ _ _ Hd).
  - apply lookup_ge_None in Hm. rewrite Hlen in Hm.
    apply lookup_ge_None in Hm. by rewrite Hm.
Qed.

Lemma per_bank_keys_NoDup
    (financials_data : list (string * list (gmap string pyval))) per_bank :
  Forall2 (fun bf rows => bank_rows bf.1 bf.2 = Ok rows)
          financials_data per_bank ->
  NoDup financials_data.*1 ->
  (forall bank_name financials,
     (bank_name, financials) ∈ financials_data ->
     NoDup ((fun fin => to_datetime (dict_get fin "REPDTE")) <$> financials)) ->
  NoDup (dict_key <$> concat per_bank)
  /\ forall k, k ∈ dict_key <$> concat per_bank ->
       exists bank_name,
         bank_name ∈ financials_data.*1 /\ k.1 = Some (PyStr bank_name).
Proof.
  induction 1 as [|[b fs] rows d per_bank Hrows _ IH]; intros Hnames Hdates.
  - split; [constructor|]. intros k Hk. by apply elem_of_nil in Hk.
  - simpl in *. apply NoDup_cons in Hnames as [Hb Hnames].
    destruct IH as [IHnd IHin]; [done| |].
    { intros b' fs' Hin. apply (Hdates b' fs'). by right. }
    destruct (bank_rows_keys _ _ _ Hrows) as (sf & Hperm & Hkeys).
    assert (forall k, k ∈ dict_key <$> rows -> k.1 = Some (PyStr b)) as Hhere.
    { intros k Hk. rewrite Hkeys in Hk.
      apply list_elem_of_fmap in Hk as (fin & Hk & _). by subst k. }
    rewrite fmap_app. split.
    + apply NoDup_app. split; [|split; [|done]].
      * rewrite Hkeys.
        change (NoDup ((pair (Some (PyStr b))
                        ∘ (fun fin => to_datetime (dict_get fin "REPDTE")))
                       <$> sf)).
        rewrite list_fmap_compose. apply (NoDup_fmap_2 _).
        rewrite Hperm. apply (Hdates b fs). by left.
      * intros k Hk Hk'. apply Hhere in Hk.
        destruct (IHin _ Hk') as (b' & Hb' & Hk2).
        rewrite Hk in Hk2. by simplify_eq.
    + intros k [Hk|Hk]%elem_of_app.
      * exists b. split; [by left|]. by apply Hhere.
      * destruct (IHin _ Hk) as (b' & Hb' & Hk2). exists b'.
        split; [by right|done].
Qed.

Lemma table_keys dates all_metrics :
  Forall2 (fun m d => to_datetime (dict_get m "Date") = Ok d)
          all_metrics dates ->
  (fun row => ((row_key row).1, Ok (row_key row).2))
    <$> zip_with (fun d m => mkRow d (delete "Date" m)) dates all_metrics
  = dict_key <$> all_metrics.
Proof.
  induction 1 as [|m d all_metrics dates Hd _ IH]; simpl; [done|].
  f_equal; [|exact IH]. unfold row_key, dict_key; simpl.
  by rewrite lookup_delete_ne, Hd.
Qed.

(** C9. When no bank's sequence holds two records of the same reporting
    date, no two rows of the table share their (bank, date) pair, and every
    row carries a date that its own bank reported. *)
Theorem C9_rows_unique_per_bank_and_date financials_data df :
  calculate_metrics financials_data = Ok df ->
  NoDup financials_data.*1 ->
  (forall bank_name financials,
     (bank_name, financials) ∈ financials_data ->
     NoDup ((fun fin => to_datetime (dict_get fin "REPDTE")) <$> financials)) ->
  NoDup (row_key <$> df)
  /\ forall row, row ∈ df ->
       exists bank_name financials financial,
         (bank_name, financials) ∈ financials_data
         /\ financial ∈ financials
         /\ row_cells row !! "Bank" = Some (PyStr bank_name)
         /\ to_datetime (dict_get financial "REPDTE") = Ok (row_Date row).
Proof.
  intros Hdf Hnames Hdates. split.
  - destruct (calculate_metrics_Ok _ _ Hdf)
      as (per_bank & dates & Hpb & Hparse & Hperm).
    rewrite Hperm.
    apply (NoDup_fmap_1 (fun k => (k.1, Ok k.2))).
    rewrite <- list_fmap_compose.
    change (NoDup ((fun row => ((row_key row).1, Ok (row_key row).2))
                   <$> zip_with (fun d m => mkRow d (delete "Date" m))
                                dates (concat per_bank))).
    rewrite (table_keys _ _ Hparse).
    by apply (per_bank_keys_NoDup _ _ Hpb).
  - intros row Hrow.
    destruct (calculate_metrics_rows _ _ _ Hdf Hrow)
      as (bank & sf & i & fin & fs & m & Hin & Hsf & Hfin & Hm & Hd & Hcells).
    exists bank, fs, fin. split; [done|]. split; [|split; [|done]].
    + apply py_sorted_Ok in Hsf as [Hperm _]. rewrite <- Hperm.
      by eapply list_elem_of_lookup_2.
    + rewrite Hcells, lookup_delete_ne by done.
      by eapply derive_row_Bank.
Qed.

(** ** The sort key orders a bank's records by date *)

Lemma digits_value_acc s acc :
  digits_value acc s
  = (fun v => acc * 10 ^ Z.of_nat (String.length s) + v)
      <$> digits_value 0 s.
Proof.
  revert acc. induction s as [|c s IH]; intros acc;
    cbn [digits_value String.length].
  - simpl. f_equal. lia.
  - destruct (digit_of_ascii c) as [d|]; [|done].
    rewrite (IH (acc * 10 + d)), (IH (0 * 10 + d)).
    destruct (digits_value 0 s) as [v|]; simpl; [|done].
    f_equal. rewrite Nat2Z.inj_succ, Z.pow_succ_r by lia. lia.
Qed.

Lemma digit_of_ascii_bound c d : digit_of_ascii c = Some d -> 0 <= d <= 9.
Proof.
  unfold digit_of_ascii. destruct (_ && _) eqn:Hc; [|discriminate].
  intros [= <-]. rewrite andb_true_iff, !Z.leb_le in Hc. lia.
Qed.

Lemma digits_value_cons c s v :
  digits_value 0 (String c s) = Some v ->
  exists d v', digit_of_ascii c = Some d /\ digits_value 0 s = Some v'
               /\ v = d * 10 ^ Z.of_nat (String.length s) + v'.
Proof.
  simpl. destruct (digit_of_ascii c) as [d|]; [|discriminate].
  rewrite digits_value_acc.
  destruct (digits_value 0 s) as [v'|]; simpl; [|discriminate].
  intros [= <-]. exists d, v'. do 2 (split; [done|]). lia.
Qed.

Lemma digits_value_bound s v :
  digits_value 0 s = Some v -> 0 <= v < 10 ^ Z.of_nat (String.length s).
Proof.
  revert v. induction s as [|c s IH]; intros v H.
  - injection H as <-. simpl. lia.
  - apply digits_value_cons in H as (d & v' & Hd%digit_of_ascii_bound & Hv' & ->).
    specialize (IH _ Hv'). simpl String.length.
    rewrite Nat2Z.inj_succ, Z.pow_succ_r by lia. nia.
Qed.

Lemma digit_compare c1 c2 d1 d2 :
  digit_of_ascii c1 = Some d1 -> digit_of_ascii c2 = Some d2 ->
  Ascii.compare c1 c2 = (d1 ?= d2).
Proof.
  unfold digit_of_ascii, Ascii.compare.
  destruct (_ && _); [|discriminate]. destruct (_ && _); [|discriminate].
  intros [= <-] [= <-]. symmetry.
  destruct (N.compare_spec (N_of_ascii c1) (N_of_ascii c2)).
  - apply Z.compare_eq_iff. lia.
  - apply Z.compare_lt_iff. lia.
  - apply Z.compare_gt_iff. lia.
Qed.

(** Digit strings of one length compare as the numbers they write. *)
Lemma digits_compare s1 s2 v1 v2 :
  String.length s1 = String.length s2 ->
  digits_value 0 s1 = Some v1 -> digits_value 0 s2 = Some v2 ->
  String.compare s1 s2 = (v1 ?= v2).
Proof.
  revert s2 v1 v2. induction s1 as [|c1 s1 IH]; intros [|c2 s2] v1 v2 Hlen H1 H2;
    try discriminate.
  - by simplify_eq/=.
  - injection Hlen as Hlen.
    apply digits_value_cons in H1 as (d1 & w1 & Hd1 & Hw1 & ->).
    apply digits_value_cons in H2 as (d2 & w2 & Hd2 & Hw2 & ->).
    pose proof (digits_value_bound _ _ Hw1) as Hb1.
    pose proof (digits_value_bound _ _ Hw2) as Hb2.
    simpl. rewrite (digit_compare _ _ _ _ Hd1 Hd2).
    rewrite Hlen in Hb1 |- *.
    destruct (Z.compare_spec d1 d2) as [->|Hlt|Hgt].
    + rewrite (IH _ _ _ Hlen Hw1 Hw2). symmetry. apply Z.add_compare_mono_l.
    + symmetry. apply Z.compare_lt_iff. nia.
    + symmetry. apply Z.compare_gt_iff. nia.
Qed.

(** On two date stamps that parse, the [<] of the sort key is the [<] of
    the dates. *)
Lemma py_lt_dates k1 k2 t1 t2 b :
  to_datetime k1 = Ok t1 -> to_datetime k2 = Ok t2 ->
  py_lt k1 k2 = Ok b -> b = Timestamp_ltb t1 t2.
Proof.
  unfold Timestamp_ltb.
  destruct k1 as [|z1|f1|s1], k2 as [|z2|f2|s2]; simpl; try discriminate.
  - intros (-> & _)%Timestamp_of_yyyymmdd_Ok (-> & _)%Timestamp_of_yyyymmdd_Ok.
    by intros [= <-].
  - destruct (_ =? _)%nat eqn:Hl1; [|discriminate].
    destruct (digits_value 0 s1) as [v1|] eqn:Hv1; [|discriminate].
    destruct (String.length s2 =? 8)%nat eqn:Hl2; [|discriminate].
    destruct (digits_value 0 s2) as [v2|] eqn:Hv2; [|discriminate].
    intros (-> & _)%Timestamp_of_yyyymmdd_Ok (-> & _)%Timestamp_of_yyyymmdd_Ok.
    intros [= <-]. apply Nat.eqb_eq in Hl1, Hl2.
    unfold String.ltb, Z.ltb.
    by rewrite (digits_compare s1 s2 v1 v2) by congruence.
Qed.

Lemma sort_insert_sorted {A} (x : pyval * A) l r :
  sort_insert x l = Ok r ->
  Forall (fun p => exists t, to_datetime p.1 = Ok t) (x :: l) ->
  StronglySorted key_date_le l -> StronglySorted key_date_le r.
Proof.
  revert r. induction l as [|y l IH]; intros r H Hparse Hs; simpl in H.
  - inv_ok. by repeat constructor.
  - apply bind_Ok in H as (b & Hb & H).
    apply Forall_cons in Hparse as [[tx Hx] Hparse].
    pose proof Hparse as [[ty Hy] Hparse']%Forall_cons.
    apply StronglySorted_inv in Hs as [Hs Hall].
    pose proof (py_lt_dates _ _ _ _ _ Hy Hx Hb) as ->.
    unfold Timestamp_ltb in H.
    destruct (Z.ltb_spec (Timestamp_ord ty) (Timestamp_ord tx)) as [Hlt|Hge];
      inv_ok.
    + constructor.
      * apply IH; [done| |done]. by constructor; [exists tx|].
      * rewrite (sort_insert_Permutation _ _ _ E). constructor; [|done].
        exists ty, tx. unfold Timestamp_le. repeat split; [done..|lia].
    + constructor; [by constructor|].
      assert (key_date_le x y) as Hxy
        by (exists tx, ty; unfold Timestamp_le; done).
      constructor; [done|].
      eapply Forall_impl; [exact Hall|]. simpl.
      intros z (ty' & tz & Hy' & Hz & Hle). exists tx, tz.
      replace ty' with ty in * by congruence.
      unfold Timestamp_le in *. repeat split; [done..|lia].
Qed.

Lemma sort_keyed_sorted {A} (l r : list (pyval * A)) :
  sort_keyed l = Ok r ->
  Forall (fun p => exists t, to_datetime p.1 = Ok t) l ->
  StronglySorted key_date_le r.
Proof.
  revert r. induction l as [|x l IH]; intros r H Hparse; simpl in H.
  - inv_ok. constructor.
  - apply bind_Ok in H as (s & Hs & H).
    apply Forall_cons in Hparse as [Hx Hparse].
    apply (sort_insert_sorted _ _ _ H); [|by apply IH].
    constructor; [done|]. by rewrite (sort_keyed_Permutation _ _ Hs).
Qed.

Lemma StronglySorted_lookup_lt {A} (R : relation A) l i j x y :
  StronglySorted R l -> (i < j)%nat ->
  l !! i = Some x -> l !! j = Some y -> R x y.
Proof.
  intros Hs. revert i j.
  induction Hs as [|a l Hs IH Hall]; intros i j Hij Hx Hy.
  - by rewrite lookup_nil in Hx.
  - destruct i as [|i], j as [|j]; simpl in *; try lia.
    + simplify_eq. apply (proj1 (Forall_forall _ _) Hall).
      by eapply list_elem_of_lookup_2.
    + apply (IH i j); [lia|done..].
Qed.

Lemma py_sorted_dates_ascending financials sorted_financials :
  py_sorted (fun x => dict_getitem x "REPDTE") financials
    = Ok sorted_financials ->
  Forall (fun f => exists t, to_datetime (dict_get f "REPDTE") = Ok t)
         financials ->
  dates_ascending sorted_financials.
Proof.
  unfold py_sorted. intros H Hparse.
  apply bind_Ok in H as (keys & Hkeys & H).
  apply bind_Ok in H as (s & Hs & H). inv_ok.
  apply mapM_Ok_Forall2 in Hkeys.
  assert (Forall (fun p : pyval * gmap string pyval =>
                    dict_get p.2 "REPDTE" = p.1) (zip keys financials))
    as Hzip.
  { clear -Hkeys. induction Hkeys as [|f k fs ks Hk _ IH]; simpl;
      constructor; [|done].
    simpl. unfold dict_getitem in Hk. unfold dict_get.
    destruct (f !! "REPDTE"); by simplify_eq. }
  assert (Forall (fun p : pyval * gmap string pyval =>
                    exists t, to_datetime p.1 = Ok t) (zip keys financials))
    as Hzparse.
  { clear -Hkeys Hparse Hzip.
    induction Hkeys as [|f k fs ks Hk _ IH]; simpl; [constructor|].
    apply Forall_cons in Hparse as [[t Ht] Hparse].
    simpl in Hzip. apply Forall_cons in Hzip as [Hfk Hzip]. simpl in Hfk.
    constructor; [|by apply IH]. exists t. simpl. congruence. }
  pose proof (sort_keyed_sorted _ _ Hs Hzparse) as Hsorted.
  rewrite <- (sort_keyed_Permutation _ _ Hs) in Hzip.
  intros i j fi fj ti tj Hij Hi Hj Hti Htj.
  rewrite list_lookup_fmap in Hi, Hj.
  destruct (s !! i) as [[ki fi']|] eqn:Hsi; [|done].
  destruct (s !! j) as [[kj fj']|] eqn:Hsj; [|done].
  simpl in Hi, Hj. simplify_eq.
  pose proof (proj1 (Forall_forall _ _) Hzip _
                (list_elem_of_lookup_2 _ _ _ Hsi)) as Hki.
  pose proof (proj1 (Forall_forall _ _) Hzip _
                (list_elem_of_lookup_2 _ _ _ Hsj)) as Hkj.
  simpl in Hki, Hkj.
  destruct (decide (i = j)) as [->|Hne].
  - assert (ti = tj) as -> by congruence. unfold Timestamp_le. lia.
  - destruct (StronglySorted_lookup_lt _ _ i j _ _ Hsorted ltac:(lia) Hsi Hsj)
      as (tx & ty & Hx & Hy & Hle).
    simpl in Hx, Hy. congruence.
Qed.

(** In a run that returns, every record of every bank has a date. *)
Lemma bank_rows_dates bank_name financials rows :
  bank_rows bank_name financials = Ok rows ->
  Forall (fun f => exists t, to_datetime (dict_get f "REPDTE") = Ok t)
         financials.
Proof.
  intros (sf & Hsf & Hlen & Hrows)%bank_rows_Ok.
  apply py_sorted_Ok in Hsf as [Hperm _]. rewrite <- Hperm.
  apply Forall_lookup. intros i fin Hfin.
  destruct (lookup_lt_is_Some_2 rows i) as [m Hm].
  { rewrite Hlen. by eapply lookup_lt_Some. }
  destruct (Hrows _ _ Hm) as (fin' & Hfin' & Hd).
  replace fin' with fin in * by congruence.
  destruct (derive_row_capital _ _ _ _ _ Hd) as (t & _ & _ & _ & _ & _ & _ & Ht & _).
  by exists t.
Qed.

Lemma derived_at_dates_ascending financials_data df row bank_name
    sorted_financials i financial :
  calculate_metrics financials_data = Ok df ->
  derived_at financials_data row bank_name sorted_financials i financial ->
  dates_ascending sorted_financials.
Proof.
  intros (per_bank & dates & Hpb & _ & _)%calculate_metrics_Ok
         (fs & m & Hin & Hsf & _).
  apply list_elem_of_lookup in Hin as (n & Hn).
  destruct (Forall2_lookup_l _ _ _ _ _ Hpb Hn) as (rows & _ & Hrows).
  simpl in Hrows.
  eapply py_sorted_dates_ascending; [done|]. by eapply bank_rows_dates.
Qed.

(** ** The growth rate of a row of the table *)

Lemma derive_row_cre bank_name sorted_financials i financial row cur :
  derive_row bank_name sorted_financials i financial = Ok row ->
  non_owner_occupied_cre financial = Ok cur ->
  exists cons multi nonooc comre,
    cre_inputs row cons multi nonooc comre
    /\ cur = (cons + multi + nonooc + comre)%float.
Proof.
  intros H Hcur.
  destruct (derive_row_field _ _ _ _ _
              "RE Construction and Land Development" "LNRECONS" H)
    as (cons & Hcons & Hrcons); [field_in|].
  destruct (derive_row_field _ _ _ _ _ "Multifamily" "LNREMULT" H)
    as (multi & Hmulti & Hrmulti); [field_in|].
  destruct (derive_row_field _ _ _ _ _
              "Non-OOC Nonresidential Properties Loans" "LNRENROT" H)
    as (nonooc & Hnonooc & Hrnonooc); [field_in|].
  destruct (derive_row_field _ _ _ _ _
              "Commercial Real Estate Loans not Secured by Real Estate"
              "LNCOMRE" H)
    as (comre & Hcomre & Hrcomre); [field_in|].
  exists cons, multi, nonooc, comre. split; [done|].
  unfold non_owner_occupied_cre in Hcur.
  rewrite Hcons, Hmulti, Hnonooc, Hcomre in Hcur. simpl in Hcur.
  by inv_ok.
Qed.

(** C2, as the code has it.  Within a bank, the records taken in the
    order that [sorted] gives them by their raw [REPDTE] value (which is
    the ascending order of date when the stamps of the bank are strings
    of eight digits) and numbered from 0, the growth rate of record [i] is
    null when [i < 12]; null when [i >= 12] and the non-owner-occupied CRE
    of record [i - 12] is not [> 0], be it [<= 0] or NaN; and
    [((cre(i) / cre(i - 12)) - 1) * 100] otherwise, that is when
    [i >= 12] and that value is [> 0], where [cre] is the sum of the four
    loan values.  The earlier record is found by the fixed index offset
    12, and the division never raises: it is only made by a divisor that
    is [> 0]. *)
Theorem C2_growth_rate_by_index financials_data df row :
  calculate_metrics financials_data = Ok df -> row ∈ df ->
  exists bank_name sorted_financials i financial cur cons multi nonooc comre,
    derived_at financials_data row bank_name sorted_financials i financial
    /\ (Forall eight_digit_stamp sorted_financials ->
        dates_ascending sorted_financials)
    /\ non_owner_occupied_cre financial = Ok cur
    /\ cre_inputs (row_cells row) cons multi nonooc comre
    /\ cur = (cons + multi + nonooc + comre)%float
    /\ ((i < 12)%nat ->
         row_cells row !! "Non-Owner Occupied CRE 3-Year Growth Rate"
           = Some PyNone)
    /\ ((12 <= i)%nat ->
         exists prior old,
           sorted_financials !! (i - 12)%nat = Some prior
           /\ non_owner_occupied_cre prior = Ok old
           /\ (float_le0 old = true ->
                row_cells row !! "Non-Owner Occupied CRE 3-Year Growth Rate"
                  = Some PyNone)
           /\ (float_gt0 old = false ->
                row_cells row !! "Non-Owner Occupied CRE 3-Year Growth Rate"
                  = Some PyNone)
           /\ (float_gt0 old = true ->
                float_truediv cur old = Ok (cur / old)%float
                /\ row_cells row !! "Non-Owner Occupied CRE 3-Year Growth Rate"
                     = Some (PyFloat ((cur / old - 1) * 100)%float))).
Proof.
  intros Hdf Hrow.
  destruct (calculate_metrics_rows _ _ _ Hdf Hrow)
    as (bank & sf & i & fin & Hat).
  pose proof Hat as (m & Hm & Hcells)%derived_at_cells.
  destruct (derive_row_growth _ _ _ _ _ Hm) as (cur & Hcur & Hlt & Hge).
  destruct (derive_row_cre _ _ _ _ _ _ Hm Hcur)
    as (cons & multi & nonooc & comre & Hin & Hsum).
  exists bank, sf, i, fin, cur, cons, multi, nonooc, comre.
  split; [done|]. split; [intros _; by eapply derived_at_dates_ascending|].
  split; [done|]. split.
  { unfold cre_inputs in *. by rewrite !Hcells. }
  split; [done|]. rewrite !Hcells by done. split; [done|].
  intros Hi. destruct (Hge Hi) as (prior & old & Hprior & Hold & Hgt & Hngt).
  exists prior, old. do 2 (split; [done|]). split; [|split].
  - intros Hle%float_le0_not_gt0. auto.
  - exact Hngt.
  - intros Hc. split; [by apply float_truediv_gt0|auto].
Qed.

(** ** The numeric coercion *)

(** C4. [safe_float] gives 0.0 for a null, 0.0 for a string that [float]
    cannot parse, and otherwise the value as a float.  It is not total,
    though: an [int] beyond the float range makes [float] raise
    [OverflowError], which the [except ValueError] clause lets through. *)
Theorem C4_safe_float_coercion :
  safe_float PyNone = Ok 0%float
  /\ (forall s, float_of_str s = None -> safe_float (PyStr s) = Ok 0%float)
  /\ (forall s f, float_of_str s = Some f -> safe_float (PyStr s) = Ok f)
  /\ (forall f, safe_float (PyFloat f) = Ok f)
  /\ (forall z f, float_of_int z = Ok f -> safe_float (PyInt z) = Ok f)
  /\ safe_float (PyInt (10 ^ 309)) = Raise OverflowError.
Proof.
  unfold safe_float, py_float. repeat split.
  - by intros s ->.
  - by intros s f ->.
  - by intros z f ->.
Qed.

(** ** When the engine returns *)

Lemma safe_float_total v : coercible v -> exists x, safe_float v = Ok x.
Proof.
  unfold safe_float, py_float.
  destruct v as [|z|f|s]; simpl; [by eexists| |by eexists|].
  - intros [f ->]. by eexists.
  - intros _. destruct (float_of_str s); by eexists.
Qed.

Lemma base_metrics_total bank_name financial :
  (forall code, coercible (dict_get financial code)) ->
  exists m, base_metrics bank_name financial = Ok m /\ has_base m.
Proof.
  intros Hc.
  destruct (fill_metrics_total base_fields financial
              (<["Date" := dict_get financial "REPDTE"]>
                 (<["Bank" := PyStr bank_name]> ∅))) as [m Hm].
  { apply Forall_forall. intros [name code] _. apply safe_float_total, Hc. }
  exists m. split; [done|].
  intros name ([name' code] & -> & Hin)%list_elem_of_fmap.
  destruct (base_metrics_field _ _ _ _ _ Hm Hin) as (v & _ & Hv). eauto.
Qed.

Lemma has_base_insert m k v :
  has_base m -> k ∉ base_fields.*1 -> has_base (<[k := v]> m).
Proof.
  intros Hm Hk name Hname. rewrite lookup_insert_ne; [by apply Hm|].
  by intros ->.
Qed.

Lemma getitem_float_has_base m name :
  has_base m -> name ∈ base_fields.*1 -> exists v, getitem_float m name = Ok v.
Proof.
  intros Hm Hname. destruct (Hm _ Hname) as [v Hv]. exists v.
  by apply getitem_float_Ok.
Qed.

Ltac solve_has_base :=
  repeat (apply has_base_insert; [|field_in]); assumption.

(** Runs the next [metrics[k]] of the goal, which finds a float. *)
Ltac get_float :=
  match goal with
  | |- context [getitem_float ?m ?k] =>
      let v := fresh "v" in
      let E := fresh "E" in
      destruct (getitem_float_has_base m k) as [v E];
      [solve_has_base | field_in | rewrite E; simpl]
  end.

Lemma capital_stage_total financial m t :
  has_base m -> to_datetime (dict_get financial "REPDTE") = Ok t ->
  exists mc, capital_stage financial m = Ok mc /\ has_base mc.1.
Proof.
  intros Hm Ht. unfold capital_stage. do 5 get_float. rewrite Ht; simpl.
  destruct (Timestamp_geb t cecl_start); eexists; (split; [done|]); simpl;
    solve_has_base.
Qed.

Lemma concentration_stage_total m cb :
  has_base m ->
  exists m', concentration_stage m cb = Ok m' /\ has_base m'.
Proof.
  intros Hm. unfold concentration_stage.
  destruct (float_gt0 cb) eqn:Hgt.
  - unfold ratio_to.
    do 5 (get_float; rewrite (float_truediv_gt0 _ _ Hgt); simpl).
    do 4 get_float. rewrite (float_truediv_gt0 _ _ Hgt); simpl.
    eexists. split; [done|]. solve_has_base.
  - eexists. split; [done|]. solve_has_base.
Qed.

Lemma non_owner_occupied_cre_total financial :
  (forall code, coercible (dict_get financial code)) ->
  exists x, non_owner_occupied_cre financial = Ok x.
Proof.
  intros Hc. unfold non_owner_occupied_cre.
  destruct (safe_float_total _ (Hc "LNRECONS")) as [a ->].
  destruct (safe_float_total _ (Hc "LNREMULT")) as [b ->].
  destruct (safe_float_total _ (Hc "LNRENROT")) as [c ->].
  destruct (safe_float_total _ (Hc "LNCOMRE")) as [d ->].
  by eexists.
Qed.

Lemma growth_stage_total sorted_financials i financial m :
  has_base m ->
  (forall code, coercible (dict_get financial code)) ->
  (i < length sorted_financials)%nat ->
  Forall (fun f => forall code, coercible (dict_get f code))
         sorted_financials ->
  exists m', growth_stage sorted_financials i financial m = Ok m'
             /\ has_base m'.
Proof.
  intros Hm Hc Hi Hall. unfold growth_stage.
  destruct (non_owner_occupied_cre_total _ Hc) as [cur ->].
  destruct (12 <=? i)%nat; simpl;
    [|eexists; split; [done|solve_has_base]].
  unfold list_getitem.
  destruct (lookup_lt_is_Some_2 sorted_financials (i - 12)) as [prior Hp];
    [lia|]. rewrite Hp; simpl.
  destruct (non_owner_occupied_cre_total prior) as [old ->]; simpl.
  { apply (proj1 (Forall_forall _ _) Hall). by eapply list_elem_of_lookup_2. }
  destruct (float_gt0 old) eqn:Hgt.
  - rewrite (float_truediv_gt0 _ _ Hgt); simpl.
    eexists. split; [done|]. solve_has_base.
  - eexists. split; [done|]. solve_has_base.
Qed.

Lemma charge_off_stage_total m :
  has_base m -> exists m', charge_off_stage m = Ok m'.
Proof.
  intros Hm. unfold charge_off_stage. get_float.
  destruct (float_gt0 v) eqn:Hgt; [|by eexists].
  get_float. rewrite (float_truediv_gt0 _ _ Hgt); simpl. by eexists.
Qed.

(** The loop body returns on a well-formed record of a well-formed
    sequence. *)
Lemma derive_row_total bank_name sorted_financials i financial :
  Forall well_formed_record sorted_financials ->
  sorted_financials !! i = Some financial ->
  exists m, derive_row bank_name sorted_financials i financial = Ok m.
Proof.
  intros Hall Hi.
  pose proof (proj1 (Forall_forall _ _) Hall _
                (list_elem_of_lookup_2 _ _ _ Hi)) as [(s & t & Hs & Ht) Hc].
  unfold derive_row.
  destruct (base_metrics_total bank_name _ Hc) as (m0 & -> & Hm0); simpl.
  destruct (capital_stage_total financial m0 t Hm0) as (mc & -> & Hm1); simpl.
  { unfold dict_get. by rewrite Hs. }
  destruct (concentration_stage_total mc.1 mc.2 Hm1) as (m2 & -> & Hm2); simpl.
  destruct (growth_stage_total sorted_financials i financial m2 Hm2 Hc)
    as (m3 & -> & Hm3); simpl.
  { by eapply lookup_lt_Some. }
  { eapply Forall_impl; [exact Hall|]. by intros f [_ ?]. }
  by apply charge_off_stage_total.
Qed.

Lemma sort_insert_total {A} (x : pyval * A) l :
  Forall (fun p => exists s, p.1 = PyStr s) (x :: l) ->
  exists r, sort_insert x l = Ok r.
Proof.
  induction l as [|y l IH]; intros Hall; simpl; [by eexists|].
  apply Forall_cons in Hall as [[sx Hx] [[sy Hy] Hall]%Forall_cons].
  rewrite Hx, Hy; simpl. destruct (String.ltb sy sx); [|by eexists].
  destruct IH as [r ->]; [|by eexists].
  constructor; [by exists sx|done].
Qed.

Lemma sort_keyed_total {A} (l : list (pyval * A)) :
  Forall (fun p => exists s, p.1 = PyStr s) l ->
  exists r, sort_keyed l = Ok r.
Proof.
  induction 1 as [|x l Hx Hall [s Hs]]; simpl; [by eexists|].
  rewrite Hs; simpl. apply sort_insert_total.
  constructor; [done|]. by rewrite (sort_keyed_Permutation _ _ Hs).
Qed.

Lemma py_sorted_total (financials : list (gmap string pyval)) :
  Forall (fun f => exists s, f !! "REPDTE" = Some (PyStr s)) financials ->
  exists sorted_financials,
    py_sorted (fun x => dict_getitem x "REPDTE") financials
    = Ok sorted_financials.
Proof.
  intros Hall. unfold py_sorted.
  assert (exists keys,
            mapM (fun x : gmap string pyval => dict_getitem x "REPDTE")
                 financials = Ok keys
            /\ Forall (fun p : pyval * gmap string pyval =>
                         exists s, p.1 = PyStr s) (zip keys financials))
    as (keys & -> & Hkeys).
  { induction Hall as [|f fs [s Hs] _ (keys & Hk & Hz)].
    - by exists [].
    - exists (PyStr s :: keys). split.
      + apply mapM_Ok_Forall2. constructor.
        * unfold dict_getitem. by rewrite Hs.
        * by apply mapM_Ok_Forall2.
      + constructor; [by exists s|done]. }
  simpl. destruct (sort_keyed_total _ Hkeys) as [r ->]. by eexists.
Qed.

Lemma bank_rows_total bank_name financials :
  Forall well_formed_record financials ->
  exists rows, bank_rows bank_name financials = Ok rows.
Proof.
  intros Hwf. unfold bank_rows.
  destruct (py_sorted_total financials) as [sf Hsf].
  { eapply Forall_impl; [exact Hwf|].
    intros f [(s & t & Hs & _) _]. by exists s. }
  rewrite Hsf; simpl.
  apply py_sorted_Ok in Hsf as [Hperm _]. rewrite <- Hperm in Hwf.
  apply mapM_total, Forall_forall.
  intros [i fin] (j & Hj)%list_elem_of_lookup.
  apply enumerate_lookup in Hj as [Hi Hfin]. simpl in *. subst j.
  by eapply derive_row_total.
Qed.

(** After the loop, line 292 finds a date in every dict. *)
Lemma bank_rows_Date bank_name financials rows :
  bank_rows bank_name financials = Ok rows ->
  Forall (fun m => is_Some (m !! "Date")
                   /\ exists t, to_datetime (dict_get m "Date") = Ok t) rows.
Proof.
  intros (sf & _ & _ & Hrows)%bank_rows_Ok.
  apply Forall_lookup. intros i m Hm.
  destruct (Hrows _ _ Hm) as (fin & _ & Hd).
  pose proof (derive_row_Date _ _ _ _ _ Hd) as HDate.
  destruct (derive_row_capital _ _ _ _ _ Hd)
    as (t & _ & _ & _ & _ & _ & _ & Ht & _).
  split; [by eexists|]. exists t. unfold dict_get at 1. by rewrite HDate.
Qed.

Lemma bank_rows_length bank_name financials rows :
  bank_rows bank_name financials = Ok rows -> length rows = length financials.
Proof.
  intros (sf & Hsf & Hlen & _)%bank_rows_Ok.
  apply py_sorted_Ok in Hsf as [Hperm _]. by rewrite Hlen, Hperm.
Qed.

Lemma per_bank_facts
    (financials_data : list (string * list (gmap string pyval))) per_bank :
  Forall2 (fun bf rows => bank_rows bf.1 bf.2 = Ok rows)
          financials_data per_bank ->
  Forall (fun m => is_Some (m !! "Date")
                   /\ exists t, to_datetime (dict_get m "Date") = Ok t)
         (concat per_bank)
  /\ length (concat per_bank) = length (concat financials_data.*2).
Proof.
  induction 1 as [|[b fs] rows d per_bank Hrows _ [IH1 IH2]]; simpl.
  - by split.
  - split.
    + apply Forall_app. split; [by eapply bank_rows_Date|done].
    + rewrite !length_app, IH2. f_equal. by eapply bank_rows_length.
Qed.

(** The run returns whenever the loop does and has produced a row. *)
Lemma calculate_metrics_after_loop
    (financials_data : list (string * list (gmap string pyval))) per_bank :
  Forall2 (fun bf rows => bank_rows bf.1 bf.2 = Ok rows)
          financials_data per_bank ->
  concat financials_data.*2 ≠ [] ->
  exists df, calculate_metrics financials_data = Ok df
             /\ length df = length (concat financials_data.*2).
Proof.
  intros Hpb Hne. unfold calculate_metrics.
  rewrite (proj2 (mapM_Ok_Forall2 _ _ _) Hpb); simpl.
  destruct (per_bank_facts _ _ Hpb) as [Hdate Hlen].
  unfold frame_column.
  destruct (concat per_bank) as [|m all_metrics] eqn:Hall.
  { simpl in Hlen. by destruct (concat financials_data.*2). }
  pose proof Hdate as [[HD _] _]%Forall_cons.
  destruct (mapM_total to_datetime
              ((fun r => dict_get r "Date") <$> m :: all_metrics))
    as [dates Hdates].
  { apply Forall_fmap. eapply Forall_impl; [exact Hdate|].
    by intros m' [_ ?]. }
  rewrite (bind_Ok_eq _ _ ((fun r => dict_get r "Date") <$> m :: all_metrics))
    by (cbn [existsb]; by rewrite (bool_decide_eq_true_2 _ HD)).
  rewrite (bind_Ok_eq _ _ _ Hdates).
  eexists. split; [done|].
  unfold sort_values. rewrite merge_sort_Permutation.
  rewrite length_zip_with, (mapM_Ok_length _ _ _ Hdates), length_fmap.
  rewrite <- Hlen. lia.
Qed.

(** Every record of the input has its row in the table. *)
Lemma record_has_row financials_data df bank_name financials financial :
  calculate_metrics financials_data = Ok df ->
  (bank_name, financials) ∈ financials_data -> financial ∈ financials ->
  exists row sorted_financials i,
    row ∈ df
    /\ derived_at financials_data row bank_name sorted_financials i financial.
Proof.
  intros (per_bank & dates & Hpb & Hparse & Hperm)%calculate_metrics_Ok Hin Hfin.
  pose proof Hin as (n & Hn)%list_elem_of_lookup.
  destruct (Forall2_lookup_l _ _ _ _ _ Hpb Hn) as (rows & Hrows & Hbank).
  simpl in Hbank.
  pose proof Hbank as (sf & Hsf & Hlen & Hderive)%bank_rows_Ok.
  pose proof Hsf as [Hsperm _]%py_sorted_Ok.
  rewrite <- Hsperm in Hfin. apply list_elem_of_lookup in Hfin as (i & Hi).
  destruct (lookup_lt_is_Some_2 rows i) as [m Hm].
  { rewrite Hlen. by eapply lookup_lt_Some. }
  destruct (Hderive _ _ Hm) as (fin' & Hfin' & Hd).
  replace fin' with financial in * by congruence.
  assert (m ∈ concat per_bank) as (j & Hj)%list_elem_of_lookup.
  { apply list_elem_of_In, in_concat. exists rows.
    split; apply list_elem_of_In; by eapply list_elem_of_lookup_2. }
  destruct (Forall2_lookup_l _ _ _ _ _ Hparse Hj) as (t & Ht & Hdate).
  exists (mkRow t (delete "Date" m)), sf, i. split.
  - rewrite Hperm. apply elem_of_lookup_zip_with. by exists j, t, m.
  - exists financials, m. simpl. do 4 (split; [done|]). split; [|done].
    unfold dict_get in Hdate at 1.
    by rewrite (derive_row_Date _ _ _ _ _ Hd) in Hdate.
Qed.

(** C5, as the code has it.  When every record carries a [REPDTE] string
    of eight digits YYYYMMDD that names a calendar day of the years 1678
    to 2261 and no field holds an [int] beyond the float range, and there
    is at least one record, the engine returns a table with one row for
    each record: a field that is missing or null is 0.0 in the row, and
    so is a string that [float] cannot parse. *)
Theorem C5_rows_for_well_formed_records
    (financials_data : list (string * list (gmap string pyval))) :
  (forall bank_name financials,
     (bank_name, financials) ∈ financials_data ->
     Forall well_formed_record financials) ->
  concat financials_data.*2 ≠ [] ->
  exists df,
    calculate_metrics financials_data = Ok df
    /\ length df = length (concat financials_data.*2)
    /\ forall bank_name financials financial,
         (bank_name, financials) ∈ financials_data ->
         financial ∈ financials ->
         exists row sorted_financials i,
           row ∈ df
           /\ derived_at financials_data row bank_name sorted_financials i
                          financial
           /\ forall name code,
                (name, code) ∈ base_fields ->
                (dict_get financial code = PyNone
                 \/ exists s, dict_get financial code = PyStr s
                              /\ float_of_str s = None) ->
                row_cells row !! name = Some (PyFloat 0).
Proof.
  intros Hwf Hne.
  destruct (mapM_total (fun bf => bank_rows bf.1 bf.2) financials_data)
    as [per_bank Hpb].
  { apply Forall_forall. intros [b fs] Hin. simpl.
    apply bank_rows_total. by eapply Hwf. }
  apply mapM_Ok_Forall2 in Hpb.
  destruct (calculate_metrics_after_loop _ _ Hpb Hne) as (df & Hdf & Hlen).
  exists df. do 2 (split; [done|]).
  intros b fs fin Hin Hfin.
  destruct (record_has_row _ _ _ _ _ Hdf Hin Hfin) as (row & sf & i & Hrow & Hat).
  exists row, sf, i. do 2 (split; [done|]).
  intros name code Hfield Hvalue.
  destruct (derived_at_cells _ _ _ _ _ _ Hat) as (m & Hm & Hcells).
  destruct (derive_row_field _ _ _ _ _ _ _ Hm Hfield) as (v & Hv & Hname).
  rewrite Hcells.
  - rewrite Hname. do 2 f_equal.
    destruct Hvalue as [Hnone|(s' & Hs' & Hparse)].
    + rewrite Hnone in Hv. by injection Hv.
    + rewrite Hs' in Hv. unfold safe_float, py_float in Hv.
      rewrite Hparse in Hv. by injection Hv.
  - intros ->. assert ("Date" ∉ base_fields.*1) as Hno by field_in.
    apply Hno, list_elem_of_fmap. by exists ("Date", code).
Qed.

(** ** The shape of a row *)

Lemma fill_metrics_dom fields financial metrics m :
  fill_metrics fields financial metrics = Ok m ->
  dom m = list_to_set fields.*1 ∪ dom metrics.
Proof.
  revert metrics. induction fields as [|[name code] fields IH];
    intros metrics H; simpl in H.
  - inv_ok. simpl. by rewrite (left_id_L ∅ (∪)).
  - inv_ok. rewrite (IH _ H), dom_insert_L. simpl.
    by rewrite (assoc_L (∪)), (comm_L (∪) (list_to_set fields.*1)).
Qed.

Lemma capital_stage_dom financial metrics mc :
  capital_stage financial metrics = Ok mc ->
  dom mc.1 = {[ "CECL Transition Amount" ]} ∪ dom metrics.
Proof.
  unfold capital_stage. intros H. inv_ok.
  destruct (Timestamp_geb _ _); inv_ok; simpl; apply dom_insert_L.
Qed.

Lemma concentration_stage_dom metrics cb m :
  concentration_stage metrics cb = Ok m ->
  dom m = list_to_set ratio_names ∪ dom metrics.
Proof.
  unfold concentration_stage, ratio_names. intros H.
  destruct (float_gt0 cb); inv_ok; rewrite !dom_insert_L; simpl;
    apply set_eq; intros x;
    rewrite !elem_of_union, !elem_of_singleton, elem_of_empty; tauto.
Qed.

Lemma growth_stage_dom sorted_financials i financial metrics m :
  growth_stage sorted_financials i financial metrics = Ok m ->
  dom m = {[ "Non-Owner Occupied CRE 3-Year Growth Rate" ]} ∪ dom metrics.
Proof.
  unfold growth_stage. intros H. inv_ok.
  destruct (12 <=? i)%nat; inv_ok; [|apply dom_insert_L].
  destruct (float_gt0 _); inv_ok; apply dom_insert_L.
Qed.

Lemma charge_off_stage_dom metrics m :
  charge_off_stage metrics = Ok m ->
  dom m = {[ "Net Charge-Offs / Allowance for Credit Loss" ]} ∪ dom metrics.
Proof.
  unfold charge_off_stage. intros H. inv_ok.
  destruct (float_gt0 _); inv_ok; apply dom_insert_L.
Qed.

(** Whatever branches the loop body takes, the dict it appends has the
    same keys. *)
Lemma derive_row_keys bank_name sorted_financials i financial row k :
  derive_row bank_name sorted_financials i financial = Ok row ->
  is_Some (row !! k) <-> k = "Bank" \/ k = "Date" \/ k ∈ metric_columns.
Proof.
  intros (m0 & m1 & cb & m2 & m3 & H0 & H1 & H2 & H3 & H4)%derive_row_stages.
  apply fill_metrics_dom in H0. apply capital_stage_dom in H1.
  apply concentration_stage_dom in H2. apply growth_stage_dom in H3.
  apply charge_off_stage_dom in H4. simpl in H1.
  rewrite <- elem_of_dom, H4, H3, H2, H1, H0, !dom_insert_L, dom_empty_L.
  unfold metric_columns, derived_names.
  rewrite !elem_of_union, !elem_of_singleton, !elem_of_list_to_set,
    elem_of_empty, elem_of_app, elem_of_cons, elem_of_app, !elem_of_cons,
    elem_of_nil.
  tauto.
Qed.

Lemma zero_default_cases k :
  k ∈ zero_default_names ->
  k = "CECL Transition Amount" \/ k ∈ ratio_names
  \/ k = "Net Charge-Offs / Allowance for Credit Loss".
Proof.
  unfold zero_default_names.
  rewrite elem_of_cons, elem_of_app, elem_of_cons, elem_of_nil. tauto.
Qed.

Lemma ratios_over_float (row : gmap string pyval)
    re cons ci ag cc multi nonres comre cb k :
  ratios_over row re cons ci ag cc multi nonres comre cb ->
  k ∈ ratio_names -> exists f, row !! k = Some (PyFloat f).
Proof.
  intros (H1 & H2 & H3 & H4 & H5 & H6) Hk. unfold ratio_names in Hk.
  rewrite !elem_of_cons, elem_of_nil in Hk.
  destruct Hk as [-> | [-> | [-> | [-> | [-> | [-> | []]]]]]]; eauto.
Qed.

(** The kinds of value that the loop body stores under each key. *)
Lemma derive_row_kinds bank_name sorted_financials i financial
    (row : gmap string pyval) :
  derive_row bank_name sorted_financials i financial = Ok row ->
  (forall k, k ∈ base_fields.*1 -> exists f, row !! k = Some (PyFloat f))
  /\ (forall k, k ∈ zero_default_names ->
        row !! k = Some (PyInt 0) \/ exists f, row !! k = Some (PyFloat f))
  /\ (row !! "Non-Owner Occupied CRE 3-Year Growth Rate" = Some PyNone
      \/ exists f, row !! "Non-Owner Occupied CRE 3-Year Growth Rate"
                   = Some (PyFloat f)).
Proof.
  intros H. split; [|split].
  - intros k ([name code] & -> & Hin)%list_elem_of_fmap.
    destruct (derive_row_field _ _ _ _ _ _ _ H Hin) as (v & _ & Hv). eauto.
  - intros k [-> | [Hk | ->]]%zero_default_cases.
    + destruct (derive_row_capital _ _ _ _ _ H)
        as (date & ct1badj & eq & eqpp & tier1 & acl & cb & _ & _ & _ & Hc).
      destruct (Timestamp_geb date cecl_start);
        apply pair_equal_spec in Hc as [Hc _]; eauto.
    + destruct (derive_row_ratios _ _ _ _ _ H)
        as (cb & re & cons & ci & ag & cc & multi & nonres & comre
            & _ & _ & Hover & Hzero).
      destruct (float_gt0 cb).
      * right. by eapply ratios_over_float; [apply Hover|].
      * left. by apply (proj1 (Forall_forall _ _) (Hzero eq_refl)).
    + destruct (derive_row_charge_off _ _ _ _ _ H)
        as (nco & acl & _ & _ & Hgt & Hle).
      destruct (float_gt0 acl); eauto.
  - destruct (derive_row_growth _ _ _ _ _ H) as (cur & _ & Hlt & Hge).
    destruct (Nat.lt_ge_cases i 12) as [Hi|Hi]; [by left; apply Hlt|].
    destruct (Hge Hi) as (prior & old & _ & _ & Hgt & Hle).
    destruct (float_gt0 old); eauto.
Qed.

(** The cells of a row of the table, next to its date. *)
Lemma table_row_keys financials_data df row k :
  calculate_metrics financials_data = Ok df -> row ∈ df ->
  is_Some (row_cells row !! k) <-> k = "Bank" \/ k ∈ metric_columns.
Proof.
  intros Hdf Hrow.
  destruct (calculate_metrics_rows _ _ _ Hdf Hrow)
    as (bank & sf & i & fin & fs & m & _ & _ & _ & Hm & _ & Hcells).
  assert ("Date" ∉ metric_columns) as HDate by field_in.
  rewrite Hcells, lookup_delete_is_Some, (derive_row_keys _ _ _ _ _ k Hm).
  split.
  - intros [Hne [-> | [-> | Hk]]]; auto. done.
  - intros [-> | Hk]; [split; [done|by left]|].
    split; [by intros <-|auto].
Qed.

(** X1. Every row of the table has the same columns, whatever branches the
    loop took for it: the bank name and the 58 metric columns, next to the
    date.  The columns of the literal hold floats; a CECL amount, a
    concentration ratio or the charge-off ratio is a float or the [int] 0;
    the growth rate is a float or null. *)
Theorem table_row_shape financials_data df row :
  calculate_metrics financials_data = Ok df -> row ∈ df ->
  (forall k, is_Some (row_cells row !! k)
             <-> k = "Bank" \/ k ∈ metric_columns)
  /\ (exists bank_name, row_cells row !! "Bank" = Some (PyStr bank_name))
  /\ (forall k, k ∈ base_fields.*1 ->
        exists f, row_cells row !! k = Some (PyFloat f))
  /\ (forall k, k ∈ zero_default_names ->
        row_cells row !! k = Some (PyInt 0)
        \/ exists f, row_cells row !! k = Some (PyFloat f))
  /\ (row_cells row !! "Non-Owner Occupied CRE 3-Year Growth Rate"
        = Some PyNone
      \/ exists f, row_cells row !! "Non-Owner Occupied CRE 3-Year Growth Rate"
                   = Some (PyFloat f)).
Proof.
  intros Hdf Hrow.
  destruct (calculate_metrics_rows _ _ _ Hdf Hrow)
    as (bank & sf & i & fin & fs & m & _ & _ & _ & Hm & _ & Hcells).
  assert ("Date" ∉ metric_columns) as HDate by field_in.
  assert (forall k, k ∈ metric_columns -> row_cells row !! k = m !! k) as Hsame.
  { intros k Hk. rewrite Hcells. apply lookup_delete_ne. by intros <-. }
  destruct (derive_row_kinds _ _ _ _ _ Hm) as (Hbase & Hzero & Hgrowth).
  split; [|split; [|split; [|split]]].
  - intros k. by eapply table_row_keys.
  - exists bank. rewrite Hcells, lookup_delete_ne by done.
    by eapply derive_row_Bank.
  - intros k Hk. rewrite Hsame; [by apply Hbase|].
    apply elem_of_app. by left.
  - intros k Hk. rewrite Hsame; [by apply Hzero|].
    revert Hk. unfold metric_columns, zero_default_names, derived_names.
    rewrite !elem_of_app, !elem_of_cons, !elem_of_app, !elem_of_cons,
      elem_of_nil. tauto.
  - rewrite Hsame; [done|]. field_in.
Qed.

(** ** One row for each record *)

Lemma per_bank_record_keys
    (financials_data : list (string * list (gmap string pyval))) per_bank :
  Forall2 (fun bf rows => bank_rows bf.1 bf.2 = Ok rows)
          financials_data per_bank ->
  dict_key <$> concat per_bank ≡ₚ record_keys financials_data.
Proof.
  unfold record_keys.
  induction 1 as [|[b fs] rows d per_bank Hrows _ IH]; simpl; [done|].
  rewrite fmap_app, IH.
  destruct (bank_rows_keys _ _ _ Hrows) as (sf & Hperm & ->).
  simpl. by rewrite Hperm.
Qed.

(** X2. The table has one row for each input record and is never empty:
    the (bank, date) pairs of its rows are the pairs of the records, each
    as often as it occurs in the input. *)
Theorem table_of_records financials_data df :
  calculate_metrics financials_data = Ok df ->
  (fun row => ((row_key row).1, Ok (row_key row).2)) <$> df
    ≡ₚ record_keys financials_data
  /\ length df = length (concat financials_data.*2)
  /\ df ≠ [].
Proof.
  intros Hdf.
  destruct (calculate_metrics_Ok _ _ Hdf)
    as (per_bank & dates & Hpb & Hparse & Hperm).
  destruct (per_bank_facts _ _ Hpb) as [_ Hlen].
  assert (length df = length (concat per_bank)) as Hdflen.
  { rewrite Hperm, length_zip_with, <- (Forall2_length _ _ _ Hparse). lia. }
  split; [|split].
  - rewrite Hperm, (table_keys _ _ Hparse). by apply per_bank_record_keys.
  - by rewrite Hdflen.
  - intros ->. unfold calculate_metrics in Hdf.
    rewrite (proj2 (mapM_Ok_Forall2 _ _ _) Hpb) in Hdf. simpl in Hdf.
    destruct (concat per_bank); [discriminate Hdf|discriminate Hdflen].
Qed.

(** ** The exceptions of the engine *)

Lemma bind_Raise {A B} (f : A -> result B) (r : result A) e :
  r ≫= f = Raise e -> r = Raise e \/ exists a, r = Ok a /\ f a = Raise e.
Proof. destruct r as [a|e']; simpl; [eauto|]. intros [= ->]. auto. Qed.

Lemma Raise_inj {A} (e1 e2 : exn) : @Raise A e1 = Raise e2 -> e1 = e2.
Proof. congruence. Qed.

(** Splits a run that raised at the step that raised. *)
Ltac inv_raise :=
  repeat match goal with
  | H : Ok _ = Raise _ |- _ => discriminate H
  | H : mret _ = Raise _ |- _ => discriminate H
  | H : Raise _ = Raise _ |- _ => apply Raise_inj in H; try subst
  | H : _ ≫= _ = Raise _ |- _ =>
      let a := fresh "a" in
      let E := fresh "E" in
      apply bind_Raise in H as [H | (a & E & H)]
  end.

Lemma mapM_Raise {A B} (f : A -> result B) (l : list A) e :
  mapM f l = Raise e -> exists i x, l !! i = Some x /\ f x = Raise e.
Proof.
  induction l as [|x l IH]; intros H; simpl in H; [discriminate|].
  inv_raise.
  - by exists 0%nat, x.
  - destruct (IH H) as (i & x' & ? & ?). by exists (S i), x'.
Qed.

Lemma float_of_int_Raise z e : float_of_int z = Raise e -> e = OverflowError.
Proof.
  unfold float_of_int. destruct (binary_normalize _ _ _ _ _); congruence.
Qed.

Lemma safe_float_Raise v e :
  safe_float v = Raise e ->
  e = OverflowError
  /\ exists z, v = PyInt z /\ float_of_int z = Raise OverflowError.
Proof.
  unfold safe_float, py_float, try_except.
  destruct v as [|z|f|s]; [discriminate| |discriminate|].
  - destruct (float_of_int z) as [f|e'] eqn:E; [discriminate|].
    apply float_of_int_Raise in E as Ee. subst e'.
    destruct (decide _); [discriminate|]. intros [= <-]. eauto.
  - destruct (float_of_str s); [discriminate|].
    by destruct (decide _).
Qed.

Lemma getitem_float_Raise (metrics : gmap string pyval) k e :
  getitem_float metrics k = Raise e -> e = KeyError \/ e = TypeError.
Proof.
  unfold getitem_float, dict_getitem.
  destruct (metrics !! k) as [[ | | |]|]; simpl; intros [= <-]; auto.
Qed.

Lemma to_datetime_Raise v e :
  to_datetime v = Raise e -> e = ValueError \/ e = TypeError.
Proof.
  unfold to_datetime, Timestamp_of_yyyymmdd. intros H.
  repeat case_match; simplify_eq; auto.
Qed.

Lemma fill_metrics_Raise fields financial metrics e :
  fill_metrics fields financial metrics = Raise e -> e = OverflowError.
Proof.
  revert metrics. induction fields as [|[name code] fields IH];
    intros metrics H; simpl in H; [discriminate|].
  inv_raise; [by apply safe_float_Raise in H as [-> _]|eauto].
Qed.

Lemma non_owner_occupied_cre_Raise financial e :
  non_owner_occupied_cre financial = Raise e -> e = OverflowError.
Proof.
  unfold non_owner_occupied_cre. intros H.
  inv_raise; by apply safe_float_Raise in H as [-> _].
Qed.

(** Names the exception of the step that raised, when the step is a
    lookup, a conversion or a guarded division. *)
Ltac raise_atom :=
  unfold input_error;
  match goal with
  | H : getitem_float _ _ = Raise _ |- _ =>
      apply getitem_float_Raise in H as [-> | ->]; auto
  | H : to_datetime _ = Raise _ |- _ =>
      apply to_datetime_Raise in H as [-> | ->]; auto
  | H : fill_metrics _ _ _ = Raise _ |- _ =>
      apply fill_metrics_Raise in H as ->; auto
  | H : non_owner_occupied_cre _ = Raise _ |- _ =>
      apply non_owner_occupied_cre_Raise in H as ->; auto
  | Hgt : float_gt0 ?y = true, H : float_truediv _ ?y = Raise _ |- _ =>
      rewrite (float_truediv_gt0 _ _ Hgt) in H; discriminate H
  end.

Lemma capital_stage_Raise financial metrics e :
  capital_stage financial metrics = Raise e -> input_error e.
Proof.
  unfold capital_stage. intros H. inv_raise; try raise_atom.
  destruct (Timestamp_geb _ _); discriminate H.
Qed.

Lemma concentration_stage_Raise metrics cb e :
  concentration_stage metrics cb = Raise e -> input_error e.
Proof.
  unfold concentration_stage, ratio_to. intros H.
  destruct (float_gt0 cb) eqn:Hgt; [|discriminate H].
  inv_raise; raise_atom.
Qed.

Lemma growth_stage_Raise sorted_financials i financial metrics e :
  growth_stage sorted_financials i financial metrics = Raise e ->
  (i < length sorted_financials)%nat -> input_error e.
Proof.
  unfold growth_stage, list_getitem. intros H Hi. inv_raise; [raise_atom|].
  destruct (12 <=? i)%nat; [|discriminate H]. inv_raise.
  - destruct (sorted_financials !! (i - 12)%nat) eqn:Hp; [discriminate H|].
    apply lookup_ge_None in Hp. lia.
  - raise_atom.
  - destruct (float_gt0 _) eqn:Hgt; [|discriminate H]. inv_raise; raise_atom.
Qed.

Lemma charge_off_stage_Raise metrics e :
  charge_off_stage metrics = Raise e -> input_error e.
Proof.
  unfold charge_off_stage. intros H. inv_raise; [raise_atom|].
  destruct (float_gt0 _) eqn:Hgt; [|discriminate H].
  inv_raise; try raise_atom.
  rewrite E in E1. apply Ok_inj in E1 as <-. raise_atom.
Qed.

Lemma derive_row_Raise bank_name sorted_financials i financial e :
  derive_row bank_name sorted_financials i financial = Raise e ->
  (i < length sorted_financials)%nat -> input_error e.
Proof.
  unfold derive_row, base_metrics. intros H Hi. inv_raise.
  - raise_atom.
  - by eapply capital_stage_Raise.
  - by eapply concentration_stage_Raise.
  - by eapply growth_stage_Raise.
  - by eapply charge_off_stage_Raise.
Qed.

Lemma py_lt_Raise x y e : py_lt x y = Raise e -> e = TypeError.
Proof. destruct x, y; simpl; congruence. Qed.

Lemma sort_insert_Raise {A} (x : pyval * A) l e :
  sort_insert x l = Raise e -> e = TypeError.
Proof.
  induction l as [|y l IH]; intros H; simpl in H; [discriminate|].
  inv_raise; [by eapply py_lt_Raise|].
  destruct a; [|discriminate H]. inv_raise. auto.
Qed.

Lemma sort_keyed_Raise {A} (l : list (pyval * A)) e :
  sort_keyed l = Raise e -> e = TypeError.
Proof.
  induction l as [|x l IH]; intros H; simpl in H; [discriminate|].
  inv_raise; [auto|by eapply sort_insert_Raise].
Qed.

Lemma py_sorted_Raise (financials : list (gmap string pyval)) e :
  py_sorted (fun x => dict_getitem x "REPDTE") financials = Raise e ->
  e = KeyError \/ e = TypeError.
Proof.
  unfold py_sorted. intros H. inv_raise.
  - apply mapM_Raise in H as (i & x & _ & H). unfold dict_getitem in H.
    destruct (x !! "REPDTE"); [discriminate H|]. injection H as <-. auto.
  - right. by eapply sort_keyed_Raise.
Qed.

Lemma bank_rows_Raise bank_name financials e :
  bank_rows bank_name financials = Raise e -> input_error e.
Proof.
  unfold bank_rows. intros H. inv_raise.
  - apply py_sorted_Raise in H as [-> | ->]; unfold input_error; auto.
  - apply mapM_Raise in H as (j & [i fin] & Hj & H).
    apply enumerate_lookup in Hj as [Hi Hfin]. simpl in *. subst j.
    eapply derive_row_Raise; [exact H|]. by eapply lookup_lt_Some.
Qed.

(** X3. Whatever the input, the engine raises no [ZeroDivisionError] and
    no [IndexError]: every division is guarded by its divisor and the
    look-back index is inside the bank's sequence.  An exception of the
    engine is a [KeyError], [TypeError], [ValueError] or [OverflowError],
    all of them defects of the input data. *)
Theorem calculate_metrics_raises financials_data e :
  calculate_metrics financials_data = Raise e ->
  input_error e /\ e ≠ ZeroDivisionError /\ e ≠ IndexError.
Proof.
  intros H. assert (input_error e) as He.
  { unfold calculate_metrics in H. inv_raise.
    - apply mapM_Raise in H as (j & [b fs] & _ & H).
      by eapply bank_rows_Raise.
    - unfold frame_column in H. destruct (existsb _ _); [discriminate H|].
      injection H as <-. unfold input_error. auto.
    - apply mapM_Raise in H as (j & v & _ & H).
      apply to_datetime_Raise in H as [-> | ->]; unfold input_error; auto. }
  split; [done|].
  destruct He as [-> | [-> | [-> | ->]]]; by split.
Qed.

(** ** What the engine needs of its input *)

Lemma calculate_metrics_nonempty financials_data df :
  calculate_metrics financials_data = Ok df -> concat financials_data.*2 ≠ [].
Proof.
  intros Hdf Hnil.
  destruct (calculate_metrics_Ok _ _ Hdf) as (per_bank & dates & Hpb & _ & _).
  destruct (per_bank_facts _ _ Hpb) as [_ Hlen]. rewrite Hnil in Hlen.
  unfold calculate_metrics in Hdf.
  rewrite (proj2 (mapM_Ok_Forall2 _ _ _) Hpb) in Hdf. simpl in Hdf.
  destruct (concat per_bank); [discriminate Hdf|discriminate Hlen].
Qed.

Lemma safe_float_Ok_coercible v x : safe_float v = Ok x -> coercible v.
Proof.
  destruct v as [|z|f|s]; simpl; [done| |done|done].
  unfold safe_float, py_float, try_except.
  destruct (float_of_int z) as [f|e] eqn:E; [eauto|].
  apply float_of_int_Raise in E as ->. by destruct (decide _).
Qed.


(** The sort key of each record, next to the record. *)
Lemma keyed_Forall (P : pyval -> Prop) (financials : list (gmap string pyval))
    keys :
  mapM (fun x : gmap string pyval => dict_getitem x "REPDTE") financials
    = Ok keys ->
  Forall (fun p => P p.1) (zip keys financials)
  <-> Forall (fun f => P (dict_get f "REPDTE")) financials.
Proof.
  intros H%mapM_Ok_Forall2.
  induction H as [|f k fs keys Hk _ IH]; simpl; [by split; constructor|].
  assert (dict_get f "REPDTE" = k) as Hget.
  { unfold dict_getitem in Hk. unfold dict_get.
    destruct (f !! "REPDTE"); [by injection Hk as ->|discriminate Hk]. }
  by rewrite !Forall_cons, IH, Hget.
Qed.




Lemma bank_rows_accepted bank_name financials rows :
  bank_rows bank_name financials = Ok rows ->
  Forall accepted_record financials.
Proof.
  intros H. pose proof (bank_rows_dates _ _ _ H) as Hd.
  pose proof H as (sf & Hsf & Hlen & Hrows)%bank_rows_Ok.
  apply py_sorted_Ok in Hsf as [Hperm Hkeys].
  apply Forall_forall. intros fin Hin. split.
  - destruct (proj1 (Forall_forall _ _) Hkeys _ Hin) as [k Hk].
    destruct (proj1 (Forall_forall _ _) Hd _ Hin) as [t Ht].
    unfold dict_getitem in Hk. unfold dict_get in Ht.
    destruct (fin !! "REPDTE") as [v|]; [|discriminate Hk]. by exists v, t.
  - apply Forall_forall.
    intros code ([name code'] & -> & Hfield)%list_elem_of_fmap.
    rewrite <- Hperm in Hin. apply list_elem_of_lookup in Hin as (i & Hi).
    destruct (lookup_lt_is_Some_2 rows i) as [m Hm].
    { rewrite Hlen. by eapply lookup_lt_Some. }
    destruct (Hrows _ _ Hm) as (fin' & Hfin' & Hderive).
    replace fin' with fin in * by congruence.
    destruct (derive_row_field _ _ _ _ _ _ _ Hderive Hfield) as (v & Hv & _).
    by eapply safe_float_Ok_coercible.
Qed.





(** Two keys that [<] compares are two strings or two numbers. *)
Lemma py_lt_Ok_kind x y b :
  py_lt x y = Ok b ->
  ((exists s, x = PyStr s) /\ (exists s, y = PyStr s))
  \/ (((exists z, x = PyInt z) \/ (exists f, x = PyFloat f))
      /\ ((exists z, y = PyInt z) \/ (exists f, y = PyFloat f))).
Proof.
  destruct x, y; simpl; intros H; try discriminate H; eauto 10.
Qed.

(** A sort of two keys or more compares every key with another one, so
    it returns only when the keys are all strings or all numbers. *)
Lemma sort_keyed_sortable {A} (l r : list (pyval * A)) :
  sort_keyed l = Ok r -> (2 <= length l)%nat ->
  Forall (fun p => exists s, p.1 = PyStr s) l
  \/ Forall (fun p => (exists z, p.1 = PyInt z)
                      \/ (exists f, p.1 = PyFloat f)) l.
Proof.
  revert r. induction l as [|x l IH]; intros r H Hlen; simpl in *; [lia|].
  inv_ok. pose proof (sort_keyed_Permutation _ _ E) as Hperm.
  destruct a as [|y a].
  { apply Permutation_nil in Hperm. subst l. simpl in Hlen. lia. }
  assert (y ∈ l) as Hy by (rewrite <- Hperm; by left).
  simpl in H. inv_ok.
  apply py_lt_Ok_kind in E0 as [[Hys Hxs]|[Hyn Hxn]].
  - left. constructor; [done|].
    destruct l as [|y1 [|y2 l]]; [by apply elem_of_nil in Hy| |].
    + apply elem_of_cons in Hy as [->|Hy%elem_of_nil]; [|done].
      constructor; [done|constructor].
    + destruct (IH _ E) as [Hs|Hn]; [simpl; lia|done|].
      destruct Hys as [s Hs].
      destruct (proj1 (Forall_forall _ _) Hn _ Hy) as [[z Hz]|[f Hf]];
        congruence.
  - right. constructor; [done|].
    destruct l as [|y1 [|y2 l]]; [by apply elem_of_nil in Hy| |].
    + apply elem_of_cons in Hy as [->|Hy%elem_of_nil]; [|done].
      constructor; [done|constructor].
    + destruct (IH _ E) as [Hs|Hn]; [simpl; lia| |done].
      destruct (proj1 (Forall_forall _ _) Hs _ Hy) as [s Hs'].
      destruct Hyn as [[z Hz]|[f Hf]]; congruence.
Qed.

Lemma py_sorted_sortable financials sorted_financials :
  py_sorted (fun x => dict_getitem x "REPDTE") financials
    = Ok sorted_financials ->
  (2 <= length financials)%nat -> sortable_dates financials.
Proof.
  unfold py_sorted. intros H Hlen. inv_ok.
  pose proof (mapM_Ok_length _ _ _ E) as Hkeys.
  assert (forall (P : pyval -> Prop) f,
            f ∈ financials -> P (dict_get f "REPDTE") ->
            exists v, f !! "REPDTE" = Some v /\ P v) as Hkey.
  { intros P f (i & Hi)%list_elem_of_lookup HP.
    apply mapM_Ok_Forall2 in E.
    destruct (Forall2_lookup_l _ _ _ _ _ E Hi) as (k & _ & Hk).
    unfold dict_getitem in Hk. unfold dict_get in HP.
    destruct (f !! "REPDTE") as [v|]; [|discriminate Hk]. by exists v. }
  destruct (sort_keyed_sortable _ _ E0) as [Hs|Hn].
  { rewrite length_zip. lia. }
  - left. apply (keyed_Forall (fun k => exists s, k = PyStr s) _ _ E) in Hs.
    apply Forall_forall. intros f Hf.
    destruct (Hkey (fun k => exists s, k = PyStr s) f Hf
                (proj1 (Forall_forall _ _) Hs _ Hf))
      as (v & Hv & s & ->).
    by exists s.
  - right.
    apply (keyed_Forall (fun k => (exists z, k = PyInt z)
                                  \/ (exists x, k = PyFloat x)) _ _ E) in Hn.
    apply Forall_forall. intros f Hf.
    destruct (Hkey (fun k => (exists z, k = PyInt z)
                             \/ (exists x, k = PyFloat x)) f Hf
                (proj1 (Forall_forall _ _) Hn _ Hf))
      as (v & Hv & [[z ->]|[x ->]]); eauto.
Qed.

(** X4. What the engine needs of its input.  When it returns a table,
    the input has at least one record; every record has a [REPDTE], and
    no field that the literal reads holds an [int] beyond the float range;
    and in a bank of two records or more the [REPDTE] values are all
    strings or all numbers.  So the engine raises on an input without
    records, on a record without [REPDTE], on such an [int], and on a bank
    that mixes strings with numbers or has a null among several dates. *)
Theorem calculate_metrics_needs
    (financials_data : list (string * list (gmap string pyval))) df :
  calculate_metrics financials_data = Ok df ->
  concat financials_data.*2 ≠ []
  /\ forall bank_name financials,
       (bank_name, financials) ∈ financials_data ->
       Forall (fun fin =>
                 is_Some (fin !! "REPDTE")
                 /\ Forall (fun code => coercible (dict_get fin code))
                           base_fields.*2) financials
       /\ ((2 <= length financials)%nat -> sortable_dates financials).
Proof.
  intros Hdf. split; [by eapply calculate_metrics_nonempty|].
  destruct (calculate_metrics_Ok _ _ Hdf) as (per_bank & _ & Hpb & _ & _).
  intros b fs (n & Hn)%list_elem_of_lookup.
  destruct (Forall2_lookup_l _ _ _ _ _ Hpb Hn) as (rows & _ & Hrows).
  simpl in Hrows. split.
  - eapply Forall_impl; [by eapply bank_rows_accepted|].
    intros fin [(v & t & Hv & _) Hc]. split; [by exists v|done].
  - apply bank_rows_Ok in Hrows as (sf & Hsf & _).
    by eapply py_sorted_sortable.
Qed.

(** ** The order in which a bank's records arrive *)



Lemma NoDup_fmap_elem {A B} (f : A -> B) (l : list A) x y :
  NoDup (f <$> l) -> x ∈ l -> y ∈ l -> f x = f y -> x = y.
Proof.
  intros Hnd (i & Hi)%list_elem_of_lookup (j & Hj)%list_elem_of_lookup Hxy.
  assert (i = j) as ->; [|congruence].
  apply (NoDup_lookup _ i j (f x) Hnd); rewrite list_lookup_fmap.
  - by rewrite Hi.
  - by rewrite Hj, Hxy.
Qed.






(** ** The order of the banks, and banks next to each other *)

Lemma filter_all {A} (P : A -> Prop) `{forall x, Decision (P x)} (l : list A) :
  Forall P l -> filter P l = l.
Proof.
  induction 1 as [|x l Hx _ IH]; [done|].
  by rewrite filter_cons_True, IH.
Qed.

Lemma filter_none {A} (P : A -> Prop) `{forall x, Decision (P x)}
    (l : list A) :
  Forall (fun x => ~ P x) l -> filter P l = [].
Proof.
  induction 1 as [|x l Hx _ IH]; [done|].
  by rewrite filter_cons_False.
Qed.

Lemma table_rows financials_data df :
  calculate_metrics financials_data = Ok df ->
  exists per_bank,
    Forall2 (fun bf rows => bank_rows bf.1 bf.2 = Ok rows)
            financials_data per_bank
    /\ df ≡ₚ frame_row <$> concat per_bank.
Proof.
  intros (per_bank & dates & Hpb & Hparse & Hperm)%calculate_metrics_Ok.
  exists per_bank. split; [done|]. rewrite Hperm. clear Hperm Hpb.
  induction Hparse as [|m d all_metrics dates Hd _ IH]; simpl; [done|].
  rewrite IH. unfold frame_row at 2. by rewrite Hd.
Qed.

Lemma per_bank_unique
    (financials_data : list (string * list (gmap string pyval))) pb1 pb2 :
  Forall2 (fun bf rows => bank_rows bf.1 bf.2 = Ok rows)
          financials_data pb1 ->
  Forall2 (fun bf rows => bank_rows bf.1 bf.2 = Ok rows)
          financials_data pb2 ->
  pb1 = pb2.
Proof.
  intros H1%mapM_Ok_Forall2 H2%mapM_Ok_Forall2. congruence.
Qed.

Lemma per_bank_Permutation
    (d1 d2 : list (string * list (gmap string pyval))) pb1 :
  d1 ≡ₚ d2 ->
  Forall2 (fun bf rows => bank_rows bf.1 bf.2 = Ok rows) d1 pb1 ->
  exists pb2,
    Forall2 (fun bf rows => bank_rows bf.1 bf.2 = Ok rows) d2 pb2
    /\ pb1 ≡ₚ pb2.
Proof.
  intros Hperm. revert pb1.
  induction Hperm as [|x d1 d2 _ IH|x y d|d1 d2 d3 _ IH1 _ IH2]; intros pb1 H.
  - apply Forall2_nil_inv_l in H as ->. exists []. by split.
  - apply Forall2_cons_inv_l in H as (rows & pb & Hx & Hpb & ->).
    destruct (IH _ Hpb) as (pb2 & H2 & Hp).
    exists (rows :: pb2). split; [by constructor|by constructor].
  - apply Forall2_cons_inv_l in H as (ry & pb & Hy & Hpb & ->).
    apply Forall2_cons_inv_l in Hpb as (rx & pb' & Hx & Hpb & ->).
    exists (rx :: ry :: pb'). split; [by repeat constructor|apply perm_swap].
  - destruct (IH1 _ H) as (pb2 & H2 & Hp12).
    destruct (IH2 _ H2) as (pb3 & H3 & Hp23).
    exists pb3. split; [done|by etrans].
Qed.

Lemma concat_Permutation {A} (l k : list (list A)) :
  l ≡ₚ k -> concat l ≡ₚ concat k.
Proof.
  induction 1 as [|x l k _ IH|x y l|l1 l2 l3 _ IH1 _ IH2]; simpl.
  - done.
  - by rewrite IH.
  - by rewrite !(assoc_L (++)), (comm (++) y x).
  - by etrans.
Qed.

(** X13. The order of the banks in [financials_data] only decides the
    order among rows of the same date: on the same banks in another
    order the engine returns as well, and its table has the same rows. *)
Theorem calculate_metrics_bank_order financials_data1 financials_data2 df1 :
  financials_data1 ≡ₚ financials_data2 ->
  calculate_metrics financials_data1 = Ok df1 ->
  exists df2,
    calculate_metrics financials_data2 = Ok df2 /\ df2 ≡ₚ df1.
Proof.
  intros Hperm Hdf1.
  destruct (table_rows _ _ Hdf1) as (pb1 & Hpb1 & Hrows1).
  destruct (per_bank_Permutation _ _ _ Hperm Hpb1) as (pb2 & Hpb2 & Hpb).
  destruct (calculate_metrics_after_loop _ _ Hpb2) as (df2 & Hdf2 & _).
  { intros Hnil. apply (calculate_metrics_nonempty _ _ Hdf1).
    apply Permutation_nil_r. rewrite <- Hnil.
    apply concat_Permutation. by rewrite Hperm. }
  exists df2. split; [done|].
  destruct (table_rows _ _ Hdf2) as (pb2' & Hpb2' & Hrows2).
  rewrite (per_bank_unique _ _ _ Hpb2' Hpb2) in Hrows2.
  rewrite Hrows1, Hrows2. apply fmap_Permutation. symmetry.
  by apply concat_Permutation.
Qed.

Lemma per_bank_Bank
    (financials_data : list (string * list (gmap string pyval))) per_bank m :
  Forall2 (fun bf rows => bank_rows bf.1 bf.2 = Ok rows)
          financials_data per_bank ->
  m ∈ concat per_bank ->
  exists bank_name,
    bank_name ∈ financials_data.*1
    /\ bank_of (frame_row m) = Some bank_name.
Proof.
  induction 1 as [|[b fs] rows d per_bank Hrows _ IH]; simpl.
  { by intros ?%elem_of_nil. }
  intros [Hm|Hm]%elem_of_app.
  - exists b. split; [by left|].
    apply bank_rows_Ok in Hrows as (sf & _ & _ & Hderive).
    apply list_elem_of_lookup in Hm as (i & Hi).
    destruct (Hderive _ _ Hi) as (fin & _ & Hd).
    unfold bank_of, frame_row. cbn [row_cells].
    rewrite lookup_delete_ne by done.
    by rewrite (derive_row_Bank _ _ _ _ _ Hd).
  - destruct (IH Hm) as (b' & Hb' & Hbank). exists b'.
    split; [by right|done].
Qed.

(** X14. Banks do not affect each other's values: taking one bank out
    of the input takes its rows out of the table and leaves every other
    row with its date and with the same value in every column, when no
    other bank has its name and some record is left.  The rows are
    compared as float64 columns hold them: which of None and NaN stands
    for a null, and which of 0 and 0.0 for a zero, is chosen by
    [pd.DataFrame] for the column as a whole, and so can change with the
    rows of the bank taken out. *)
Theorem calculate_metrics_other_banks d1 bank_name financials d2 df :
  calculate_metrics (d1 ++ (bank_name, financials) :: d2) = Ok df ->
  bank_name ∉ (d1 ++ d2).*1 ->
  concat (d1 ++ d2).*2 ≠ [] ->
  exists df',
    calculate_metrics (d1 ++ d2) = Ok df'
    /\ float64_view <$> df'
       ≡ₚ float64_view
            <$> filter (fun row => bank_of row ≠ Some bank_name) df.
Proof.
  intros Hdf Hname Hne.
  destruct (table_rows _ _ Hdf) as (pb & Hpb & Hrows).
  apply Forall2_app_inv_l in Hpb as (pb1 & pbr & Hpb1 & Hpbr & ->).
  apply Forall2_cons_inv_l in Hpbr as (rows & pb2 & Hbank & Hpb2 & ->).
  simpl in Hbank.
  assert (Forall2 (fun bf rows => bank_rows bf.1 bf.2 = Ok rows)
                  (d1 ++ d2) (pb1 ++ pb2)) as Hpb' by (by apply Forall2_app).
  destruct (calculate_metrics_after_loop _ _ Hpb' Hne) as (df' & Hdf' & _).
  exists df'. split; [done|]. apply fmap_Permutation.
  destruct (table_rows _ _ Hdf') as (pb'' & Hpb'' & Hrows').
  rewrite (per_bank_unique _ _ _ Hpb'' Hpb') in Hrows'.
  rewrite Hrows', Hrows. rewrite !concat_app, !fmap_app. simpl.
  rewrite fmap_app, !filter_app.
  assert (forall d pb,
            Forall2 (fun bf rows => bank_rows bf.1 bf.2 = Ok rows) d pb ->
            bank_name ∉ d.*1 ->
            filter (fun row => bank_of row ≠ Some bank_name)
                   (frame_row <$> concat pb)
            = frame_row <$> concat pb) as Hkeep.
  { intros d pb' Hd Hno. apply filter_all, Forall_forall.
    intros row (m & -> & Hm)%list_elem_of_fmap.
    destruct (per_bank_Bank _ _ _ Hd Hm) as (b' & Hb' & ->).
    intros [= ->]. by apply Hno. }
  rewrite fmap_app in Hname. apply not_elem_of_app in Hname as [Hn1 Hn2].
  rewrite (Hkeep _ _ Hpb1 Hn1), (Hkeep _ _ Hpb2 Hn2).
  rewrite filter_none; [done|].
  apply Forall_forall. intros row (m & -> & Hm)%list_elem_of_fmap Hbank'.
  apply Hbank'.
  destruct (per_bank_Bank [(bank_name, financials)] [rows] m)
    as (b' & Hb' & ->).
  - by repeat constructor.
  - simpl. by rewrite app_nil_r.
  - f_equal. simpl in Hb'.
    by apply elem_of_cons in Hb' as [->|?%elem_of_nil].
Qed.

(** ** What a row takes from the other records *)

Lemma derive_row_off_growth bank_name sf1 sf2 i1 i2 financial
    (row1 row2 : gmap string pyval) k :
  derive_row bank_name sf1 i1 financial = Ok row1 ->
  derive_row bank_name sf2 i2 financial = Ok row2 ->
  k ≠ "Non-Owner Occupied CRE 3-Year Growth Rate" ->
  row1 !! k = row2 !! k.
Proof.
  intros H1 H2 Hk.
  assert (forall k', k' ≠ "Non-Owner Occupied CRE 3-Year Growth Rate" ->
            k' ≠ "Net Charge-Offs / Allowance for Credit Loss" ->
            row1 !! k' = row2 !! k') as Hsame.
  { intros k' Hg Hc.
    destruct (derive_row_stages _ _ _ _ _ H1)
      as (m0 & m1 & cb & m2 & m3 & Ha0 & Ha1 & Ha2 & Ha3 & Ha4).
    destruct (derive_row_stages _ _ _ _ _ H2)
      as (n0 & n1 & cb' & n2 & n3 & Hb0 & Hb1 & Hb2 & Hb3 & Hb4).
    rewrite Ha0 in Hb0. apply Ok_inj in Hb0 as <-.
    rewrite Ha1 in Hb1. apply Ok_inj, pair_equal_spec in Hb1 as [<- <-].
    rewrite Ha2 in Hb2. apply Ok_inj in Hb2 as <-.
    rewrite (charge_off_stage_frame _ _ k' Ha4),
      (charge_off_stage_frame _ _ k' Hb4) by done.
    by rewrite (growth_stage_frame _ _ _ _ _ k' Ha3),
      (growth_stage_frame _ _ _ _ _ k' Hb3) by done. }
  destruct (decide (k = "Net Charge-Offs / Allowance for Credit Loss"))
    as [->|Hc]; [|by apply Hsame].
  destruct (derive_row_charge_off _ _ _ _ _ H1)
    as (nco & acl & Hn1 & Ha1 & Hgt1 & Hle1).
  destruct (derive_row_charge_off _ _ _ _ _ H2)
    as (nco' & acl' & Hn2 & Ha2 & Hgt2 & Hle2).
  rewrite Hsame, Hn2 in Hn1 by done. rewrite Hsame, Ha2 in Ha1 by done.
  injection Hn1 as ->. injection Ha1 as ->.
  destruct (float_gt0 acl).
  - by rewrite Hgt1, Hgt2.
  - by rewrite Hle1, Hle2.
Qed.

(** X15. Of all the columns of a row, only the growth rate depends on
    the other records: the rows that two runs of the engine derive from
    the same record of a bank of the same name have the same date and the
    same value in every other column, whatever else the inputs hold and
    wherever the record stands in its sequence. *)
Theorem row_depends_on_record
    financials_data1 financials_data2 row1 row2 bank_name sf1 sf2 i1 i2
    financial :
  derived_at financials_data1 row1 bank_name sf1 i1 financial ->
  derived_at financials_data2 row2 bank_name sf2 i2 financial ->
  row_Date row1 = row_Date row2
  /\ forall k, k ≠ "Non-Owner Occupied CRE 3-Year Growth Rate" ->
       row_cells row1 !! k = row_cells row2 !! k.
Proof.
  intros (fs1 & m1 & _ & _ & _ & Hm1 & Hd1 & Hc1)
         (fs2 & m2 & _ & _ & _ & Hm2 & Hd2 & Hc2).
  split; [congruence|]. intros k Hk. rewrite Hc1, Hc2.
  destruct (decide (k = "Date")) as [->|Hdate].
  - by rewrite !lookup_delete_eq.
  - rewrite !lookup_delete_ne by done. by eapply derive_row_off_growth.
Qed.

(** ** The table in the hands of [main] and [create_dashboard] *)

Lemma calculate_metrics_has_row financials_data df :
  calculate_metrics financials_data = Ok df -> exists row, row ∈ df.
Proof.
  intros Hdf.
  destruct (calculate_metrics_Ok _ _ Hdf) as (per_bank & _ & Hpb & _ & _).
  pose proof (calculate_metrics_nonempty _ _ Hdf) as Hne.
  destruct (calculate_metrics_after_loop _ _ Hpb Hne) as (df' & Hdf' & Hlen).
  replace df' with df in * by congruence.
  destruct df as [|row df]; [|exists row; by left].
  by destruct (concat financials_data.*2).
Qed.

(** The columns of the frame are those of every row. *)
Lemma table_columns financials_data df columns c :
  calculate_metrics financials_data = Ok df -> is_columns df columns ->
  c ∈ columns <-> c = "Bank" \/ c = "Date" \/ c ∈ metric_columns.
Proof.
  intros Hdf [_ Hc]. rewrite Hc. split.
  - intros [-> | (row & Hrow & Hsome)]; [auto|].
    apply (table_row_keys _ _ _ _ Hdf Hrow) in Hsome. tauto.
  - destruct (calculate_metrics_has_row _ _ Hdf) as [row Hrow].
    intros [-> | [-> | Hk]]; [right|by left|right]; exists row;
      (split; [done|]); apply (table_row_keys _ _ _ _ Hdf Hrow); auto.
Qed.

Lemma dollar_format_metrics_NoDup : NoDup dollar_format_metrics.
Proof. field_in. Qed.

Lemma dollar_format_metrics_columns :
  Forall (fun c => c ∈ metric_columns) dollar_format_metrics.
Proof. field_in. Qed.

Lemma metric_order_columns : Forall (fun c => c ∈ metric_columns) metric_order.
Proof. field_in. Qed.

Lemma metric_columns_order : Forall (fun c => c ∈ metric_order) metric_columns.
Proof. field_in. Qed.

Lemma metric_order_defined :
  Forall (fun c => is_Some (metric_definitions !! c)) metric_order.
Proof. field_in. Qed.

(** Every table of the engine has a frame: the bank, the date and the
    metric columns. *)
Lemma frame_columns_of_table financials_data df :
  calculate_metrics financials_data = Ok df ->
  is_columns df ("Bank" :: "Date" :: metric_columns).
Proof.
  intros Hdf. split; [field_in|]. intros c.
  destruct (calculate_metrics_has_row _ _ Hdf) as [row Hrow].
  rewrite !elem_of_cons. split.
  - intros [-> | [-> | Hc]]; [right|by left|right]; exists row;
      (split; [done|]); apply (table_row_keys _ _ _ _ Hdf Hrow); auto.
  - intros [-> | (row' & Hrow' & Hsome)]; [auto|].
    apply (table_row_keys _ _ _ _ Hdf Hrow') in Hsome. tauto.
Qed.

(** X6. [main] reorders the columns of every table the engine returns
    without losing one: the selection of line 1008 raises no [KeyError],
    and the reordered frame has each column of the table exactly once. *)
Theorem main_keeps_columns financials_data df columns :
  calculate_metrics financials_data = Ok df -> is_columns df columns ->
  main_select columns = Ok (main_sorted_columns columns)
  /\ main_sorted_columns columns ≡ₚ columns.
Proof.
  intros Hdf Hcols.
  pose proof (fun c => table_columns _ _ _ c Hdf Hcols) as Hc.
  assert (main_sorted_columns columns ≡ₚ columns) as Hperm.
  { unfold main_sorted_columns.
    apply NoDup_Permutation; [|by destruct Hcols|].
    - apply NoDup_app. split; [field_in|]. split.
      + intros x Hx [Hd|Hf]%elem_of_app.
        * assert (Forall (fun c => c ∉ ["Bank"; "Date"])
                         dollar_format_metrics) as Hbd by field_in.
          by apply (proj1 (Forall_forall _ _) Hbd x Hd).
        * by apply list_elem_of_filter in Hf as [[_ Hf] _].
      + apply NoDup_app. split; [apply dollar_format_metrics_NoDup|]. split.
        * intros x Hx Hf. by apply list_elem_of_filter in Hf as [[Hf _] _].
        * apply NoDup_filter. by destruct Hcols.
    - intros x. rewrite !elem_of_app, list_elem_of_filter, Hc,
        !elem_of_cons, elem_of_nil.
      pose proof (proj1 (Forall_forall _ _) dollar_format_metrics_columns x).
      simpl in H.
      destruct (decide (x ∈ dollar_format_metrics)),
        (decide (x = "Bank")), (decide (x = "Date")); tauto. }
  split; [|done].
  unfold main_select, frame_select. rewrite bool_decide_eq_true_2; [done|].
  apply Forall_forall. intros c Hin. by rewrite <- Hperm.
Qed.

(** X7. On every table the engine returns, the metric selector of the
    dashboard offers all 58 metric columns, in the order of
    [metric_order]: no metric is dropped by the filter of line 335, and
    every column other than the bank and the date is on offer. *)
Theorem dashboard_offers_all_metrics financials_data df columns :
  calculate_metrics financials_data = Ok df -> is_columns df columns ->
  available_metrics columns = metric_order
  /\ forall c, c ∈ columns ->
       c = "Bank" \/ c = "Date" \/ c ∈ available_metrics columns.
Proof.
  intros Hdf Hcols.
  pose proof (fun c => table_columns _ _ _ c Hdf Hcols) as Hc.
  assert (available_metrics columns = metric_order) as ->.
  { apply filter_all. eapply Forall_impl; [exact metric_order_columns|].
    intros c Hin. apply Hc. auto. }
  split; [done|]. intros c [-> | [-> | Hin]]%Hc; auto.
  right. right. by apply (proj1 (Forall_forall _ _) metric_columns_order).
Qed.

(** X8. On every table the engine returns, the detail table of a clicked
    bank lists exactly the metrics of [metric_order], each once (the second
    comprehension of line 942 finds no column left over), and every row of
    it has a definition: the fallback of line 950 is never taken. *)
Theorem click_table_lists_metrics financials_data df index :
  calculate_metrics financials_data = Ok df -> is_columns df index ->
  click_sorted_columns index = metric_order
  /\ NoDup (click_sorted_columns index)
  /\ forall col, col ∈ click_sorted_columns index ->
       exists text, metric_definitions !! col = Some text
                    /\ metric_definition col = text.
Proof.
  intros Hdf Hcols.
  pose proof (fun c => table_columns _ _ _ c Hdf Hcols) as Hc.
  assert (click_sorted_columns index = metric_order) as ->.
  { unfold click_sorted_columns. rewrite filter_all, filter_none.
    - apply app_nil_r.
    - apply Forall_forall. intros c [-> | [-> | Hin]]%Hc [Hno Hbd].
      + apply Hbd. by left.
      + apply Hbd. right. by left.
      + by apply Hno, (proj1 (Forall_forall _ _) metric_columns_order).
    - eapply Forall_impl; [exact metric_order_columns|].
      intros c Hin. apply Hc. auto. }
  split; [done|]. split; [field_in|].
  intros col Hcol.
  destruct (proj1 (Forall_forall _ _) metric_order_defined _ Hcol)
    as [text Htext].
  exists text. split; [done|]. unfold metric_definition. by rewrite Htext.
Qed.

(** ** The trend chart *)

(** No two banks share the name the dashboard shows them under. *)
Lemma bank_name_mapping_inj b1 b2 n :
  bank_name_mapping !! b1 = Some n -> bank_name_mapping !! b2 = Some n ->
  b1 = b2.
Proof.
  unfold bank_name_mapping.
  intros H1%elem_of_list_to_map_2 H2%elem_of_list_to_map_2.
  assert (NoDup bank_name_mapping_items.*2) as Hnd by field_in.
  by injection (NoDup_fmap_elem snd _ _ _ Hnd H1 H2 eq_refl).
Qed.

Lemma shown_name_mapped peer :
  peer ∈ bank_name_mapping_items.*2 ->
  exists raw, bank_name_mapping !! raw = Some peer.
Proof.
  intros ([raw n] & -> & Hin)%list_elem_of_fmap. exists raw.
  apply elem_of_list_to_map_1; [field_in|done].
Qed.

(** X16. Whatever peer groups are ticked, the banks that the charts
    compare (Flagstar Bank and the peers that [update_peer_selector]
    offers and selects) are pairwise distinct, and each of them is the
    shown name of a bank of [bank_name_mapping]: no offered peer is a name
    that no row can carry after line 362. *)
Theorem offered_peers_are_mapped selected_groups :
  NoDup (selected_banks (update_peer_selector selected_groups))
  /\ Forall (fun peer => exists raw, bank_name_mapping !! raw = Some peer)
            (selected_banks (update_peer_selector selected_groups)).
Proof.
  unfold selected_banks, update_peer_selector.
  destruct (bool_decide _); cbv iota.
  - split; [field_in|].
    apply (Forall_impl (fun peer => peer ∈ bank_name_mapping_items.*2));
      [field_in|]. intros peer. apply shown_name_mapped.
  - split; [field_in|].
    apply (Forall_impl (fun peer => peer ∈ bank_name_mapping_items.*2));
      [field_in|]. intros peer. apply shown_name_mapped.
Qed.

(** A renamed row that the selection keeps had a name of the mapping. *)
Lemma map_bank_isin banks row :
  bank_isin banks (map_bank row) = true ->
  exists b n,
    row_cells row !! "Bank" = Some (PyStr b)
    /\ bank_name_mapping !! b = Some n
    /\ bank_of (map_bank row) = Some n
    /\ n ∈ banks.
Proof.
  unfold bank_isin, bank_of, map_bank. cbn [row_cells].
  rewrite lookup_insert_eq.
  destruct (row_cells row !! "Bank") as [v|]; [|intros [=]].
  destruct v as [| | |b]; [intros [=]..|].
  destruct (bank_name_mapping !! b) as [n|] eqn:Hn; [|intros [=]].
  intros Hin%bool_decide_eq_true. by exists b, n.
Qed.

Lemma map_bank_key_inj banks r1 r2 :
  bank_isin banks (map_bank r1) = true ->
  bank_isin banks (map_bank r2) = true ->
  pivot_key (map_bank r1) = pivot_key (map_bank r2) ->
  row_key r1 = row_key r2.
Proof.
  intros (b1 & n1 & Hb1 & Hn1 & Hk1 & _)%map_bank_isin
         (b2 & n2 & Hb2 & Hn2 & Hk2 & _)%map_bank_isin.
  unfold pivot_key, row_key. rewrite Hk1, Hk2, Hb1, Hb2.
  unfold map_bank. cbn [row_Date].
  intros [= -> <-]. by rewrite (bank_name_mapping_inj _ _ _ Hn1 Hn2).
Qed.

Lemma trend_rows_NoDup selected_peers df :
  NoDup (row_key <$> df) ->
  NoDup (pivot_key <$> trend_rows selected_peers df).
Proof.
  unfold trend_rows. induction df as [|r df IH]; intros Hnd; [constructor|].
  simpl in Hnd. apply NoDup_cons in Hnd as [Hr Hnd]. rewrite fmap_cons.
  destruct (decide (bank_isin (selected_banks selected_peers) (map_bank r)
                    = true)) as [Hin|Hout];
    [rewrite filter_cons_True by done|rewrite filter_cons_False by done; auto].
  rewrite fmap_cons. apply NoDup_cons. split; [|auto].
  intros (r' & Hkey & [Hin' Hr']%list_elem_of_filter)%list_elem_of_fmap.
  apply list_elem_of_fmap in Hr' as (r0 & -> & Hr0).
  apply Hr, list_elem_of_fmap. exists r0. split; [|done].
  by eapply map_bank_key_inj.
Qed.

(** X9. The trend chart can reshape every table of the engine: when the
    banks of the input are distinct and no bank has two records of the
    same date, the rows that reach the pivot of line 698 (renamed by
    [bank_name_mapping], restricted to the selected banks) carry distinct
    (date, bank) pairs, so the pivot raises no [ValueError]; the mapping
    merges no two banks under one shown name.  Every cell of the reshaped
    frame belongs to a selected bank. *)
Theorem trend_pivot_returns financials_data df selected_peers metric :
  calculate_metrics financials_data = Ok df ->
  NoDup financials_data.*1 ->
  (forall bank_name financials,
     (bank_name, financials) ∈ financials_data ->
     NoDup ((fun fin => to_datetime (dict_get fin "REPDTE")) <$> financials)) ->
  exists cells,
    pivot (trend_rows selected_peers df) metric = Ok cells
    /\ length cells = length (trend_rows selected_peers df)
    /\ forall cell, cell ∈ cells ->
         exists b, cell.1.2 = Some b /\ b ∈ selected_banks selected_peers.
Proof.
  intros Hdf Hnames Hdates.
  assert (NoDup (row_key <$> df)) as Hnd.
  { destruct (calculate_metrics_Ok _ _ Hdf)
      as (per_bank & dates & Hpb & Hparse & Hperm).
    rewrite Hperm.
    apply (NoDup_fmap_1 (fun k => (k.1, Ok k.2))).
    rewrite <- list_fmap_compose.
    change (NoDup ((fun row => ((row_key row).1, Ok (row_key row).2))
                   <$> zip_with (fun d m => mkRow d (delete "Date" m))
                                dates (concat per_bank))).
    rewrite (table_keys _ _ Hparse).
    by apply (per_bank_keys_NoDup _ _ Hpb). }
  unfold pivot.
  rewrite bool_decide_eq_true_2 by (by apply trend_rows_NoDup).
  eexists. split; [done|]. split; [by rewrite length_fmap|].
  intros cell (row & -> & Hrow)%list_elem_of_fmap. cbn [fst snd pivot_key].
  unfold trend_rows in Hrow.
  apply list_elem_of_filter in Hrow as [Hin Hrow].
  apply list_elem_of_fmap in Hrow as (r0 & -> & _).
  apply map_bank_isin in Hin as (b & n & _ & _ & Hn & Hsel). eauto.
Qed.

(** ** The acquisition layer *)

Lemma store_same_keys {V W} k (v : V) (w : W) d1 d2 :
  d1.*1 = d2.*1 -> (store k v d1).*1 = (store k w d2).*1.
Proof.
  revert d2. induction d1 as [|[k1 v1] d1 IH]; intros [|[k2 v2] d2] H;
    simpl in *; try discriminate H; [done|].
  injection H as -> H. destruct (key_eq k2 k); simpl; f_equal; auto.
Qed.

Lemma store_prefix {V} k (v : V) d : d.*1 `prefix_of` (store k v d).*1.
Proof.
  induction d as [|[k1 v1] d IH]; simpl; [apply prefix_nil|].
  destruct (key_eq k1 k); simpl; [done|]. by apply prefix_cons.
Qed.

Lemma store_length {V} k (v : V) d :
  (length (store k v d) <= S (length d))%nat.
Proof.
  induction d as [|[k1 v1] d IH]; simpl; [lia|].
  destruct (key_eq k1 k); simpl; lia.
Qed.

Lemma dict_setitem_Ok {V} (d d' : list (json * V)) k v :
  dict_setitem d k v = Ok d' -> d' = store k v d.
Proof. unfold dict_setitem. destruct k; congruence. Qed.

(** A bank that is recorded is recorded in both dicts, under one key. *)
Lemma record_bank_Ok net st bank_data st' :
  record_bank net st bank_data = Ok st' ->
  exists name fs,
    self_institutions_data st'
      = store name bank_data (self_institutions_data st)
    /\ self_financials_data st'
       = store name (data_members fs) (self_financials_data st)
    /\ requests st' = S (requests st).
Proof.
  unfold record_bank, get_financials, get_data. cbn [requests
    self_institutions_data self_financials_data]. intros H. inv_ok.
  rewrite E in E3. apply Ok_inj in E3 as <-.
  apply dict_setitem_Ok in E0 as ->. apply dict_setitem_Ok in E4 as ->.
  by exists a, a2.
Qed.

Lemma handle_institutions_Ok net st institutions st' :
  handle_institutions net st institutions = Ok st' ->
  st' = st \/ exists bank_data, record_bank net st bank_data = Ok st'.
Proof.
  unfold handle_institutions. intros H.
  destruct (py_bool institutions); [|inv_ok; auto]. inv_ok.
  destruct a as [| | | | |l|d]; inv_ok; auto.
  destruct (assoc "data" d) as [bank_data|]; inv_ok; auto.
  destruct a0; inv_ok; eauto.
Qed.

(** One turn of the loop: nothing is stored, or one bank is. *)
Lemma fetch_item_Ok net st bank_item st' :
  fetch_item net st bank_item = Ok st' ->
  (self_institutions_data st' = self_institutions_data st
   /\ self_financials_data st' = self_financials_data st
   /\ (requests st <= requests st' <= S (requests st))%nat)
  \/ exists name bank_data fs,
       self_institutions_data st'
         = store name bank_data (self_institutions_data st)
       /\ self_financials_data st'
          = store name (data_members fs) (self_financials_data st)
       /\ requests st' = S (S (requests st)).
Proof.
  assert (forall st0 institutions,
            self_institutions_data st0 = self_institutions_data st ->
            self_financials_data st0 = self_financials_data st ->
            requests st0 = S (requests st) ->
            handle_institutions net st0 institutions = Ok st' ->
            (self_institutions_data st' = self_institutions_data st
             /\ self_financials_data st' = self_financials_data st
             /\ (requests st <= requests st' <= S (requests st))%nat)
            \/ exists name bank_data fs,
                 self_institutions_data st'
                   = store name bank_data (self_institutions_data st)
                 /\ self_financials_data st'
                    = store name (data_members fs) (self_financials_data st)
                 /\ requests st' = S (S (requests st))) as Hhandle.
  { intros st0 institutions Hi Hf Hr
      [-> | (bank_data & (name & fs & Hi' & Hf' & Hr')%record_bank_Ok)]
        %handle_institutions_Ok.
    - left. rewrite Hr. split; [done|]. split; [done|lia].
    - right. exists name, bank_data, fs.
      by rewrite Hi', Hf', Hr', Hi, Hf, Hr. }
  unfold fetch_item, get_institutions, get_data.
  destruct bank_item as [| | | |s|l|d]; intros H; inv_ok;
    try (left; split; [done|split; [done|lia]]);
    by eapply Hhandle; [| | |exact H].
Qed.

(** X10. [fetch_data] keeps the two dicts of the analyzer in step: when
    it returns, [institutions_data] and [financials_data] have the same
    keys in the same order, provided they had before (as they have after
    [__init__]).  So the guard of [main] on [institutions_data] is a guard
    on [financials_data] as well: one is empty exactly when the other
    is. *)
Theorem fetch_data_same_banks net bank_info st st' :
  fetch_data net st bank_info = Ok st' ->
  (self_institutions_data st).*1 = (self_financials_data st).*1 ->
  (self_institutions_data st').*1 = (self_financials_data st').*1
  /\ (self_institutions_data st' = [] <-> self_financials_data st' = []).
Proof.
  intros H Hkeys.
  assert ((self_institutions_data st').*1 = (self_financials_data st').*1)
    as Hkeys'.
  { revert st H Hkeys.
    induction bank_info as [|bank_item bank_info IH]; intros st H Hkeys;
      simpl in H; inv_ok; [done|].
    apply (IH _ H).
    apply fetch_item_Ok in E
      as [(-> & -> & _) | (name & bank_data & fs & -> & -> & _)]; [done|].
    by apply store_same_keys. }
  split; [done|].
  destruct (self_institutions_data st'), (self_financials_data st');
    by simpl in Hkeys'.
Qed.

(** X11. [fetch_data] only adds: the banks it found before stay where
    they are in [institutions_data], in their order; every bank item adds
    at most one bank and makes at most two requests. *)
Theorem fetch_data_grows net bank_info st st' :
  fetch_data net st bank_info = Ok st' ->
  (self_institutions_data st).*1 `prefix_of` (self_institutions_data st').*1
  /\ (length (self_institutions_data st')
      <= length (self_institutions_data st) + length bank_info)%nat
  /\ (requests st <= requests st' <= requests st + 2 * length bank_info)%nat.
Proof.
  revert st. induction bank_info as [|bank_item bank_info IH]; intros st H;
    simpl in H; inv_ok.
  { split; [done|]. simpl. lia. }
  destruct (IH _ H) as (Hpre & Hlen & Hreq). simpl.
  apply fetch_item_Ok in E
    as [(Hi & Hf & Hr) | (name & bank_data & fs & Hi & Hf & Hr)];
    rewrite Hi in Hpre, Hlen.
  - split; [done|]. lia.
  - split; [by etrans; [apply (store_prefix name bank_data)|]|].
    pose proof (store_length name bank_data (self_institutions_data st)).
    lia.
Qed.

Lemma fetch_item_failed net st bank_item :
  (forall n, net n = failed_request) ->
  (forall d, bank_item = JDict d -> is_Some (assoc "cert" d)) ->
  exists st',
    fetch_item net st bank_item = Ok st'
    /\ self_institutions_data st' = self_institutions_data st
    /\ self_financials_data st' = self_financials_data st.
Proof.
  intros Hnet Hcert.
  unfold fetch_item, get_institutions, get_data. rewrite Hnet.
  destruct bank_item as [| | | |s|l|d]; try (by eexists).
  destruct (Hcert d eq_refl) as [cert Hc].
  unfold getitem_str. rewrite Hc. by eexists.
Qed.

(** X12. When every request fails, [fetch_data] neither raises nor
    stores anything: [get_data] turns the failure into an empty answer,
    and the loop leaves both dicts as they were, whatever the bank items
    are (a bank item that is a dict must have its [cert]).  After
    [__init__] both dicts are then empty, which is the case the guard of
    [main] tests for. *)
Theorem fetch_data_failed_requests net bank_info st :
  (forall n, net n = failed_request) ->
  Forall (fun bank_item =>
            forall d, bank_item = JDict d -> is_Some (assoc "cert" d))
         bank_info ->
  exists st',
    fetch_data net st bank_info = Ok st'
    /\ self_institutions_data st' = self_institutions_data st
    /\ self_financials_data st' = self_financials_data st.
Proof.
  intros Hnet Hitems. revert st.
  induction Hitems as [|bank_item bank_info Hitem _ IH]; intros st; simpl.
  { by exists st. }
  destruct (fetch_item_failed net st bank_item Hnet Hitem)
    as (st1 & -> & Hi & Hf).
  destruct (IH st1) as (st' & H & Hi' & Hf').
  exists st'. split; [exact H|]. by rewrite Hi', Hf'.
Qed.

End Engine.

(** * The theorems at work on the example inputs *)

Local Abbreviation example_table :=
  (get_Ok [] (calculate_metrics float_of_digits example_data)).

Local Abbreviation growth_table first last :=
  (get_Ok [] (calculate_metrics float_of_digits (growth_data first last))).

(** Closes a closed equation between small values by evaluation. *)
Ltac by_eval := vm_compute; reflexivity.

Lemma get_Ok_eq {A} (d : A) (r : result A) :
  is_Okb r = true -> r = Ok (get_Ok d r).
Proof. by destruct r. Qed.

Lemma lookup_total_elem_of (df : list Row) i :
  (i <? length df)%nat = true -> df !!! i ∈ df.
Proof. intros H%Nat.ltb_lt. by apply list_elem_of_lookup_total_2. Qed.

Lemma example_table_Ok :
  calculate_metrics float_of_digits example_data = Ok example_table.
Proof. apply get_Ok_eq. by_eval. Qed.

(** The row of the example table dated 2019-01-01 takes the adjusted
    capital formula, the row dated 2018-12-31 the plain one. *)
Lemma C1_witness :
  (exists ct1badj eq eqpp tier1 acl,
     capital_inputs (row_cells (example_table !!! 1%nat))
                    ct1badj eq eqpp tier1 acl
     /\ row_cells (example_table !!! 1%nat) !! "CECL Transition Amount"
          = Some (PyFloat (ct1badj - eq + eqpp)%float))
  /\ row_cells (example_table !!! 0%nat) !! "CECL Transition Amount"
     = Some (PyInt 0).
Proof.
  split.
  - destruct (C1_capital_base_by_date float_of_digits example_data
                example_table (example_table !!! 1%nat) example_table_Ok)
      as (b & sf & i & fin & ct1badj & eq & eqpp & tier1 & acl & cb
          & _ & Hin & _ & _ & _ & H19 & _).
    { apply lookup_total_elem_of. by_eval. }
    exists ct1badj, eq, eqpp, tier1, acl.
    split; [exact Hin|]. apply H19. by_eval.
  - destruct (C1_capital_base_by_date float_of_digits example_data
                example_table (example_table !!! 0%nat) example_table_Ok)
      as (b & sf & i & fin & ct1badj & eq & eqpp & tier1 & acl & cb
          & _ & _ & _ & _ & _ & _ & H18).
    { apply lookup_total_elem_of. by_eval. }
    apply H18. by_eval.
Defined.

Lemma growth_table_Ok first last :
  is_Okb (calculate_metrics float_of_digits (growth_data first last)) = true ->
  calculate_metrics float_of_digits (growth_data first last)
  = Ok (growth_table first last).
Proof. apply get_Ok_eq. Qed.

(** Thirteen quarters with non-owner-occupied CRE of 100 in the first and
    150 in the last: the last row has a prior record twelve places back
    and a growth rate read off the two totals. *)
Lemma C2_witness :
  exists cur old : float,
    (float_gt0 old = false ->
     row_cells (growth_table (PyInt 100) (PyInt 150) !!! 12%nat)
       !! "Non-Owner Occupied CRE 3-Year Growth Rate" = Some PyNone)
    /\ (float_gt0 old = true ->
        row_cells (growth_table (PyInt 100) (PyInt 150) !!! 12%nat)
          !! "Non-Owner Occupied CRE 3-Year Growth Rate"
        = Some (PyFloat ((cur / old - 1) * 100)%float)).
Proof.
  destruct (C2_growth_rate_by_index float_of_digits
              (growth_data (PyInt 100) (PyInt 150))
              (growth_table (PyInt 100) (PyInt 150))
              (growth_table (PyInt 100) (PyInt 150) !!! 12%nat))
    as (b & sf & i & fin & cur & cons & multi & nonooc & comre
        & _ & _ & _ & _ & _ & Hlt & Hge).
  { apply growth_table_Ok. by_eval. }
  { apply lookup_total_elem_of. by_eval. }
  destruct (decide (i < 12)%nat) as [Hi|Hi].
  - specialize (Hlt Hi). vm_compute in Hlt. discriminate Hlt.
  - destruct (Hge ltac:(lia)) as (prior & old & _ & _ & _ & Hngt & Hgt).
    exists cur, old. split; [exact Hngt|]. intros Hc. exact (proj2 (Hgt Hc)).
Defined.

(** C2 as stated fails: the growth rate can be infinite.  With
    non-owner-occupied CRE of 2^-1000 in the first quarter and 2^1000
    twelve quarters later, both finite and [> 0], the quotient exceeds the
    float range and the stored rate is infinity. *)
Lemma C2_counterexample :
  is_Okb (calculate_metrics float_of_digits
            (growth_data (PyFloat 0x1p-1000) (PyFloat 0x1p1000))) = true
  /\ float_gt0 0x1p-1000 = true
  /\ row_cells (growth_table (PyFloat 0x1p-1000) (PyFloat 0x1p1000) !!! 12%nat)
       !! "Non-Owner Occupied CRE 3-Year Growth Rate"
     = Some (PyFloat infinity).
Proof. split; [by_eval|split; by_eval]. Qed.

(** The rows of the example table have their six ratios: over the capital
    base when it is [> 0], zero when it is [<= 0]. *)
Lemma C3_witness :
  exists cb re cons ci ag cc multi nonres comre,
    ratio_inputs (row_cells (example_table !!! 1%nat))
                 re cons ci ag cc multi nonres comre
    /\ (float_gt0 cb = true ->
        ratios_over (row_cells (example_table !!! 1%nat))
                    re cons ci ag cc multi nonres comre cb)
    /\ (float_le0 cb = true ->
        ratios_zero (row_cells (example_table !!! 1%nat))).
Proof.
  destruct (C3_concentration_ratios float_of_digits example_data
              example_table (example_table !!! 1%nat) example_table_Ok)
    as (b & sf & i & fin & cb & re & cons & ci & ag & cc & multi & nonres
        & comre & _ & _ & Hin & Hgt & Hle).
  { apply lookup_total_elem_of. by_eval. }
  exists cb, re, cons, ci, ag, cc, multi, nonres, comre.
  exact (conj Hin (conj Hgt Hle)).
Defined.

(** The sparse record of Bank B, with an allowance of 50 and quarterly
    net charge-offs of 5, has its charge-off ratio. *)
Lemma C7_witness :
  exists nco acl,
    row_cells (example_table !!! 2%nat)
      !! "Total Loans and Leases Net Charge-Offs Quarterly"
    = Some (PyFloat nco)
    /\ row_cells (example_table !!! 2%nat) !! "Allowance for Credit Loss"
       = Some (PyFloat acl)
    /\ (acl = 50%float -> nco = 5%float ->
        row_cells (example_table !!! 2%nat)
          !! "Net Charge-Offs / Allowance for Credit Loss"
        = Some (PyFloat 10)).
Proof.
  destruct (C7_charge_off_ratio float_of_digits example_data
              example_table (example_table !!! 2%nat) example_table_Ok)
    as (nco & acl & Hnco & Hacl & _ & _ & _ & H50).
  { apply lookup_total_elem_of. by_eval. }
  exists nco, acl. exact (conj Hnco (conj Hacl H50)).
Defined.

(** The example table is in date order although Bank A's records arrive
    latest first. *)
Lemma C6_witness :
  Timestamp_le (row_Date (example_table !!! 0%nat))
               (row_Date (example_table !!! 2%nat)).
Proof.
  apply (C6_table_sorted_by_date float_of_digits example_data example_table
           0 2 _ _ example_table_Ok); [lia|..];
    apply list_lookup_lookup_total_lt, Nat.ltb_lt; by_eval.
Defined.

Lemma coercible_list_to_map (l : list (string * pyval)) :
  Forall (fun kv => coercible kv.2) l ->
  forall code, coercible (dict_get (list_to_map l) code).
Proof.
  induction 1 as [|[k v] l Hv _ IH]; intros code; unfold dict_get in *.
  - change (list_to_map []) with (∅ : gmap string pyval).
    by rewrite lookup_empty.
  - change (list_to_map ((k, v) :: l))
      with (<[k := v]> (list_to_map l : gmap string pyval)).
    destruct (decide (k = code)) as [->|Hne].
    + by rewrite lookup_insert_eq.
    + rewrite lookup_insert_ne by done. apply IH.
Qed.

Lemma capital_record_well_formed repdte t :
  to_datetime (PyStr repdte) = Ok t ->
  well_formed_record (capital_record repdte).
Proof.
  intros Ht. split.
  - exists repdte, t. split; [|done]. unfold capital_record. simpl.
    by rewrite lookup_insert_eq.
  - apply coercible_list_to_map.
    repeat (apply Forall_cons; split; [simpl; first [exact I | by eexists]|]).
    apply Forall_nil_2.
Qed.

Lemma sparse_record_well_formed : well_formed_record sparse_record.
Proof.
  split.
  - exists "20190331", (mkTimestamp 2019 3 31). split; by_eval.
  - apply coercible_list_to_map.
    repeat (apply Forall_cons; split; [exact I|]). apply Forall_nil_2.
Qed.

Lemma example_data_inv bank_name financials :
  (bank_name, financials) ∈ example_data ->
  financials = [capital_record "20190101"; capital_record "20181231"]
  \/ financials = [sparse_record] \/ financials = [].
Proof.
  unfold example_data. rewrite !elem_of_cons, elem_of_nil.
  intros [H | [H | [H | H] ] ]; [| | |done]; injection H as _ ->; auto.
Qed.

(** The example input is well formed, a null, a missing field and a
    string that is no number included: the engine returns a table with
    its three rows. *)
Lemma C5_witness :
  exists df,
    calculate_metrics float_of_digits example_data = Ok df
    /\ length df = 3%nat.
Proof.
  destruct (C5_rows_for_well_formed_records float_of_digits example_data)
    as (df & Hdf & Hlen & _).
  - intros b fs [ -> | [ -> | -> ] ]%example_data_inv.
    + apply Forall_cons. split.
      { apply (capital_record_well_formed _ (mkTimestamp 2019 1 1)). by_eval. }
      apply Forall_cons. split; [|apply Forall_nil_2].
      apply (capital_record_well_formed _ (mkTimestamp 2018 12 31)). by_eval.
    + apply Forall_cons. split; [|apply Forall_nil_2].
      apply sparse_record_well_formed.
    + apply Forall_nil_2.
  - intros H. apply (f_equal length) in H. vm_compute in H. discriminate H.
  - exists df. split; [exact Hdf|]. rewrite Hlen. by_eval.
Defined.

(** C5 as stated fails on the reporting date: a date stamp that names no
    calendar day makes the date conversion of line 230 raise, and a record
    without a date stamp makes the sort key of line 167 raise. *)
Lemma C5_counterexample :
  calculate_metrics float_of_digits malformed_date_data = Raise ValueError
  /\ calculate_metrics float_of_digits missing_date_data = Raise KeyError.
Proof. split; by_eval. Qed.

(** The example input has no bank with two records of one date, and its
    table no two rows of one bank and date. *)
Lemma C9_witness : NoDup (row_key <$> example_table).
Proof.
  apply (C9_rows_unique_per_bank_and_date float_of_digits example_data
           example_table example_table_Ok).
  - apply (bool_decide_unpack _). by_eval.
  - intros b fs [ -> | [ -> | -> ] ]%example_data_inv;
      apply (bool_decide_unpack _); by_eval.
Defined.

Local Abbreviation row_of financial :=
  (get_Ok ∅ (derive_row float_of_digits "Bank A" [] 0 financial)).

(** Two records of 2018-12-31 that differ in the three CECL fields give
    rows with the same capital figures. *)
Lemma C10_witness :
  row_of (capital_record "20181231") !! "CECL Transition Amount"
    = Some (PyInt 0)
  /\ Forall (fun name =>
               row_of (capital_record "20181231") !! name
               = row_of (capital_record_variant "20181231") !! name)
            ratio_names.
Proof.
  destruct (C10_pre_2019_capital_ignores_cecl_fields float_of_digits
              "Bank A" "Bank A" [] [] 0 0
              (capital_record "20181231")
              (capital_record_variant "20181231")
              (row_of (capital_record "20181231"))
              (row_of (capital_record_variant "20181231"))
              (mkTimestamp 2018 12 31))
    as (H1 & _ & _ & Hratios).
  - intros k Hk. unfold cecl_codes in Hk.
    apply not_elem_of_cons in Hk as [Hk1 Hk].
    apply not_elem_of_cons in Hk as [Hk2 Hk].
    apply not_elem_of_cons in Hk as [Hk3 _].
    unfold capital_record_variant. by rewrite !lookup_insert_ne.
  - by_eval.
  - by_eval.
  - apply get_Ok_eq. by_eval.
  - apply get_Ok_eq. by_eval.
  - exact (conj H1 Hratios).
Defined.

(** ** The further properties at work *)

Local Abbreviation dashboard_table :=
  (get_Ok [] (calculate_metrics float_of_digits dashboard_data)).

Local Abbreviation example_columns := ("Bank" :: "Date" :: metric_columns).

Lemma dashboard_table_Ok :
  calculate_metrics float_of_digits dashboard_data = Ok dashboard_table.
Proof. apply get_Ok_eq. by_eval. Qed.

(** The last row of the example table names its bank, and its growth
    rate is null or a float. *)
Lemma table_row_shape_witness :
  (exists bank_name,
     row_cells (example_table !!! 2%nat) !! "Bank" = Some (PyStr bank_name))
  /\ (row_cells (example_table !!! 2%nat)
        !! "Non-Owner Occupied CRE 3-Year Growth Rate" = Some PyNone
      \/ exists f, row_cells (example_table !!! 2%nat)
                     !! "Non-Owner Occupied CRE 3-Year Growth Rate"
                   = Some (PyFloat f)).
Proof.
  destruct (table_row_shape float_of_digits example_data example_table
              (example_table !!! 2%nat) example_table_Ok)
    as (_ & Hbank & _ & _ & Hgrowth).
  - apply lookup_total_elem_of. by_eval.
  - exact (conj Hbank Hgrowth).
Defined.

(** The example table has a row for each of the three records. *)
Lemma table_of_records_witness :
  length example_table = length (concat example_data.*2)
  /\ example_table ≠ [].
Proof.
  destruct (table_of_records float_of_digits example_data example_table
              example_table_Ok) as (_ & Hlen & Hne).
  exact (conj Hlen Hne).
Defined.

(** The run on a record without a date stamp ends in a [KeyError]. *)
Lemma calculate_metrics_raises_witness :
  input_error KeyError
  /\ KeyError ≠ ZeroDivisionError /\ KeyError ≠ IndexError.
Proof.
  apply (calculate_metrics_raises float_of_digits missing_date_data KeyError).
  by_eval.
Defined.

(** The example table was returned: the example input has a record, and
    the two date stamps of Bank A are both strings. *)
Lemma calculate_metrics_needs_witness :
  concat example_data.*2 ≠ []
  /\ sortable_dates [capital_record "20190101"; capital_record "20181231"].
Proof.
  destruct (calculate_metrics_needs float_of_digits example_data
              example_table example_table_Ok) as [Hne Hbanks].
  destruct (Hbanks "Bank A"
              [capital_record "20190101"; capital_record "20181231"])
    as [_ Hsort]; [by left|].
  split; [exact Hne|]. apply Hsort. simpl. lia.
Defined.


(** The columns of the example table pass the selection of [main]. *)
Lemma main_keeps_columns_witness :
  main_select example_columns = Ok (main_sorted_columns example_columns).
Proof.
  destruct (main_keeps_columns float_of_digits example_data example_table
              example_columns example_table_Ok
              (frame_columns_of_table _ _ _ example_table_Ok)) as [H _].
  exact H.
Defined.

(** On the example table the selector offers the whole of
    [metric_order]. *)
Lemma dashboard_offers_all_metrics_witness :
  available_metrics example_columns = metric_order.
Proof.
  destruct (dashboard_offers_all_metrics float_of_digits example_data
              example_table example_columns example_table_Ok
              (frame_columns_of_table _ _ _ example_table_Ok)) as [H _].
  exact H.
Defined.

(** On the example table the detail table lists the whole of
    [metric_order]. *)
Lemma click_table_lists_metrics_witness :
  click_sorted_columns example_columns = metric_order.
Proof.
  destruct (click_table_lists_metrics float_of_digits example_data
              example_table example_columns example_table_Ok
              (frame_columns_of_table _ _ _ example_table_Ok)) as [H _].
  exact H.
Defined.

Lemma dashboard_data_inv bank_name financials :
  (bank_name, financials) ∈ dashboard_data ->
  financials = [capital_record "20190101"; capital_record "20181231"]
  \/ financials = [sparse_record].
Proof.
  unfold dashboard_data. rewrite !elem_of_cons, elem_of_nil.
  intros [H | [H | H] ]; [| |done]; injection H as _ ->; auto.
Qed.

(** The pivot of the trend chart returns on the table of two banks of the
    mapping. *)
Lemma trend_pivot_returns_witness :
  exists cells,
    pivot (trend_rows ["Truist Bank"] dashboard_table) "Total Assets"
    = Ok cells.
Proof.
  destruct (trend_pivot_returns float_of_digits dashboard_data
              dashboard_table ["Truist Bank"] "Total Assets"
              dashboard_table_Ok) as (cells & Hcells & _).
  - apply (bool_decide_unpack _). by_eval.
  - intros b fs [ -> | -> ]%dashboard_data_inv;
      apply (bool_decide_unpack _); by_eval.
  - by exists cells.
Defined.

Local Abbreviation example_bank_info :=
  [JStr "Truist Bank"; JInt 7; JDict [("cert", JStr "9846")]].

Local Abbreviation example_fetch :=
  (get_Ok init (fetch_data example_net init example_bank_info)).

Lemma example_fetch_Ok :
  fetch_data example_net init example_bank_info = Ok example_fetch.
Proof. apply get_Ok_eq. by_eval. Qed.

(** After fetching from the example network the two dicts have the same
    keys. *)
Lemma fetch_data_same_banks_witness :
  (self_institutions_data example_fetch).*1
  = (self_financials_data example_fetch).*1.
Proof.
  destruct (fetch_data_same_banks example_net example_bank_info init
              example_fetch example_fetch_Ok eq_refl) as [H _].
  exact H.
Defined.

(** Three bank items make at most six requests. *)
Lemma fetch_data_grows_witness :
  (requests init <= requests example_fetch
   <= requests init + 2 * length example_bank_info)%nat.
Proof.
  destruct (fetch_data_grows example_net example_bank_info init
              example_fetch example_fetch_Ok) as (_ & _ & H).
  exact H.
Defined.

(** On a dead network the fetch returns with nothing stored. *)
Lemma fetch_data_failed_requests_witness :
  exists st',
    fetch_data dead_net init example_bank_info = Ok st'
    /\ self_institutions_data st' = self_institutions_data init
    /\ self_financials_data st' = self_financials_data init.
Proof.
  apply (fetch_data_failed_requests dead_net example_bank_info init).
  - reflexivity.
  - repeat constructor; intros d [= <-]; by eexists.
Defined.

(** The banks of the example in reverse order give the rows of the
    example table. *)
Lemma calculate_metrics_bank_order_witness :
  exists df2,
    calculate_metrics float_of_digits (reverse example_data) = Ok df2
    /\ df2 ≡ₚ example_table.
Proof.
  apply (calculate_metrics_bank_order float_of_digits example_data
           (reverse example_data) example_table).
  - symmetry. apply reverse_Permutation.
  - exact example_table_Ok.
Defined.

(** Without Bank B, the example table loses the row of Bank B and keeps
    the values of the others. *)
Lemma calculate_metrics_other_banks_witness :
  exists df',
    calculate_metrics float_of_digits
      ([("Bank A", [capital_record "20190101"; capital_record "20181231"])]
       ++ [("Bank C", [])]) = Ok df'
    /\ float64_view <$> df'
       ≡ₚ float64_view
            <$> filter (fun row => bank_of row ≠ Some "Bank B")
                       example_table.
Proof.
  apply (calculate_metrics_other_banks float_of_digits
           [("Bank A", [capital_record "20190101"; capital_record "20181231"])]
           "Bank B" [sparse_record] [("Bank C", [])] example_table).
  - exact example_table_Ok.
  - apply (bool_decide_unpack _). by_eval.
  - intros H. discriminate H.
Defined.

Local Abbreviation reordered_table :=
  (get_Ok [] (calculate_metrics float_of_digits example_data_reordered)).

Lemma reordered_table_Ok :
  calculate_metrics float_of_digits example_data_reordered
  = Ok reordered_table.
Proof. apply get_Ok_eq. by_eval. Qed.

(** The record of 2019-01-01 gives rows of the same date in the example
    table and in the table of the reordered example. *)
Lemma row_depends_on_record_witness :
  exists row1 row2,
    row1 ∈ example_table /\ row2 ∈ reordered_table
    /\ row_Date row1 = row_Date row2.
Proof.
  destruct (record_has_row float_of_digits example_data example_table
              "Bank A" [capital_record "20190101"; capital_record "20181231"]
              (capital_record "20190101") example_table_Ok)
    as (row1 & sf1 & i1 & Hrow1 & H1); [by left|by left|].
  destruct (record_has_row float_of_digits example_data_reordered
              reordered_table "Bank A"
              [capital_record "20181231"; capital_record "20190101"]
              (capital_record "20190101") reordered_table_Ok)
    as (row2 & sf2 & i2 & Hrow2 & H2); [by left|by right; left|].
  destruct (row_depends_on_record float_of_digits example_data
              example_data_reordered row1 row2 "Bank A" sf1 sf2 i1 i2
              (capital_record "20190101") H1 H2) as [Hdate _].
  by exists row1, row2.
Defined.
